(** * DXVK binding layouts, native layout objects and the pipeline manager

    A shallow embedding of [src/dxvk/dxvk_pipelayout.{h,cpp}] and
    [src/dxvk/dxvk_pipemanager.cpp], followed by the properties of the
    design document that are checked against it.

    Conventions.
    - A [uint32_t] is a [Z]; every place where the C++ arithmetic can wrap
      is written with [u32].
    - Vulkan flag words ([VkShaderStageFlags], [VkAccessFlags]) are [Z] and
      are combined with [Z.lor] / tested with [Z.land].
    - Vulkan enumerations ([VkDescriptorType], [VkImageViewType]) are [Z]
      carrying the numeric value of the enumerator.
    - A [std::vector] is a [list]; a [std::array<T, SetCount>] is a
      [SetArray T]; the [std::unordered_map<uint32_t, _>] of
      [DxvkBindingLayoutObjects] is a [gmap Z _]. *)

From Stdlib Require Import ZArith Lia Bool.
From stdpp Require Import base option list strings pretty gmap.

Local Open Scope Z_scope.

(** ** Machine integers *)

Definition u32 (z : Z) : Z := z mod 2 ^ 32.

(** [flags & bit] used as a C++ condition. *)
Definition has_flag (flags bit : Z) : bool := negb (Z.land flags bit =? 0).

(** ** Vulkan enumerators used by the code (values of vulkan_core.h) *)

Definition VK_SHADER_STAGE_VERTEX_BIT                  : Z := 0x01.
Definition VK_SHADER_STAGE_TESSELLATION_CONTROL_BIT    : Z := 0x02.
Definition VK_SHADER_STAGE_TESSELLATION_EVALUATION_BIT : Z := 0x04.
Definition VK_SHADER_STAGE_GEOMETRY_BIT                : Z := 0x08.
Definition VK_SHADER_STAGE_FRAGMENT_BIT                : Z := 0x10.
Definition VK_SHADER_STAGE_COMPUTE_BIT                 : Z := 0x20.

Definition VK_SHADER_STAGE_ALL_GRAPHICS                 : Z := 0x1F.

Definition VK_ACCESS_SHADER_WRITE_BIT : Z := 0x40.

Definition VK_PIPELINE_BIND_POINT_GRAPHICS : Z := 0.
Definition VK_PIPELINE_BIND_POINT_COMPUTE  : Z := 1.

Definition VK_DESCRIPTOR_TYPE_SAMPLER                : Z := 0.
Definition VK_DESCRIPTOR_TYPE_COMBINED_IMAGE_SAMPLER : Z := 1.
Definition VK_DESCRIPTOR_TYPE_SAMPLED_IMAGE          : Z := 2.
Definition VK_DESCRIPTOR_TYPE_STORAGE_IMAGE          : Z := 3.
Definition VK_DESCRIPTOR_TYPE_UNIFORM_TEXEL_BUFFER   : Z := 4.
Definition VK_DESCRIPTOR_TYPE_STORAGE_TEXEL_BUFFER   : Z := 5.
Definition VK_DESCRIPTOR_TYPE_UNIFORM_BUFFER         : Z := 6.
Definition VK_DESCRIPTOR_TYPE_STORAGE_BUFFER         : Z := 7.
Definition VK_DESCRIPTOR_TYPE_UNIFORM_BUFFER_DYNAMIC : Z := 8.
Definition VK_DESCRIPTOR_TYPE_STORAGE_BUFFER_DYNAMIC : Z := 9.

Record VkPushConstantRange := mkPushConstantRange {
  stageFlags : Z;
  offset     : Z;
  size       : Z
}.

(** ** Descriptor set indices ([struct DxvkDescriptorSets]) *)

Module DxvkDescriptorSets.
Definition CsAll     : Z := 0.
Definition FsViews   : Z := 0.
Definition FsBuffers : Z := 1.
Definition VsAll     : Z := 2.
Definition SetCount  : Z := 3.
End DxvkDescriptorSets.

(** [std::array<T, DxvkDescriptorSets::SetCount>].  Indexing with a value
    that is not below [SetCount] is out of bounds in the source; the model
    sends such an index to the last cell, and nothing below relies on it. *)
Record SetArray (T : Type) := mkSetArray { cell0 : T; cell1 : T; cell2 : T }.
Arguments mkSetArray {T} _ _ _.
Arguments cell0 {T} _.
Arguments cell1 {T} _.
Arguments cell2 {T} _.

Definition sa_get {T} (a : SetArray T) (i : Z) : T :=
  if i =? 0 then cell0 a else if i =? 1 then cell1 a else cell2 a.

Definition sa_set {T} (a : SetArray T) (i : Z) (x : T) : SetArray T :=
  if i =? 0 then mkSetArray x (cell1 a) (cell2 a)
  else if i =? 1 then mkSetArray (cell0 a) x (cell2 a)
  else mkSetArray (cell0 a) (cell1 a) x.

Definition sa_fill {T} (x : T) : SetArray T := mkSetArray x x x.

(** The index sequence of [for (i = 0; i < SetCount; i++)]. *)
Definition set_indices : list Z := [0; 1; 2].

(** ** [struct DxvkBindingInfo] *)

Record DxvkBindingInfo := mkBindingInfo {
  descriptorType  : Z;   (* VkDescriptorType *)
  resourceBinding : Z;   (* uint32_t, API binding slot *)
  viewType        : Z;   (* VkImageViewType *)
  stages          : Z;   (* VkShaderStageFlags *)
  access          : Z    (* VkAccessFlags *)
}.

Module BindingInfo.

Definition computeSetIndex (b : DxvkBindingInfo) : Z :=
  if has_flag (stages b) VK_SHADER_STAGE_COMPUTE_BIT then
    DxvkDescriptorSets.CsAll
  else if has_flag (stages b) VK_SHADER_STAGE_FRAGMENT_BIT then
    if (descriptorType b =? VK_DESCRIPTOR_TYPE_UNIFORM_BUFFER)
    || (descriptorType b =? VK_DESCRIPTOR_TYPE_STORAGE_BUFFER)
    then DxvkDescriptorSets.FsBuffers
    else DxvkDescriptorSets.FsViews
  else
    DxvkDescriptorSets.VsAll.

Definition canMerge (this binding : DxvkBindingInfo) : bool :=
  if negb (Z.land (stages this) VK_SHADER_STAGE_FRAGMENT_BIT
           =? Z.land (stages binding) VK_SHADER_STAGE_FRAGMENT_BIT)
  then false
  else (descriptorType this =? descriptorType binding)
    && (resourceBinding this =? resourceBinding binding)
    && (viewType this =? viewType binding).

Definition merge (this binding : DxvkBindingInfo) : DxvkBindingInfo :=
  {| descriptorType  := descriptorType this;
     resourceBinding := resourceBinding this;
     viewType        := viewType this;
     stages          := Z.lor (stages this) (stages binding);
     access          := Z.lor (access this) (access binding) |}.

Definition eq (this other : DxvkBindingInfo) : bool :=
     (descriptorType this =? descriptorType other)
  && (resourceBinding this =? resourceBinding other)
  && (viewType this =? viewType other)
  && (stages this =? stages other)
  && (access this =? access other).

End BindingInfo.

(** ** [class DxvkBindingLayout] *)

Record DxvkBindingLayout := mkBindingLayout {
  m_bindings  : SetArray (list DxvkBindingInfo);
  m_pushConst : VkPushConstantRange
}.

Module BindingLayout.

(** The constructor: empty sets, push-constant range [{ 0, 0, 0 }]. *)
Definition new : DxvkBindingLayout :=
  {| m_bindings := sa_fill []; m_pushConst := mkPushConstantRange 0 0 0 |}.

Definition getBindingCount (l : DxvkBindingLayout) (set : Z) : Z :=
  u32 (Z.of_nat (length (sa_get (m_bindings l) set))).

Definition getPushConstantRange (l : DxvkBindingLayout) : VkPushConstantRange :=
  m_pushConst l.

(** The loop of [addBinding] over one set followed by its [push_back]:
    the first entry that can merge absorbs [binding]; when none can,
    [binding] goes to the end. *)
Fixpoint addToSet (bs : list DxvkBindingInfo) (binding : DxvkBindingInfo)
  : list DxvkBindingInfo :=
  match bs with
  | [] => [binding]
  | b :: rest =>
      if BindingInfo.canMerge b binding
      then BindingInfo.merge b binding :: rest
      else b :: addToSet rest binding
  end.

Definition addBinding (l : DxvkBindingLayout) (binding : DxvkBindingInfo)
  : DxvkBindingLayout :=
  let set := BindingInfo.computeSetIndex binding in
  {| m_bindings  := sa_set (m_bindings l) set
                      (addToSet (sa_get (m_bindings l) set) binding);
     m_pushConst := m_pushConst l |}.

Definition addPushConstantRange (l : DxvkBindingLayout) (range : VkPushConstantRange)
  : DxvkBindingLayout :=
  let pc     := m_pushConst l in
  let oldEnd := u32 (offset pc + size pc) in
  let newEnd := u32 (offset range + size range) in
  let off    := Z.min (offset pc) (offset range) in
  {| m_bindings  := m_bindings l;
     m_pushConst :=
       {| stageFlags := Z.lor (stageFlags pc) (stageFlags range);
          offset     := off;
          size       := u32 (Z.max oldEnd newEnd - off) |} |}.

(** Every binding of every set of [layout], in the order the two nested
    loops of [merge] visit them. *)
Definition allBindings (layout : DxvkBindingLayout) : list DxvkBindingInfo :=
  concat (map (sa_get (m_bindings layout)) set_indices).

Definition merge (l layout : DxvkBindingLayout) : DxvkBindingLayout :=
  addPushConstantRange
    (fold_left addBinding (allBindings layout) l)
    (m_pushConst layout).

(** Entry-by-entry comparison of two sets whose sizes already agree. *)
Fixpoint eqEntries (xs ys : list DxvkBindingInfo) : bool :=
  match xs, ys with
  | x :: xs', y :: ys' => BindingInfo.eq x y && eqEntries xs' ys'
  | _, _ => true
  end.

Definition eq (this other : DxvkBindingLayout) : bool :=
  if negb (forallb (fun i =>
             Nat.eqb (length (sa_get (m_bindings this) i))
                     (length (sa_get (m_bindings other) i))) set_indices)
  then false
  else if negb (forallb (fun i =>
             eqEntries (sa_get (m_bindings this) i)
                       (sa_get (m_bindings other) i)) set_indices)
  then false
  else if negb (stageFlags (m_pushConst this) =? stageFlags (m_pushConst other))
       || negb (offset (m_pushConst this) =? offset (m_pushConst other))
       || negb (size (m_pushConst this) =? size (m_pushConst other))
  then false
  else true.

End BindingLayout.

(** ** The native device

    The Vulkan driver is outside the program.  It is modelled by the set of
    native objects that are currently alive, a supply of fresh handles, and
    the outcomes the driver is going to give to the next creation calls
    ([true] for [VK_SUCCESS]; once the list is used up every call
    succeeds).  A failed creation call leaves its output handle alone. *)

Inductive VkObjectKind :=
| DescriptorSetLayoutObj
| DescriptorUpdateTemplateObj
| PipelineLayoutObj.

#[global] Instance VkObjectKind_eq_dec : EqDecision VkObjectKind.
Proof. solve_decision. Defined.

Definition VK_NULL_HANDLE : Z := 0.

Record VkDevice := mkDevice {
  vk_results : list bool;
  vk_fresh   : Z;
  vk_live    : list (VkObjectKind * Z)
}.

Definition vkDeviceInit (results : list bool) : VkDevice :=
  {| vk_results := results; vk_fresh := 1; vk_live := [] |}.

(** [vkCreate*]: [Some h] on [VK_SUCCESS], [None] otherwise. *)
Definition vkCreate (kind : VkObjectKind) (d : VkDevice) : option Z * VkDevice :=
  match vk_results d with
  | false :: rest =>
      (None, {| vk_results := rest; vk_fresh := vk_fresh d; vk_live := vk_live d |})
  | ok =>
      (Some (vk_fresh d),
       {| vk_results := tail ok;
          vk_fresh   := vk_fresh d + 1;
          vk_live    := vk_live d ++ [(kind, vk_fresh d)] |})
  end.

(** [vkDestroy*]: destroying [VK_NULL_HANDLE] does nothing. *)
Definition vkDestroy (kind : VkObjectKind) (h : Z) (d : VkDevice) : VkDevice :=
  {| vk_results := vk_results d;
     vk_fresh   := vk_fresh d;
     vk_live    := filter (fun o => o ≠ (kind, h)) (vk_live d) |}.

(** Code that works on a state [S] and may throw a [DxvkError]: the state
    is threaded through, and a throw keeps the state reached so far.
    [Undefined] is the outcome of code that leaves defined behaviour (an
    access outside a [std::array]): C++ promises nothing about what such a
    run does, so it is an outcome of its own, without a result, and the
    steps that would follow are not run. *)
Inductive outcome (A : Type) :=
| Returned (a : A)
| Thrown (what : string)
| Undefined.
Arguments Returned {A} _.
Arguments Thrown {A} _.
Arguments Undefined {A}.

Definition Eff (S A : Type) : Type := S -> outcome A * S.

Definition eff_ret {S A} (a : A) : Eff S A := fun s => (Returned a, s).

Definition eff_throw {S A} (what : string) : Eff S A := fun s => (Thrown what, s).

Definition eff_undefined {S A} : Eff S A := fun s => (Undefined, s).

Definition eff_bind {S A B} (c : Eff S A) (k : A -> Eff S B) : Eff S B :=
  fun s =>
    match c s with
    | (Returned a, s') => k a s'
    | (Thrown what, s') => (Thrown what, s')
    | (Undefined, s') => (Undefined, s')
    end.

Declare Scope eff_scope.
Delimit Scope eff_scope with eff.
Notation "'do' x <- c ; k" := (eff_bind c (fun x => k))
  (at level 10, x name, c at level 100, k at level 200) : eff_scope.
Notation "'run' c ; k" := (eff_bind c (fun _ => k))
  (at level 10, c at level 100, k at level 200) : eff_scope.

(** A loop body run over a sequence, left to right, stopping at a throw. *)
Fixpoint eff_fold {S A T} (f : T -> A -> Eff S T) (xs : list A) (t : T) : Eff S T :=
  match xs with
  | [] => eff_ret t
  | x :: rest => eff_bind (f t x) (eff_fold f rest)
  end.

(** Code that talks to the driver. *)
Definition Vk (A : Type) : Type := Eff VkDevice A.

(** [if (vkCreate...(...) != VK_SUCCESS) throw DxvkError(what);] *)
Definition createOrThrow (kind : VkObjectKind) (what : string) : Vk Z :=
  fun d =>
    match vkCreate kind d with
    | (Some h, d') => (Returned h, d')
    | (None, d')   => (Thrown what, d')
    end.

Definition destroy (kind : VkObjectKind) (h : Z) : Vk unit :=
  fun d => (Returned tt, vkDestroy kind h d).

(** ** [class DxvkBindingLayoutObjects] *)

Record DxvkBindingMapping := mkBindingMapping {
  set     : Z;
  binding : Z;
  constId : Z
}.

Record DxvkBindingLayoutObjects := mkBindingLayoutObjects {
  m_layout         : DxvkBindingLayout;
  m_pipelineLayout : Z;
  m_setMask        : Z;
  m_setLayouts     : SetArray Z;
  m_setTemplates   : SetArray Z;
  m_bindingOffsets : SetArray Z;
  m_mapping        : gmap Z DxvkBindingMapping
}.

Module BindingLayoutObjects.

(** The member initialisers. *)
Definition init (layout : DxvkBindingLayout) : DxvkBindingLayoutObjects :=
  {| m_layout         := layout;
     m_pipelineLayout := VK_NULL_HANDLE;
     m_setMask        := 0;
     m_setLayouts     := sa_fill VK_NULL_HANDLE;
     m_setTemplates   := sa_fill VK_NULL_HANDLE;
     m_bindingOffsets := sa_fill 0;
     m_mapping        := ∅ |}.

(** [std::unordered_map::insert]: an existing entry is kept. *)
Definition insertIfAbsent (k : Z) (v : DxvkBindingMapping)
    (m : gmap Z DxvkBindingMapping) : gmap Z DxvkBindingMapping :=
  match m !! k with
  | Some _ => m
  | None   => <[k := v]> m
  end.

(** The inner loop over the bindings of set [i], from index [j] on:
    returns the extended table and the advanced [constId]. *)
Fixpoint mapBindings (i j : Z) (bs : list DxvkBindingInfo)
    (m : gmap Z DxvkBindingMapping) (cid : Z)
  : gmap Z DxvkBindingMapping * Z :=
  match bs with
  | [] => (m, cid)
  | b :: rest =>
      mapBindings i (j + 1) rest
        (insertIfAbsent (resourceBinding b)
           {| set := i; binding := j; constId := cid |} m)
        (u32 (cid + 1))
  end.

Section WithLimits.

(** [MaxNumActiveBindings] of dxvk_limits.h, the number of elements of
    the two local arrays [bindingInfos] and [templateInfos]. *)
Variable MaxNumActiveBindings : Z.

(** One iteration of the loop over the descriptor sets.  The inner loop
    writes [bindingInfos[j]] and [templateInfos[j]] for every
    [j < bindingCount] without a check, so it stays inside the two arrays
    exactly when [bindingCount <= MaxNumActiveBindings]; with more
    bindings in the set it writes past their end. *)
Definition constructSet (st : DxvkBindingLayoutObjects * Z) (i : Z)
  : Vk (DxvkBindingLayoutObjects * Z) :=
  let '(o, cid) := st in
  let bindingCount := BindingLayout.getBindingCount (m_layout o) i in
  if MaxNumActiveBindings <? bindingCount then eff_undefined else
  let '(mapping, cid') :=
    mapBindings i 0
      (take (Z.to_nat bindingCount) (sa_get (m_bindings (m_layout o)) i))
      (m_mapping o) cid in
  (do sl <- createOrThrow DescriptorSetLayoutObj
              "DxvkBindingLayoutObjects: Failed to create descriptor set layout";
   if bindingCount =? 0 then
     eff_ret ({| m_layout         := m_layout o;
                m_pipelineLayout := m_pipelineLayout o;
                m_setMask        := m_setMask o;
                m_setLayouts     := sa_set (m_setLayouts o) i sl;
                m_setTemplates   := m_setTemplates o;
                m_bindingOffsets := sa_set (m_bindingOffsets o) i cid;
                m_mapping        := mapping |}, cid')
   else
     do tp <- createOrThrow DescriptorUpdateTemplateObj
                "DxvkBindingLayoutObjects: Failed to create descriptor update template";
     eff_ret ({| m_layout         := m_layout o;
                m_pipelineLayout := m_pipelineLayout o;
                m_setMask        := Z.lor (m_setMask o) (u32 (Z.shiftl 1 i));
                m_setLayouts     := sa_set (m_setLayouts o) i sl;
                m_setTemplates   := sa_set (m_setTemplates o) i tp;
                m_bindingOffsets := sa_set (m_bindingOffsets o) i cid;
                m_mapping        := mapping |}, cid'))%eff.

(** The constructor.  When it throws, the object under construction is
    dropped without its destructor being run (C++ runs the destructor of
    fully constructed objects only, and the handle members are plain
    values), so whatever the device holds at that point stays there. *)
Definition new (layout : DxvkBindingLayout) : Vk DxvkBindingLayoutObjects :=
  (do st <- eff_fold constructSet set_indices (init layout, 0);
   do pl <- createOrThrow PipelineLayoutObj
              "DxvkBindingLayoutObjects: Failed to create pipeline layout";
   eff_ret {| m_layout         := m_layout (fst st);
             m_pipelineLayout := pl;
             m_setMask        := m_setMask (fst st);
             m_setLayouts     := m_setLayouts (fst st);
             m_setTemplates   := m_setTemplates (fst st);
             m_bindingOffsets := m_bindingOffsets (fst st);
             m_mapping        := m_mapping (fst st) |})%eff.

End WithLimits.

(** The destructor. *)
Definition delete (o : DxvkBindingLayoutObjects) : Vk unit :=
  (run destroy PipelineLayoutObj (m_pipelineLayout o);
   eff_fold (fun _ i =>
      run destroy DescriptorSetLayoutObj (sa_get (m_setLayouts o) i);
      destroy DescriptorUpdateTemplateObj (sa_get (m_setTemplates o) i))
     set_indices tt)%eff.

Definition lookupBinding (o : DxvkBindingLayoutObjects) (index : Z)
  : option DxvkBindingMapping :=
  m_mapping o !! index.

Definition getSetMask (o : DxvkBindingLayoutObjects) : Z := m_setMask o.

Definition getFirstBinding (o : DxvkBindingLayoutObjects) (s : Z) : Z :=
  sa_get (m_bindingOffsets o) s.

Definition getSetLayout (o : DxvkBindingLayoutObjects) (s : Z) : Z :=
  sa_get (m_setLayouts o) s.

Definition getSetUpdateTemplate (o : DxvkBindingLayoutObjects) (s : Z) : Z :=
  sa_get (m_setTemplates o) s.

Definition getPipelineLayout (o : DxvkBindingLayoutObjects) : Z :=
  m_pipelineLayout o.

(** The two nested loops of [getAccessFlags]: the inner one runs over the
    first [getBindingCount(i)] entries of set [i]. *)
Definition getAccessFlags (o : DxvkBindingLayoutObjects) : Z :=
  fold_left
    (fun flags i =>
       fold_left (fun f b => Z.lor f (access b))
         (take (Z.to_nat (BindingLayout.getBindingCount (m_layout o) i))
               (sa_get (m_bindings (m_layout o)) i))
         flags)
    set_indices 0.

End BindingLayoutObjects.

(** ** [class DxvkDescriptorState] *)

Record DxvkDescriptorState := mkDescriptorState {
  m_dirtyBuffers : Z;        (* VkShaderStageFlags *)
  m_dirtyViews   : Z;        (* VkShaderStageFlags *)
  m_sets         : list Z    (* std::array<VkDescriptorSet, 2 * SetCount> *)
}.

Module DescriptorState.

(** [flags &= ~stages] on 32-bit flag words. *)
Definition clearBits (flags stages : Z) : Z :=
  Z.land flags (u32 (Z.lnot stages)).

Definition dirtyBuffers (st : DxvkDescriptorState) (stages : Z) : DxvkDescriptorState :=
  {| m_dirtyBuffers := Z.lor (m_dirtyBuffers st) stages;
     m_dirtyViews   := m_dirtyViews st;
     m_sets         := m_sets st |}.

Definition dirtyViews (st : DxvkDescriptorState) (stages : Z) : DxvkDescriptorState :=
  {| m_dirtyBuffers := m_dirtyBuffers st;
     m_dirtyViews   := Z.lor (m_dirtyViews st) stages;
     m_sets         := m_sets st |}.

Definition dirtyStages (st : DxvkDescriptorState) (stages : Z) : DxvkDescriptorState :=
  {| m_dirtyBuffers := Z.lor (m_dirtyBuffers st) stages;
     m_dirtyViews   := Z.lor (m_dirtyViews st) stages;
     m_sets         := m_sets st |}.

Definition clearStages (st : DxvkDescriptorState) (stages : Z) : DxvkDescriptorState :=
  {| m_dirtyBuffers := clearBits (m_dirtyBuffers st) stages;
     m_dirtyViews   := clearBits (m_dirtyViews st) stages;
     m_sets         := m_sets st |}.

Definition hasDirtyGraphicsSets (st : DxvkDescriptorState) : bool :=
  has_flag (Z.lor (m_dirtyBuffers st) (m_dirtyViews st)) VK_SHADER_STAGE_ALL_GRAPHICS.

Definition hasDirtyComputeSets (st : DxvkDescriptorState) : bool :=
  has_flag (Z.lor (m_dirtyBuffers st) (m_dirtyViews st)) VK_SHADER_STAGE_COMPUTE_BIT.

Definition getDirtyGraphicsSets (st : DxvkDescriptorState) : Z :=
  let result := 0 in
  let result :=
    if has_flag (m_dirtyBuffers st) VK_SHADER_STAGE_FRAGMENT_BIT
    then Z.lor result (u32 (Z.shiftl 1 DxvkDescriptorSets.FsBuffers))
    else result in
  let result :=
    if has_flag (m_dirtyViews st) VK_SHADER_STAGE_FRAGMENT_BIT
    then Z.lor result
           (Z.lor (u32 (Z.shiftl 1 DxvkDescriptorSets.FsViews))
                  (u32 (Z.shiftl 1 DxvkDescriptorSets.FsBuffers)))
    else result in
  let result :=
    if has_flag (Z.lor (m_dirtyBuffers st) (m_dirtyViews st))
         (clearBits VK_SHADER_STAGE_ALL_GRAPHICS VK_SHADER_STAGE_FRAGMENT_BIT)
    then Z.lor result (u32 (Z.shiftl 1 DxvkDescriptorSets.VsAll))
    else result in
  result.

Definition getDirtyComputeSets (st : DxvkDescriptorState) : Z :=
  if has_flag (Z.lor (m_dirtyBuffers st) (m_dirtyViews st)) VK_SHADER_STAGE_COMPUTE_BIT
  then Z.lor 0 (u32 (Z.shiftl 1 DxvkDescriptorSets.CsAll))
  else 0.

Definition clearSets (st : DxvkDescriptorState) : DxvkDescriptorState :=
  {| m_dirtyBuffers := m_dirtyBuffers st;
     m_dirtyViews   := m_dirtyViews st;
     m_sets         := map (fun _ => VK_NULL_HANDLE) (m_sets st) |}.

(** The cell [getSet<BindPoint>(index)] refers to. *)
Definition setCell (bindPoint index : Z) : nat :=
  Z.to_nat (u32 (bindPoint * DxvkDescriptorSets.SetCount + index)).

(** Reading through the reference [getSet<BindPoint>(index)] returns; a
    cell outside the array is out of bounds in the source and reads as
    [None] here. *)
Definition getSet (st : DxvkDescriptorState) (bindPoint index : Z) : option Z :=
  m_sets st !! setCell bindPoint index.

(** Assigning through that reference. *)
Definition assignSet (st : DxvkDescriptorState) (bindPoint index handle : Z)
  : DxvkDescriptorState :=
  {| m_dirtyBuffers := m_dirtyBuffers st;
     m_dirtyViews   := m_dirtyViews st;
     m_sets         := <[setCell bindPoint index := handle]> (m_sets st) |}.

End DescriptorState.

(** ** The single-set scheme: [struct DxvkDescriptorSlot],
       [class DxvkDescriptorSlotMapping], [class DxvkPipelineLayout] *)

Module DescriptorSlot.
Record t := mk {
  slot   : Z;   (* uint32_t *)
  type   : Z;   (* VkDescriptorType *)
  view   : Z;   (* VkImageViewType *)
  stages : Z;   (* VkShaderStageFlags *)
  access : Z    (* VkAccessFlags *)
}.
End DescriptorSlot.

Module ResourceSlot.
Record t := mk {
  slot   : Z;   (* uint32_t *)
  type   : Z;   (* VkDescriptorType *)
  view   : Z;   (* VkImageViewType *)
  access : Z    (* VkAccessFlags *)
}.
End ResourceSlot.

Record DxvkDescriptorSlotMapping := mkSlotMapping {
  m_descriptorSlots : list DescriptorSlot.t;
  m_pushConstRange  : VkPushConstantRange
}.

Module DescriptorSlotMapping.

Definition InvalidBinding : Z := 0xFFFFFFFF.

Definition new : DxvkDescriptorSlotMapping :=
  {| m_descriptorSlots := []; m_pushConstRange := mkPushConstantRange 0 0 0 |}.

Definition bindingCount (m : DxvkDescriptorSlotMapping) : Z :=
  u32 (Z.of_nat (length (m_descriptorSlots m))).

Definition pushConstRange (m : DxvkDescriptorSlotMapping) : VkPushConstantRange :=
  m_pushConstRange m.

Definition definePushConstRange (m : DxvkDescriptorSlotMapping)
    (stage off sz : Z) : DxvkDescriptorSlotMapping :=
  {| m_descriptorSlots := m_descriptorSlots m;
     m_pushConstRange  :=
       {| stageFlags := Z.lor (stageFlags (m_pushConstRange m)) stage;
          offset     := offset (m_pushConstRange m);
          size       := Z.max (size (m_pushConstRange m)) (u32 (off + sz)) |} |}.

Definition countDescriptors (m : DxvkDescriptorSlotMapping) (ty : Z) : Z :=
  fold_left
    (fun count s => u32 (count + (if DescriptorSlot.type s =? ty then 1 else 0)))
    (m_descriptorSlots m) 0.

Definition replaceType (oldType newType : Z) (s : DescriptorSlot.t) : DescriptorSlot.t :=
  if DescriptorSlot.type s =? oldType
  then {| DescriptorSlot.slot   := DescriptorSlot.slot s;
          DescriptorSlot.type   := newType;
          DescriptorSlot.view   := DescriptorSlot.view s;
          DescriptorSlot.stages := DescriptorSlot.stages s;
          DescriptorSlot.access := DescriptorSlot.access s |}
  else s.

Definition replaceDescriptors (m : DxvkDescriptorSlotMapping)
    (oldType newType : Z) : DxvkDescriptorSlotMapping :=
  {| m_descriptorSlots := map (replaceType oldType newType) (m_descriptorSlots m);
     m_pushConstRange  := m_pushConstRange m |}.

Definition makeDescriptorsDynamic (m : DxvkDescriptorSlotMapping)
    (uniformBuffers storageBuffers : Z) : DxvkDescriptorSlotMapping :=
  if countDescriptors m VK_DESCRIPTOR_TYPE_UNIFORM_BUFFER <=? uniformBuffers
  then replaceDescriptors m VK_DESCRIPTOR_TYPE_UNIFORM_BUFFER
                            VK_DESCRIPTOR_TYPE_UNIFORM_BUFFER_DYNAMIC
  else m.

(** The loop of [getBindingId] from index [i] on.  The counter is a
    [uint32_t]; the model follows the source for vectors of fewer than
    [2^32] entries. *)
Fixpoint getBindingIdFrom (i : Z) (slots : list DescriptorSlot.t) (slot : Z) : Z :=
  match slots with
  | [] => InvalidBinding
  | s :: rest =>
      if DescriptorSlot.slot s =? slot then i
      else getBindingIdFrom (u32 (i + 1)) rest slot
  end.

Definition getBindingId (m : DxvkDescriptorSlotMapping) (slot : Z) : Z :=
  getBindingIdFrom 0 (m_descriptorSlots m) slot.

(** [entry.stages |= stage; entry.access |= access]. *)
Definition extendSlot (stage acc : Z) (s : DescriptorSlot.t) : DescriptorSlot.t :=
  {| DescriptorSlot.slot   := DescriptorSlot.slot s;
     DescriptorSlot.type   := DescriptorSlot.type s;
     DescriptorSlot.view   := DescriptorSlot.view s;
     DescriptorSlot.stages := Z.lor (DescriptorSlot.stages s) stage;
     DescriptorSlot.access := Z.lor (DescriptorSlot.access s) acc |}.

Definition defineSlot (m : DxvkDescriptorSlotMapping) (stage : Z)
    (desc : ResourceSlot.t) : DxvkDescriptorSlotMapping :=
  let bindingId := getBindingId m (ResourceSlot.slot desc) in
  if negb (bindingId =? InvalidBinding) then
    {| m_descriptorSlots :=
         alter (extendSlot stage (ResourceSlot.access desc))
               (Z.to_nat bindingId) (m_descriptorSlots m);
       m_pushConstRange := m_pushConstRange m |}
  else
    {| m_descriptorSlots :=
         m_descriptorSlots m ++
         [ {| DescriptorSlot.slot   := ResourceSlot.slot desc;
              DescriptorSlot.type   := ResourceSlot.type desc;
              DescriptorSlot.view   := ResourceSlot.view desc;
              DescriptorSlot.stages := stage;
              DescriptorSlot.access := ResourceSlot.access desc |} ];
       m_pushConstRange := m_pushConstRange m |}.

End DescriptorSlotMapping.

(** [str::format(text, count, close)] for a text, a [uint32_t] and a
    text: the three arguments written to one string stream, the number
    in decimal.  (util_string.h is not under src/.) *)
Definition str_format (text : string) (count : Z) (close : string) : string :=
  text +:+ pretty count +:+ close.

Module PipelineLayout.

Record t := mk {
  m_pushConstRange      : VkPushConstantRange;
  m_descriptorSetLayout : Z;
  m_pipelineLayout      : Z;
  m_descriptorTemplate  : Z;
  m_bindingSlots        : list DescriptorSlot.t;
  m_dynamicSlots        : list Z;
  m_descriptorTypes     : gset Z
}.

(** The indices [i], counted from [i0], of the slots whose type is the
    dynamic uniform buffer one. *)
Fixpoint dynamicSlotsFrom (i0 : Z) (slots : list DescriptorSlot.t) : list Z :=
  match slots with
  | [] => []
  | s :: rest =>
      if DescriptorSlot.type s =? VK_DESCRIPTOR_TYPE_UNIFORM_BUFFER_DYNAMIC
      then i0 :: dynamicSlotsFrom (i0 + 1) rest
      else dynamicSlotsFrom (i0 + 1) rest
  end.

Section WithLimits.

(** [MaxNumActiveBindings] of dxvk_limits.h. *)
Variable MaxNumActiveBindings : Z.

Definition new (slotMapping : DxvkDescriptorSlotMapping) (pipelineBindPoint : Z)
  : Vk t :=
  let bindingCount := DescriptorSlotMapping.bindingCount slotMapping in
  let bindingInfos :=
    take (Z.to_nat bindingCount) (m_descriptorSlots slotMapping) in
  if MaxNumActiveBindings <? bindingCount then
    eff_throw
      (str_format "Too many active bindings in pipeline layout (" bindingCount ")")
  else
    (do dsl <- (if 0 <? bindingCount
                then createOrThrow DescriptorSetLayoutObj
                       "DxvkPipelineLayout: Failed to create descriptor set layout"
                else eff_ret VK_NULL_HANDLE);
     do pl <- (fun d =>
                 match vkCreate PipelineLayoutObj d with
                 | (Some h, d') => (Returned h, d')
                 | (None, d') =>
                     (Thrown "DxvkPipelineLayout: Failed to create pipeline layout",
                      vkDestroy DescriptorSetLayoutObj dsl d')
                 end);
     do tp <- (if 0 <? bindingCount
               then (fun d =>
                 match vkCreate DescriptorUpdateTemplateObj d with
                 | (Some h, d') => (Returned h, d')
                 | (None, d') =>
                     (Thrown "DxvkPipelineLayout: Failed to create descriptor update template",
                      vkDestroy PipelineLayoutObj pl
                        (vkDestroy DescriptorSetLayoutObj dsl d'))
                 end)
               else eff_ret VK_NULL_HANDLE);
     eff_ret {| m_pushConstRange      := DescriptorSlotMapping.pushConstRange slotMapping;
                m_descriptorSetLayout := dsl;
                m_pipelineLayout      := pl;
                m_descriptorTemplate  := tp;
                m_bindingSlots        := bindingInfos;
                m_dynamicSlots        := dynamicSlotsFrom 0 bindingInfos;
                m_descriptorTypes     :=
                  list_to_set (map DescriptorSlot.type bindingInfos) |})%eff.

End WithLimits.

Definition delete (o : t) : Vk unit :=
  (run destroy DescriptorUpdateTemplateObj (m_descriptorTemplate o);
   run destroy PipelineLayoutObj (m_pipelineLayout o);
   destroy DescriptorSetLayoutObj (m_descriptorSetLayout o))%eff.

Definition bindingCount (o : t) : Z :=
  u32 (Z.of_nat (length (m_bindingSlots o))).

(** [m_bindingSlots[id]]; an index outside the vector is out of bounds in
    the source and gives [None] here. *)
Definition binding (o : t) (id : Z) : option DescriptorSlot.t :=
  m_bindingSlots o !! Z.to_nat id.

Definition dynamicBindingCount (o : t) : Z :=
  u32 (Z.of_nat (length (m_dynamicSlots o))).

Definition dynamicBinding (o : t) (id : Z) : option DescriptorSlot.t :=
  match m_dynamicSlots o !! Z.to_nat id with
  | Some i => binding o i
  | None => None
  end.

(** [Flags<VkDescriptorType>] (util_flags.h) is kept as the set of the
    enumerators that were set; [test] is membership. *)
Definition hasStaticBufferBindings (o : t) : bool :=
  bool_decide (VK_DESCRIPTOR_TYPE_UNIFORM_BUFFER ∈ m_descriptorTypes o).

Definition getStorageDescriptorStages (o : t) : Z :=
  fold_left
    (fun stages s =>
       if has_flag (DescriptorSlot.access s) VK_ACCESS_SHADER_WRITE_BIT
       then Z.lor stages (DescriptorSlot.stages s)
       else stages)
    (m_bindingSlots o) 0.

End PipelineLayout.

(** ** [class DxvkPipelineManager] *)

(** A [Rc<DxvkShader>]: [None] is the null pointer, [Some a] the shader
    object at address [a]. *)
Definition ShaderRef : Type := option nat.

(** Modelled from the spec: [DxvkComputePipelineShaders] and
    [DxvkGraphicsPipelineShaders] (dxvk_compute.h and dxvk_graphics.h) are
    missing; the caches are keyed by exact shader identity, for graphics
    pipelines by the tuple of the five stage shader identities, where a
    stage slot may be null. *)
Record DxvkComputePipelineShaders := mkComputeShaders {
  cs : ShaderRef
}.

Record DxvkGraphicsPipelineShaders := mkGraphicsShaders {
  vs  : ShaderRef;
  tcs : ShaderRef;
  tes : ShaderRef;
  gs  : ShaderRef;
  fs  : ShaderRef
}.

Definition ShaderRef_eq (a b : ShaderRef) : bool := bool_decide (a = b).

Definition ComputeShaders_eq (a b : DxvkComputePipelineShaders) : bool :=
  ShaderRef_eq (cs a) (cs b).

Definition GraphicsShaders_eq (a b : DxvkGraphicsPipelineShaders) : bool :=
     ShaderRef_eq (vs a) (vs b)
  && ShaderRef_eq (tcs a) (tcs b)
  && ShaderRef_eq (tes a) (tes b)
  && ShaderRef_eq (gs a) (gs b)
  && ShaderRef_eq (fs a) (fs b).

(** Modelled from the spec: the constructors of [DxvkComputePipeline] and
    [DxvkGraphicsPipeline] (dxvk_compute.cpp, dxvk_graphics.cpp) are
    missing; the pipeline object is created from the shader set and bound
    to the resolved layout objects.  The record keeps the two arguments
    [emplace] hands to the constructor besides [this]: the shader set and
    the [DxvkBindingLayoutObjects*], which is the position of the node in
    the layout cache. *)
Record DxvkComputePipeline := mkComputePipeline {
  cp_shaders : DxvkComputePipelineShaders;
  cp_layout  : nat
}.

Record DxvkGraphicsPipeline := mkGraphicsPipeline {
  gp_shaders : DxvkGraphicsPipelineShaders;
  gp_layout  : nat
}.

(** Modelled from the spec: the declarations of the three caches
    (dxvk_pipemanager.h) are missing; they are maps keyed by the shader
    set, resp. by the binding layout compared with [eq], whose entries are
    never removed and keep their addresses.  Such a map is the list of its
    entries in insertion order, and the address [&it->second] of a node is
    its position.  The hash function (dxvk_hash.h, missing) is taken to
    agree with the key equality, so that [find] is decided by the equality
    predicate alone. *)
Definition map_find {K V} (same : K -> K -> bool) (k : K) (m : list (K * V))
  : option nat :=
  fst <$> list_find (fun kv => Is_true (same (fst kv) k)) m.

(** [emplace] of a key that [find] has just missed: a new node at the end. *)
Definition map_emplace {K V} (k : K) (v : V) (m : list (K * V)) : list (K * V) :=
  m ++ [(k, v)].

Record DxvkPipelineManager := mkPipelineManager {
  m_device            : VkDevice;
  m_pipelineLayouts   : list (DxvkBindingLayout * DxvkBindingLayoutObjects);
  m_computePipelines  : list (DxvkComputePipelineShaders * DxvkComputePipeline);
  m_graphicsPipelines : list (DxvkGraphicsPipelineShaders * DxvkGraphicsPipeline)
}.

Module PipelineManager.

Definition new (device : VkDevice) : DxvkPipelineManager :=
  {| m_device := device;
     m_pipelineLayouts := [];
     m_computePipelines := [];
     m_graphicsPipelines := [] |}.

(** The value constructor of a layout-cache node runs on the manager's
    device. *)
Definition onDevice {A} (c : Vk A) : Eff DxvkPipelineManager A :=
  fun mgr =>
    let '(r, d') := c (m_device mgr) in
    (r, {| m_device := d';
           m_pipelineLayouts := m_pipelineLayouts mgr;
           m_computePipelines := m_computePipelines mgr;
           m_graphicsPipelines := m_graphicsPipelines mgr |}).

Section WithLimits.

(** [MaxNumActiveBindings] of dxvk_limits.h. *)
Variable MaxNumActiveBindings : Z.

Definition createPipelineLayout (layout : DxvkBindingLayout)
  : Eff DxvkPipelineManager nat :=
  fun mgr =>
    match map_find BindingLayout.eq layout (m_pipelineLayouts mgr) with
    | Some i => (Returned i, mgr)
    | None =>
        (do objects <- onDevice (BindingLayoutObjects.new MaxNumActiveBindings layout);
         fun mgr' =>
           (Returned (length (m_pipelineLayouts mgr')),
            {| m_device := m_device mgr';
               m_pipelineLayouts :=
                 map_emplace layout objects (m_pipelineLayouts mgr');
               m_computePipelines := m_computePipelines mgr';
               m_graphicsPipelines := m_graphicsPipelines mgr' |}))%eff mgr
    end.

Section WithShaders.

(** [DxvkShader::getBindings] of the shader object at an address: the
    binding layout reflected from that shader, fixed for its lifetime. *)
Variable getBindings : nat -> DxvkBindingLayout.

(** [if (p != nullptr) mergedLayout.merge(p->getBindings());] *)
Definition mergeStage (mergedLayout : DxvkBindingLayout) (p : ShaderRef)
  : DxvkBindingLayout :=
  match p with
  | Some a => BindingLayout.merge mergedLayout (getBindings a)
  | None => mergedLayout
  end.

(** The layout [createGraphicsPipeline] builds on a cache miss. *)
Definition mergedLayout (shaders : DxvkGraphicsPipelineShaders)
  : DxvkBindingLayout :=
  fold_left mergeStage
    [vs shaders; tcs shaders; tes shaders; gs shaders; fs shaders]
    BindingLayout.new.

(** The result is the returned pointer: [None] for [nullptr]. *)
Definition createComputePipeline (shaders : DxvkComputePipelineShaders)
  : Eff DxvkPipelineManager (option nat) :=
  fun mgr =>
    match cs shaders with
    | None => (Returned None, mgr)
    | Some a =>
        match map_find ComputeShaders_eq shaders (m_computePipelines mgr) with
        | Some i => (Returned (Some i), mgr)
        | None =>
            (do layout <- createPipelineLayout (getBindings a);
             fun mgr' =>
               (Returned (Some (length (m_computePipelines mgr'))),
                {| m_device := m_device mgr';
                   m_pipelineLayouts := m_pipelineLayouts mgr';
                   m_computePipelines :=
                     map_emplace shaders (mkComputePipeline shaders layout)
                       (m_computePipelines mgr');
                   m_graphicsPipelines := m_graphicsPipelines mgr' |}))%eff mgr
        end
    end.

Definition createGraphicsPipeline (shaders : DxvkGraphicsPipelineShaders)
  : Eff DxvkPipelineManager (option nat) :=
  fun mgr =>
    match vs shaders with
    | None => (Returned None, mgr)
    | Some _ =>
        match map_find GraphicsShaders_eq shaders (m_graphicsPipelines mgr) with
        | Some i => (Returned (Some i), mgr)
        | None =>
            (do layout <- createPipelineLayout (mergedLayout shaders);
             fun mgr' =>
               (Returned (Some (length (m_graphicsPipelines mgr'))),
                {| m_device := m_device mgr';
                   m_pipelineLayouts := m_pipelineLayouts mgr';
                   m_computePipelines := m_computePipelines mgr';
                   m_graphicsPipelines :=
                     map_emplace shaders (mkGraphicsPipeline shaders layout)
                       (m_graphicsPipelines mgr') |}))%eff mgr
        end
    end.

(** A request to the manager, and a history of requests served one
    after the other from a state on.  A request that throws leaves the
    manager it had reached, and the next request is served from there; a
    request whose construction left defined behaviour is treated alike
    here, though C++ says nothing of the program from then on. *)
Inductive request :=
| ReqCompute (shaders : DxvkComputePipelineShaders)
| ReqGraphics (shaders : DxvkGraphicsPipelineShaders).

Definition serve (mgr : DxvkPipelineManager) (r : request) : DxvkPipelineManager :=
  match r with
  | ReqCompute s => snd (createComputePipeline s mgr)
  | ReqGraphics s => snd (createGraphicsPipeline s mgr)
  end.

Definition serveAll (rs : list request) (mgr : DxvkPipelineManager)
  : DxvkPipelineManager :=
  fold_left serve rs mgr.

End WithShaders.

End WithLimits.

End PipelineManager.

(** * Notions used by the properties

    Nothing in this part is code of the program.  It holds the notions in
    which the properties are stated (the union of byte ranges and the
    merge classes as the design document words them, histories of calls,
    occurrences of a slot, small example inputs) and the invariants the
    proofs carry. *)

(** ** The union of push-constant ranges *)

(** The end of a byte range, [offset + size]. *)
Definition rangeEnd (r : VkPushConstantRange) : Z := offset r + size r.

(** A range whose fields are 32-bit values and whose end does not wrap. *)
Definition rangeOk (r : VkPushConstantRange) : Prop :=
  0 <= offset r /\ 0 <= size r /\ offset r + size r < 2 ^ 32.

(** The minimum offset and the maximum end over the ranges [r :: rs], and
    the OR of the stage masks of [rs]. *)
Definition minOffset (r : VkPushConstantRange) (rs : list VkPushConstantRange) : Z :=
  fold_left Z.min (map offset rs) (offset r).

Definition maxEnd (r : VkPushConstantRange) (rs : list VkPushConstantRange) : Z :=
  fold_left Z.max (map rangeEnd rs) (rangeEnd r).

Definition orStageFlags (rs : list VkPushConstantRange) : Z :=
  fold_left Z.lor (map stageFlags rs) 0.

(** The range stored after [addPushConstantRange] has been called with each
    of [rs], in order, on a freshly constructed layout. *)
Definition storedRange (rs : list VkPushConstantRange) : VkPushConstantRange :=
  m_pushConst (fold_left BindingLayout.addPushConstantRange rs BindingLayout.new).

(** ** Uniform-buffer bindings of a slot mapping *)

(** The number of uniform-buffer bindings. *)
Definition uniformBufferCount (m : DxvkDescriptorSlotMapping) : nat :=
  length (filter (fun s => DescriptorSlot.type s = VK_DESCRIPTOR_TYPE_UNIFORM_BUFFER)
                 (m_descriptorSlots m)).

(** Every uniform-buffer binding of [m] is, in [m'], at the same position,
    a dynamic uniform-buffer binding. *)
Definition allUniformBuffersDynamic (m m' : DxvkDescriptorSlotMapping) : Prop :=
  forall (i : nat) (s : DescriptorSlot.t),
    m_descriptorSlots m !! i = Some s ->
    DescriptorSlot.type s = VK_DESCRIPTOR_TYPE_UNIFORM_BUFFER ->
    exists s', m_descriptorSlots m' !! i = Some s'
      /\ DescriptorSlot.type s' = VK_DESCRIPTOR_TYPE_UNIFORM_BUFFER_DYNAMIC.

(** A uniform-buffer binding and a storage-buffer binding at slot [n], and
    the mappings of the two examples of the design document: four, and
    five, uniform-buffer bindings (the first with a storage buffer too). *)
Definition uniformSlot (n : Z) : DescriptorSlot.t :=
  DescriptorSlot.mk n VK_DESCRIPTOR_TYPE_UNIFORM_BUFFER 0 VK_SHADER_STAGE_VERTEX_BIT 0.

Definition storageSlot (n : Z) : DescriptorSlot.t :=
  DescriptorSlot.mk n VK_DESCRIPTOR_TYPE_STORAGE_BUFFER 0 VK_SHADER_STAGE_VERTEX_BIT 0.

Definition fourUniformBuffers : DxvkDescriptorSlotMapping :=
  mkSlotMapping
    [uniformSlot 0; uniformSlot 1; storageSlot 2; uniformSlot 3; uniformSlot 4]
    (mkPushConstantRange 0 0 0).

Definition fiveUniformBuffers : DxvkDescriptorSlotMapping :=
  mkSlotMapping
    [uniformSlot 0; uniformSlot 1; uniformSlot 2; uniformSlot 3; uniformSlot 4]
    (mkPushConstantRange 0 0 0).

(** ** Layouts built by insertion *)

(** Two entries are in the same merge class when they have the same
    descriptor type, resource binding slot and view type, and agree on the
    presence of the fragment stage. *)
Definition sameMergeClass (x y : DxvkBindingInfo) : Prop :=
  descriptorType x = descriptorType y
  /\ resourceBinding x = resourceBinding y
  /\ viewType x = viewType y
  /\ Z.testbit (stages x) 4 = Z.testbit (stages y) 4.

(** No two positions of a set hold entries of the same merge class. *)
Definition setMerged (bs : list DxvkBindingInfo) : Prop :=
  forall (i j : nat) (x y : DxvkBindingInfo),
    bs !! i = Some x -> bs !! j = Some y -> sameMergeClass x y -> i = j.

Definition layoutMerged (l : DxvkBindingLayout) : Prop :=
  forall s : Z, s ∈ set_indices -> setMerged (sa_get (m_bindings l) s).

(** The mutating operations of [DxvkBindingLayout], and the layout a
    sequence of them builds from a freshly constructed one. *)
Inductive layoutOp :=
| OpAddBinding (binding : DxvkBindingInfo)
| OpAddPushConstantRange (range : VkPushConstantRange)
| OpMerge (layout : DxvkBindingLayout).

Definition applyOp (l : DxvkBindingLayout) (op : layoutOp) : DxvkBindingLayout :=
  match op with
  | OpAddBinding b => BindingLayout.addBinding l b
  | OpAddPushConstantRange r => BindingLayout.addPushConstantRange l r
  | OpMerge other => BindingLayout.merge l other
  end.

Definition buildLayout (ops : list layoutOp) : DxvkBindingLayout :=
  fold_left applyOp ops BindingLayout.new.

(** What [canMerge] compares, and the invariant of a layout in the form
    the induction over its construction uses. *)
Definition mergeKey (b : DxvkBindingInfo) : bool * Z * Z * Z :=
  (Z.testbit (stages b) 4, descriptorType b, resourceBinding b, viewType b).

Definition keysDistinct (l : DxvkBindingLayout) : Prop :=
  forall s : Z, NoDup (mergeKey <$> sa_get (m_bindings l) s).

(** ** Histories of the pipeline manager *)

(** The manager of a device after it has served a history of requests. *)
Definition managerAfter (MaxNumActiveBindings : Z)
    (getBindings : nat -> DxvkBindingLayout)
    (device : VkDevice) (history : list PipelineManager.request)
  : DxvkPipelineManager :=
  PipelineManager.serveAll MaxNumActiveBindings getBindings history
    (PipelineManager.new device).

(** Every cached graphics pipeline points at the node of the layout cache
    that [find] returns for the merged layout of its shaders. *)
Definition layoutsResolved (getBindings : nat -> DxvkBindingLayout)
    (mgr : DxvkPipelineManager) : Prop :=
  forall (p : nat) (s : DxvkGraphicsPipelineShaders) (e : DxvkGraphicsPipeline),
    m_graphicsPipelines mgr !! p = Some (s, e) ->
    map_find BindingLayout.eq (PipelineManager.mergedLayout getBindings s)
      (m_pipelineLayouts mgr) = Some (gp_layout e).

(** The caches only grow, at the end. *)
Definition cachesExtend (mgr mgr' : DxvkPipelineManager) : Prop :=
  (exists ext, m_pipelineLayouts mgr' = m_pipelineLayouts mgr ++ ext)
  /\ (exists ext, m_graphicsPipelines mgr' = m_graphicsPipelines mgr ++ ext).

(** Two graphics-pipeline creation calls: the first after the history
    [before], the second after the first and the further requests
    [between]. *)
Definition firstCall (MaxNumActiveBindings : Z)
    (getBindings : nat -> DxvkBindingLayout) (device : VkDevice)
    (before : list PipelineManager.request) (s1 : DxvkGraphicsPipelineShaders)
  : outcome (option nat) * DxvkPipelineManager :=
  PipelineManager.createGraphicsPipeline MaxNumActiveBindings getBindings s1
    (managerAfter MaxNumActiveBindings getBindings device before).

Definition secondCall (MaxNumActiveBindings : Z)
    (getBindings : nat -> DxvkBindingLayout) (device : VkDevice)
    (before : list PipelineManager.request) (s1 : DxvkGraphicsPipelineShaders)
    (between : list PipelineManager.request) (s2 : DxvkGraphicsPipelineShaders)
  : outcome (option nat) * DxvkPipelineManager :=
  PipelineManager.createGraphicsPipeline MaxNumActiveBindings getBindings s2
    (PipelineManager.serveAll MaxNumActiveBindings getBindings between
       (snd (firstCall MaxNumActiveBindings getBindings device before s1))).

(** Example shaders: the vertex shaders at addresses 1 and 2 declare the
    same uniform buffer, every other shader is a fragment shader with one
    sampled image. *)
Definition exampleBindings (a : nat) : DxvkBindingLayout :=
  match a with
  | 1%nat | 2%nat =>
      BindingLayout.addBinding BindingLayout.new
        (mkBindingInfo VK_DESCRIPTOR_TYPE_UNIFORM_BUFFER 0 0 VK_SHADER_STAGE_VERTEX_BIT 0)
  | _ =>
      BindingLayout.addBinding BindingLayout.new
        (mkBindingInfo VK_DESCRIPTOR_TYPE_SAMPLED_IMAGE 7 1 VK_SHADER_STAGE_FRAGMENT_BIT 0)
  end.

Definition exampleShaders1 : DxvkGraphicsPipelineShaders :=
  mkGraphicsShaders (Some 1%nat) None None None (Some 3%nat).

Definition exampleShaders2 : DxvkGraphicsPipelineShaders :=
  mkGraphicsShaders (Some 2%nat) None None None (Some 3%nat).

(** ** Occurrences of a resource slot in a layout *)

(** Slot [slot] is the resource binding of entry [j] of set [i]. *)
Definition occursAt (layout : DxvkBindingLayout) (slot i : Z) (j : nat) : Prop :=
  i ∈ set_indices
  /\ exists b, sa_get (m_bindings layout) i !! j = Some b /\ resourceBinding b = slot.

(** Every set of the layout has a size that fits [uint32_t]. *)
Definition setSizesFit (layout : DxvkBindingLayout) : Prop :=
  forall s : Z, Z.of_nat (length (sa_get (m_bindings layout) s)) < 2 ^ 32.

(** No set of the layout has more bindings than the two local arrays of
    the constructor of [DxvkBindingLayoutObjects] have elements. *)
Definition withinCapacity (MaxNumActiveBindings : Z) (layout : DxvkBindingLayout)
  : Prop :=
  forall s : Z, s ∈ set_indices ->
    BindingLayout.getBindingCount layout s <= MaxNumActiveBindings.

(** The array size the examples are run with. *)
Definition exampleLimit : Z := 384.

(** The mapping the first entry of [bs] with resource binding [slot] gets
    when [bs] is processed as set [i] from index [j] and running id [cid]. *)
Fixpoint firstIn (i j cid : Z) (bs : list DxvkBindingInfo) (slot : Z)
  : option DxvkBindingMapping :=
  match bs with
  | [] => None
  | b :: rest =>
      if resourceBinding b =? slot
      then Some {| set := i; binding := j; constId := cid |}
      else firstIn i (j + 1) (u32 (cid + 1)) rest slot
  end.

(** ** Native objects left behind *)

(** The handles of a device are well formed: alive objects have non-null
    handles that the device has already given out. *)
Definition deviceOk (d : VkDevice) : Prop :=
  forall (k : VkObjectKind) (h : Z), (k, h) ∈ vk_live d -> 0 < h < vk_fresh d.

(** The native objects alive in [after] that were not alive in [before]. *)
Definition leaked (before after : VkDevice) : list (VkObjectKind * Z) :=
  filter (fun o => o ∉ vk_live before) (vk_live after).

(** A layout in which resource slot 5 occurs in all three sets: as a
    sampled image and as a storage buffer of the fragment stage, and as a
    uniform buffer of the vertex stage; slot 6 is a second vertex-stage
    uniform buffer. *)
Definition exampleLayout : DxvkBindingLayout :=
  fold_left BindingLayout.addBinding
    [mkBindingInfo VK_DESCRIPTOR_TYPE_UNIFORM_BUFFER 6 0 VK_SHADER_STAGE_VERTEX_BIT 0;
     mkBindingInfo VK_DESCRIPTOR_TYPE_UNIFORM_BUFFER 5 0 VK_SHADER_STAGE_VERTEX_BIT 0;
     mkBindingInfo VK_DESCRIPTOR_TYPE_STORAGE_BUFFER 5 0 VK_SHADER_STAGE_FRAGMENT_BIT 0;
     mkBindingInfo VK_DESCRIPTOR_TYPE_SAMPLED_IMAGE 5 1 VK_SHADER_STAGE_FRAGMENT_BIT 0]
    BindingLayout.new.


(** ** Further notions about layouts *)

(** Every entry of every set sits in the set [computeSetIndex] gives it. *)
Definition layoutPlaced (l : DxvkBindingLayout) : Prop :=
  forall s : Z, s ∈ set_indices ->
    Forall (fun b => BindingInfo.computeSetIndex b = s) (sa_get (m_bindings l) s).

(** Binding [b] is represented in the list [bs]: some entry of its merge
    class carries all its stage and access bits. *)
Definition absorbedIn (b : DxvkBindingInfo) (bs : list DxvkBindingInfo) : Prop :=
  exists e, e ∈ bs
    /\ mergeKey e = mergeKey b
    /\ Z.lor (stages e) (stages b) = stages e
    /\ Z.lor (access e) (access b) = access e.

(** The same, in the set of a layout that [computeSetIndex] names. *)
Definition represented (b : DxvkBindingInfo) (l : DxvkBindingLayout) : Prop :=
  absorbedIn b (sa_get (m_bindings l) (BindingInfo.computeSetIndex b)).

(** The push-constant ranges a sequence of operations brings in do not
    wrap. *)
Definition opRangeOk (op : layoutOp) : Prop :=
  match op with
  | OpAddBinding _ => True
  | OpAddPushConstantRange r => rangeOk r
  | OpMerge other => rangeOk (m_pushConst other)
  end.

(** The stored push-constant range starts at [0] and has a 32-bit size. *)
Definition pushConstNormal (l : DxvkBindingLayout) : Prop :=
  offset (m_pushConst l) = 0 /\ 0 <= size (m_pushConst l) < 2 ^ 32.

(** A layout built by a few operations, with a merge (of the example
    layout) among them. *)
Definition exampleOps : list layoutOp :=
  [OpAddBinding
     (mkBindingInfo VK_DESCRIPTOR_TYPE_UNIFORM_BUFFER 0 0 VK_SHADER_STAGE_VERTEX_BIT 0);
   OpAddPushConstantRange (mkPushConstantRange VK_SHADER_STAGE_VERTEX_BIT 0 16);
   OpAddBinding
     (mkBindingInfo VK_DESCRIPTOR_TYPE_UNIFORM_BUFFER 0 0 VK_SHADER_STAGE_GEOMETRY_BIT 0);
   OpMerge exampleLayout;
   OpAddPushConstantRange (mkPushConstantRange VK_SHADER_STAGE_FRAGMENT_BIT 16 16)].

(** ** Native objects of a successful construction *)

(** What the constructor of [DxvkBindingLayoutObjects] creates for a set
    of [n] bindings when the next fresh handle is [f]: the objects, the
    template handle it stores, and the next fresh handle afterwards. *)
Definition setObjects (n f : Z) : list (VkObjectKind * Z) :=
  if n =? 0 then [(DescriptorSetLayoutObj, f)]
  else [(DescriptorSetLayoutObj, f); (DescriptorUpdateTemplateObj, f + 1)].

Definition setTemplate (n f : Z) : Z :=
  if n =? 0 then VK_NULL_HANDLE else f + 1.

Definition setMaskBit (n i : Z) : Z :=
  if n =? 0 then 0 else u32 (Z.shiftl 1 i).

Definition nextFresh (n f : Z) : Z :=
  if n =? 0 then f + 1 else f + 2.

(** The fresh handle of the device when the constructor reaches set [i]
    ([i = 3]: when it reaches the pipeline layout), having started at
    [f]. *)
Definition freshAt (layout : DxvkBindingLayout) (f i : Z) : Z :=
  fold_left
    (fun g j => nextFresh (BindingLayout.getBindingCount layout j) g)
    (filter (fun j => j < i) set_indices) f.

(** A device whose handles are well formed and whose next handle is not
    the null handle. *)
Definition deviceReady (d : VkDevice) : Prop :=
  deviceOk d /\ 0 < vk_fresh d.

(** The whole layout has fewer than [2^32] bindings. *)
Definition layoutFits (layout : DxvkBindingLayout) : Prop :=
  Z.of_nat (length (BindingLayout.allBindings layout)) < 2 ^ 32.

(** The number of bindings in the sets below set [i]. *)
Definition bindingsBelow (layout : DxvkBindingLayout) (i : Z) : Z :=
  Z.of_nat (length (concat (map (sa_get (m_bindings layout))
                              (filter (fun j => j < i) set_indices)))).

(** The example layout with one more binding, a storage image that the
    compute stage writes. *)
Definition exampleWriteLayout : DxvkBindingLayout :=
  BindingLayout.addBinding exampleLayout
    (mkBindingInfo VK_DESCRIPTOR_TYPE_STORAGE_IMAGE 9 1 VK_SHADER_STAGE_COMPUTE_BIT
       VK_ACCESS_SHADER_WRITE_BIT).

(** ** Descriptor state *)

(** A bind point and a set index that [getSet] accepts. *)
Definition validCell (bindPoint index : Z) : Prop :=
  (bindPoint = VK_PIPELINE_BIND_POINT_GRAPHICS \/ bindPoint = VK_PIPELINE_BIND_POINT_COMPUTE)
  /\ 0 <= index < DxvkDescriptorSets.SetCount.

(** A descriptor state with both bind points in use. *)
Definition exampleState : DxvkDescriptorState :=
  mkDescriptorState
    (Z.lor VK_SHADER_STAGE_VERTEX_BIT VK_SHADER_STAGE_COMPUTE_BIT)
    VK_SHADER_STAGE_FRAGMENT_BIT
    [11; 12; 13; 14; 15; 16].

(** The cell number of a valid bind point and index, without wrap-around,
    and its bound. *)
Definition setCell_eq (cell : nat) (bindPoint index : Z) : Prop :=
  Z.of_nat cell = bindPoint * 3 + index /\ (cell < 6)%nat.

(** ** Slot mappings built by definition *)

(** The mutating operations of [DxvkDescriptorSlotMapping], and the
    mapping a sequence of them builds from an empty one. *)
Inductive slotOp :=
| OpDefineSlot (stage : Z) (desc : ResourceSlot.t)
| OpDefinePushConstRange (stage off sz : Z)
| OpMakeDescriptorsDynamic (uniformBuffers storageBuffers : Z).

Definition applySlotOp (m : DxvkDescriptorSlotMapping) (op : slotOp)
  : DxvkDescriptorSlotMapping :=
  match op with
  | OpDefineSlot stage desc => DescriptorSlotMapping.defineSlot m stage desc
  | OpDefinePushConstRange stage off sz =>
      DescriptorSlotMapping.definePushConstRange m stage off sz
  | OpMakeDescriptorsDynamic u s =>
      DescriptorSlotMapping.makeDescriptorsDynamic m u s
  end.

Definition buildMapping (ops : list slotOp) : DxvkDescriptorSlotMapping :=
  fold_left applySlotOp ops DescriptorSlotMapping.new.

(** The slot numbers of a mapping, in binding order. *)
Definition slotNumbers (m : DxvkDescriptorSlotMapping) : list Z :=
  map DescriptorSlot.slot (m_descriptorSlots m).

(** A vertex shader and a fragment shader declare their resources: slot 3
    is a uniform buffer of both, slot 4 a sampled image of the fragment
    shader that the second definition tries to redeclare. *)
Definition exampleSlotOps : list slotOp :=
  [OpDefineSlot VK_SHADER_STAGE_VERTEX_BIT
     (ResourceSlot.mk 3 VK_DESCRIPTOR_TYPE_UNIFORM_BUFFER 0 0);
   OpDefineSlot VK_SHADER_STAGE_FRAGMENT_BIT
     (ResourceSlot.mk 4 VK_DESCRIPTOR_TYPE_SAMPLED_IMAGE 1 0);
   OpDefinePushConstRange VK_SHADER_STAGE_VERTEX_BIT 0 16;
   OpDefineSlot VK_SHADER_STAGE_FRAGMENT_BIT
     (ResourceSlot.mk 3 VK_DESCRIPTOR_TYPE_UNIFORM_BUFFER 0 0);
   OpDefineSlot VK_SHADER_STAGE_VERTEX_BIT
     (ResourceSlot.mk 4 VK_DESCRIPTOR_TYPE_STORAGE_IMAGE 1 VK_ACCESS_SHADER_WRITE_BIT);
   OpMakeDescriptorsDynamic 8 8].

(** The range of an empty slot mapping after [definePushConstRange] has
    been called with the stage mask, offset and size of each of [rs]. *)
Definition legacyRange (rs : list VkPushConstantRange) : VkPushConstantRange :=
  m_pushConstRange
    (fold_left
       (fun m r =>
          DescriptorSlotMapping.definePushConstRange m (stageFlags r) (offset r) (size r))
       rs DescriptorSlotMapping.new).

(** ** The single-set pipeline layout *)

(** The number of dynamic uniform-buffer bindings of a slot list. *)
Definition dynamicBufferCount (slots : list DescriptorSlot.t) : nat :=
  length (filter (fun s => DescriptorSlot.type s = VK_DESCRIPTOR_TYPE_UNIFORM_BUFFER_DYNAMIC)
                 slots).

(** ** More about the caches *)

(** No cache holds two entries under the same key. *)
Definition keysUnique (mgr : DxvkPipelineManager) : Prop :=
  NoDup (map fst (m_pipelineLayouts mgr))
  /\ NoDup (map fst (m_computePipelines mgr))
  /\ NoDup (map fst (m_graphicsPipelines mgr)).

(** What the manager answers to a request, and the state it is left in. *)
Definition answer (MaxNumActiveBindings : Z)
    (getBindings : nat -> DxvkBindingLayout)
    (r : PipelineManager.request) (mgr : DxvkPipelineManager)
  : outcome (option nat) * DxvkPipelineManager :=
  match r with
  | PipelineManager.ReqCompute s =>
      PipelineManager.createComputePipeline MaxNumActiveBindings getBindings s mgr
  | PipelineManager.ReqGraphics s =>
      PipelineManager.createGraphicsPipeline MaxNumActiveBindings getBindings s mgr
  end.

(** The node a request is cached under, if any. *)
Definition cachedAt (r : PipelineManager.request) (mgr : DxvkPipelineManager)
  : option nat :=
  match r with
  | PipelineManager.ReqCompute s =>
      map_find ComputeShaders_eq s (m_computePipelines mgr)
  | PipelineManager.ReqGraphics s =>
      map_find GraphicsShaders_eq s (m_graphicsPipelines mgr)
  end.

(** The three caches of [mgr'] extend those of [mgr] at the end. *)
Definition allCachesExtend (mgr mgr' : DxvkPipelineManager) : Prop :=
  (exists ext, m_pipelineLayouts mgr' = m_pipelineLayouts mgr ++ ext)
  /\ (exists ext, m_computePipelines mgr' = m_computePipelines mgr ++ ext)
  /\ (exists ext, m_graphicsPipelines mgr' = m_graphicsPipelines mgr ++ ext).

(** Every cached pipeline points at the layout-cache node of its binding
    layout, and every such node stores the layout it is keyed by. *)
Definition managerSound (getBindings : nat -> DxvkBindingLayout)
    (mgr : DxvkPipelineManager) : Prop :=
  (forall i k o, m_pipelineLayouts mgr !! i = Some (k, o) -> m_layout o = k)
  /\ (forall p s e, m_graphicsPipelines mgr !! p = Some (s, e) ->
        map_find BindingLayout.eq (PipelineManager.mergedLayout getBindings s)
          (m_pipelineLayouts mgr) = Some (gp_layout e))
  /\ (forall p s e, m_computePipelines mgr !! p = Some (s, e) ->
        exists a, cs s = Some a
          /\ map_find BindingLayout.eq (getBindings a) (m_pipelineLayouts mgr)
             = Some (cp_layout e)).

(** A compute shader set and a request history for the examples. *)
Definition exampleCompute : DxvkComputePipelineShaders := mkComputeShaders (Some 7%nat).

Definition exampleHistory : list PipelineManager.request :=
  [PipelineManager.ReqGraphics exampleShaders1;
   PipelineManager.ReqCompute exampleCompute;
   PipelineManager.ReqGraphics exampleShaders2;
   PipelineManager.ReqGraphics exampleShaders1].

(** Entry [x'] continues entry [x]: same merge class, and stage and
    access masks that contain those of [x]. *)
Definition continues (x x' : DxvkBindingInfo) : Prop :=
  mergeKey x' = mergeKey x
  /\ Z.lor (stages x') (stages x) = stages x'
  /\ Z.lor (access x') (access x) = access x'.

(** * Properties *)

(** ** Flag words *)

Lemma land_pow2 (s n : Z) :
  0 <= n -> Z.land s (2 ^ n) = if Z.testbit s n then 2 ^ n else 0.
Proof.
  intros Hn. apply Z.bits_inj'. intros m Hm.
  rewrite Z.land_spec, Z.pow2_bits_eqb by assumption.
  destruct (Z.eqb_spec n m) as [->|Hne].
  - destruct (Z.testbit s m) eqn:E; simpl.
    + rewrite Z.pow2_bits_true; [reflexivity | assumption].
    + rewrite Z.bits_0. reflexivity.
  - rewrite andb_false_r.
    destruct (Z.testbit s n).
    + rewrite Z.pow2_bits_false; [reflexivity | assumption].
    + rewrite Z.bits_0. reflexivity.
Qed.

Lemma has_flag_testbit (s n : Z) :
  0 <= n -> has_flag s (2 ^ n) = Z.testbit s n.
Proof.
  intros Hn. unfold has_flag. rewrite land_pow2 by assumption.
  destruct (Z.testbit s n); simpl.
  - assert (0 < 2 ^ n) by (apply Z.pow_pos_nonneg; lia).
    destruct (Z.eqb_spec (2 ^ n) 0); [lia | reflexivity].
  - reflexivity.
Qed.

Lemma has_compute_bit (s : Z) :
  has_flag s VK_SHADER_STAGE_COMPUTE_BIT = Z.testbit s 5.
Proof. apply (has_flag_testbit s 5). lia. Qed.

Lemma has_fragment_bit (s : Z) :
  has_flag s VK_SHADER_STAGE_FRAGMENT_BIT = Z.testbit s 4.
Proof. apply (has_flag_testbit s 4). lia. Qed.

Lemma same_fragment_bit (s1 s2 : Z) :
  (Z.land s1 VK_SHADER_STAGE_FRAGMENT_BIT =? Z.land s2 VK_SHADER_STAGE_FRAGMENT_BIT)
  = eqb (Z.testbit s1 4) (Z.testbit s2 4).
Proof.
  change VK_SHADER_STAGE_FRAGMENT_BIT with (2 ^ 4).
  rewrite !land_pow2 by lia.
  destruct (Z.testbit s1 4), (Z.testbit s2 4); reflexivity.
Qed.

(** ** [DxvkBindingInfo] *)

(** C2. [computeSetIndex] depends on the stage mask and the descriptor type
    only: bit 5 of the mask (compute) gives set 0; else bit 4 (fragment)
    gives set 1 for a uniform or storage buffer and set 0 for every other
    descriptor type; else the set is 2. *)
Theorem computeSetIndex_spec (b : DxvkBindingInfo) :
  BindingInfo.computeSetIndex b =
    if Z.testbit (stages b) 5 then 0
    else if Z.testbit (stages b) 4 then
      if bool_decide (descriptorType b = VK_DESCRIPTOR_TYPE_UNIFORM_BUFFER
                      \/ descriptorType b = VK_DESCRIPTOR_TYPE_STORAGE_BUFFER)
      then 1 else 0
    else 2.
Proof.
  unfold BindingInfo.computeSetIndex.
  rewrite has_compute_bit, has_fragment_bit.
  destruct (Z.testbit (stages b) 5); [reflexivity|].
  destruct (Z.testbit (stages b) 4); [|reflexivity].
  case_bool_decide as Hty.
  - destruct Hty as [-> | ->]; reflexivity.
  - destruct (Z.eqb_spec (descriptorType b) VK_DESCRIPTOR_TYPE_UNIFORM_BUFFER);
      [tauto|].
    destruct (Z.eqb_spec (descriptorType b) VK_DESCRIPTOR_TYPE_STORAGE_BUFFER);
      [tauto|].
    reflexivity.
Qed.

Lemma set_indices_elem : 0 ∈ set_indices /\ 1 ∈ set_indices /\ 2 ∈ set_indices.
Proof. unfold set_indices. repeat split; repeat constructor. Qed.

Lemma computeSetIndex_range (b : DxvkBindingInfo) :
  BindingInfo.computeSetIndex b ∈ set_indices.
Proof.
  unfold BindingInfo.computeSetIndex.
  repeat case_match; apply set_indices_elem.
Qed.

Lemma canMerge_iff (a b : DxvkBindingInfo) :
  BindingInfo.canMerge a b = true <->
    Z.testbit (stages a) 4 = Z.testbit (stages b) 4
    /\ descriptorType a = descriptorType b
    /\ resourceBinding a = resourceBinding b
    /\ viewType a = viewType b.
Proof.
  unfold BindingInfo.canMerge. rewrite same_fragment_bit.
  destruct (eqb (Z.testbit (stages a) 4) (Z.testbit (stages b) 4)) eqn:E; simpl.
  - apply eqb_prop in E. rewrite !andb_true_iff, !Z.eqb_eq. tauto.
  - apply eqb_false_iff in E. split; [discriminate | tauto].
Qed.

(** C3. [canMerge] holds exactly when the two bindings agree on the
    fragment bit of the stage mask, on the descriptor type, on the
    resource binding slot and on the view type; [merge] ORs the stage and
    access masks of the argument into the receiver and keeps its three
    other fields. *)
Theorem canMerge_merge_spec (a b : DxvkBindingInfo) :
  (BindingInfo.canMerge a b = true <->
     Z.testbit (stages a) 4 = Z.testbit (stages b) 4
     /\ descriptorType a = descriptorType b
     /\ resourceBinding a = resourceBinding b
     /\ viewType a = viewType b)
  /\ stages (BindingInfo.merge a b) = Z.lor (stages a) (stages b)
  /\ access (BindingInfo.merge a b) = Z.lor (access a) (access b)
  /\ descriptorType (BindingInfo.merge a b) = descriptorType a
  /\ resourceBinding (BindingInfo.merge a b) = resourceBinding a
  /\ viewType (BindingInfo.merge a b) = viewType a.
Proof.
  split; [apply canMerge_iff|]. repeat split.
Qed.

(** ** [DxvkBindingLayout]: the push-constant range *)

Lemma u32_small (z : Z) : 0 <= z < 2 ^ 32 -> u32 z = z.
Proof. intros H. unfold u32. apply Z.mod_small. exact H. Qed.

Lemma storedRange_snoc (rs : list VkPushConstantRange) (r : VkPushConstantRange) :
  storedRange (rs ++ [r]) =
  m_pushConst (BindingLayout.addPushConstantRange
                 (fold_left BindingLayout.addPushConstantRange rs BindingLayout.new) r).
Proof. unfold storedRange. rewrite fold_left_app. reflexivity. Qed.

Lemma fold_max_lower (zs : list Z) (a : Z) : a <= fold_left Z.max zs a.
Proof.
  revert a. induction zs as [|z zs IH]; intros a; simpl; [lia|].
  specialize (IH (Z.max a z)). lia.
Qed.

Lemma fold_max_bounded (zs : list Z) (a b : Z) :
  a < b -> Forall (fun z => z < b) zs -> fold_left Z.max zs a < b.
Proof.
  revert a. induction zs as [|z zs IH]; intros a Ha Hzs; simpl; [assumption|].
  inversion Hzs; subst. apply IH; [lia | assumption].
Qed.

(** From a fresh layout the stored offset stays at the [0] the constructor
    put there, and the stored size is the largest end seen so far. *)
Lemma storedRange_closed_form (rs : list VkPushConstantRange) :
  Forall rangeOk rs ->
  offset (storedRange rs) = 0
  /\ size (storedRange rs) = fold_left Z.max (map rangeEnd rs) 0
  /\ stageFlags (storedRange rs) = orStageFlags rs.
Proof.
  induction rs as [|r rs IH] using rev_ind; intros Hok.
  - repeat split.
  - apply Forall_app in Hok as [Hrs Hr]. apply Forall_inv in Hr.
    destruct (IH Hrs) as (Hoff & Hsz & Hfl).
    destruct Hr as (Hr0 & Hr1 & Hr2).
    assert (Hb : 0 <= fold_left Z.max (map rangeEnd rs) 0 < 2 ^ 32).
    { split; [apply fold_max_lower|].
      apply fold_max_bounded; [lia|].
      apply Forall_map. eapply Forall_impl; [exact Hrs|].
      intros x (? & ? & ?). unfold rangeEnd. simpl. lia. }
    rewrite storedRange_snoc. unfold orStageFlags.
    rewrite !map_app, !fold_left_app. simpl.
    fold (storedRange rs). fold (orStageFlags rs).
    rewrite Hoff, Hsz, Hfl. unfold rangeEnd at 2.
    rewrite Z.min_l by lia. rewrite Z.add_0_l, Z.sub_0_r.
    rewrite (u32_small (fold_left Z.max (map rangeEnd rs) 0)) by exact Hb.
    rewrite (u32_small (offset r + size r)) by lia.
    rewrite u32_small by lia.
    repeat split.
Qed.

(** The end of the stored range is the maximum end of the ranges added:
    this part of the union holds as the design document has it. *)
Lemma storedRange_end_is_maxEnd (r : VkPushConstantRange) (rs : list VkPushConstantRange) :
  Forall rangeOk (r :: rs) ->
  rangeEnd (storedRange (r :: rs)) = maxEnd r rs.
Proof.
  intros Hok. destruct (storedRange_closed_form _ Hok) as (Hoff & Hsz & _).
  unfold rangeEnd at 1. rewrite Hoff, Hsz. unfold maxEnd. simpl.
  apply Forall_inv in Hok. destruct Hok as (H0 & H1 & _).
  rewrite Z.max_r by (unfold rangeEnd; lia). reflexivity.
Qed.

(** C4, on the code.  [addPushConstantRange] takes the minimum of the
    stored offset and the new one and measures the size from it, but the
    constructor starts the stored range at offset [0], so the minimum
    never leaves [0].  After the single range [{stages 1, offset 16,
    size 16}] on a fresh layout the stored range is [{offset 0, size 32}]:
    it begins at byte [0], not at the minimum offset [16] of the ranges
    added, and it covers the bytes [0..15] that no added range covers;
    its end [32] and its stage mask are those of the union.  It is the
    same after a second range [{stages 16, offset 32, size 16}]: the
    stored range is [{offset 0, size 48}], the minimum offset is [16]. *)
Theorem addPushConstantRange_offset_stuck :
  storedRange [mkPushConstantRange 1 16 16] = mkPushConstantRange 1 0 32
  /\ minOffset (mkPushConstantRange 1 16 16) [] = 16
  /\ maxEnd (mkPushConstantRange 1 16 16) [] = 32
  /\ storedRange [mkPushConstantRange 1 16 16; mkPushConstantRange 16 32 16]
     = mkPushConstantRange 17 0 48
  /\ minOffset (mkPushConstantRange 1 16 16) [mkPushConstantRange 16 32 16] = 16
  /\ maxEnd (mkPushConstantRange 1 16 16) [mkPushConstantRange 16 32 16] = 48.
Proof. repeat split; vm_compute; reflexivity. Qed.

(** ** [DxvkDescriptorSlotMapping::makeDescriptorsDynamic] *)

Lemma countDescriptors_fold (ty : Z) (slots : list DescriptorSlot.t) (acc : Z) :
  0 <= acc ->
  acc + Z.of_nat (length slots) < 2 ^ 32 ->
  fold_left
    (fun count s => u32 (count + (if DescriptorSlot.type s =? ty then 1 else 0)))
    slots acc
  = acc + Z.of_nat (length (filter (fun s => DescriptorSlot.type s = ty) slots)).
Proof.
  revert acc. induction slots as [|s slots IH]; intros acc Hacc Hlen; simpl.
  - lia.
  - simpl in Hlen. rewrite filter_cons.
    destruct (Z.eqb_spec (DescriptorSlot.type s) ty) as [Heq|Hne].
    + rewrite decide_True by assumption.
      rewrite u32_small by lia. rewrite IH by lia. simpl. lia.
    + rewrite decide_False by assumption.
      rewrite u32_small by lia. rewrite IH by lia. lia.
Qed.

Lemma countDescriptors_uniform (m : DxvkDescriptorSlotMapping) :
  Z.of_nat (length (m_descriptorSlots m)) < 2 ^ 32 ->
  DescriptorSlotMapping.countDescriptors m VK_DESCRIPTOR_TYPE_UNIFORM_BUFFER
  = Z.of_nat (uniformBufferCount m).
Proof.
  intros Hlen. unfold DescriptorSlotMapping.countDescriptors.
  rewrite countDescriptors_fold by lia. reflexivity.
Qed.

Lemma uniformBufferCount_pos (m : DxvkDescriptorSlotMapping) :
  (0 < uniformBufferCount m)%nat ->
  exists i s, m_descriptorSlots m !! i = Some s
    /\ DescriptorSlot.type s = VK_DESCRIPTOR_TYPE_UNIFORM_BUFFER.
Proof.
  unfold uniformBufferCount. intros Hpos.
  destruct (filter _ (m_descriptorSlots m)) as [|s rest] eqn:E; [simpl in Hpos; lia|].
  assert (Hin : s ∈ filter
            (fun s => DescriptorSlot.type s = VK_DESCRIPTOR_TYPE_UNIFORM_BUFFER)
            (m_descriptorSlots m)) by (rewrite E; left).
  apply list_elem_of_filter in Hin as [Hty Hin].
  apply list_elem_of_lookup in Hin as [i Hi]. eauto.
Qed.

(** C5. On a slot mapping whose size fits the 32-bit counter, and for a
    limit that is a [uint32_t] value: every
    uniform-buffer binding becomes a dynamic uniform-buffer binding exactly
    when the number of uniform-buffer bindings is at most [uniformBuffers];
    a converted binding keeps its slot, view, stages and access; every
    binding of another type, storage buffers included, is left as it is;
    beyond the limit nothing changes; and [storageBuffers] has no
    influence on the result. *)
Theorem makeDescriptorsDynamic_spec
    (m : DxvkDescriptorSlotMapping) (uniformBuffers storageBuffers : Z) :
  Z.of_nat (length (m_descriptorSlots m)) < 2 ^ 32 ->
  0 <= uniformBuffers ->
  (allUniformBuffersDynamic m
     (DescriptorSlotMapping.makeDescriptorsDynamic m uniformBuffers storageBuffers)
   <-> Z.of_nat (uniformBufferCount m) <= uniformBuffers)
  /\ (forall i s,
        m_descriptorSlots m !! i = Some s ->
        exists s',
          m_descriptorSlots
            (DescriptorSlotMapping.makeDescriptorsDynamic m uniformBuffers storageBuffers)
            !! i = Some s'
          /\ DescriptorSlot.slot s' = DescriptorSlot.slot s
          /\ DescriptorSlot.view s' = DescriptorSlot.view s
          /\ DescriptorSlot.stages s' = DescriptorSlot.stages s
          /\ DescriptorSlot.access s' = DescriptorSlot.access s
          /\ (DescriptorSlot.type s <> VK_DESCRIPTOR_TYPE_UNIFORM_BUFFER -> s' = s))
  /\ (uniformBuffers < Z.of_nat (uniformBufferCount m) ->
        DescriptorSlotMapping.makeDescriptorsDynamic m uniformBuffers storageBuffers = m)
  /\ (forall storageBuffers',
        DescriptorSlotMapping.makeDescriptorsDynamic m uniformBuffers storageBuffers'
        = DescriptorSlotMapping.makeDescriptorsDynamic m uniformBuffers storageBuffers).
Proof.
  intros Hlen Hlimit. unfold DescriptorSlotMapping.makeDescriptorsDynamic.
  rewrite countDescriptors_uniform by assumption.
  split; [|split; [|split]].
  - destruct (Z.leb_spec (Z.of_nat (uniformBufferCount m)) uniformBuffers) as [Hle|Hgt].
    + split; [intros _; assumption|]. intros _ i s Hi Hty.
      exists (DescriptorSlotMapping.replaceType VK_DESCRIPTOR_TYPE_UNIFORM_BUFFER
                VK_DESCRIPTOR_TYPE_UNIFORM_BUFFER_DYNAMIC s).
      split.
      * simpl. rewrite list_lookup_fmap, Hi. reflexivity.
      * unfold DescriptorSlotMapping.replaceType. rewrite Hty. reflexivity.
    + split; [|lia]. intros Hall. exfalso.
      destruct (uniformBufferCount_pos m) as (i & s & Hi & Hty).
      { lia. }
      destruct (Hall i s Hi Hty) as (s' & Hi' & Hty').
      rewrite Hi in Hi'. injection Hi' as <-. rewrite Hty in Hty'. discriminate.
  - intros i s Hi.
    destruct (Z.leb_spec (Z.of_nat (uniformBufferCount m)) uniformBuffers) as [Hle|Hgt].
    + exists (DescriptorSlotMapping.replaceType VK_DESCRIPTOR_TYPE_UNIFORM_BUFFER
                VK_DESCRIPTOR_TYPE_UNIFORM_BUFFER_DYNAMIC s).
      split; [simpl; rewrite list_lookup_fmap, Hi; reflexivity|].
      unfold DescriptorSlotMapping.replaceType.
      destruct (Z.eqb_spec (DescriptorSlot.type s) VK_DESCRIPTOR_TYPE_UNIFORM_BUFFER);
        simpl; repeat split; tauto.
    + exists s. repeat split. assumption.
  - intros Hgt.
    destruct (Z.leb_spec (Z.of_nat (uniformBufferCount m)) uniformBuffers); [lia|].
    reflexivity.
  - reflexivity.
Qed.

Lemma makeDescriptorsDynamic_spec_witness :
  Z.of_nat (length (m_descriptorSlots fourUniformBuffers)) < 2 ^ 32
  /\ allUniformBuffersDynamic fourUniformBuffers
       (DescriptorSlotMapping.makeDescriptorsDynamic fourUniformBuffers 4 0).
Proof.
  assert (Hlen : Z.of_nat (length (m_descriptorSlots fourUniformBuffers)) < 2 ^ 32)
    by reflexivity.
  assert (Hlimit : 0 <= 4) by lia.
  split; [exact Hlen|].
  destruct (makeDescriptorsDynamic_spec fourUniformBuffers 4 0 Hlen Hlimit)
    as [Hiff _].
  apply Hiff. vm_compute. discriminate.
Defined.

(** The two examples of the design document, by evaluation: with limit 4,
    four uniform buffers all become dynamic (the storage buffer among them
    stays), and five uniform buffers stay as they are. *)
Example makeDescriptorsDynamic_four :
  map DescriptorSlot.type
    (m_descriptorSlots
       (DescriptorSlotMapping.makeDescriptorsDynamic fourUniformBuffers 4 0))
  = [VK_DESCRIPTOR_TYPE_UNIFORM_BUFFER_DYNAMIC; VK_DESCRIPTOR_TYPE_UNIFORM_BUFFER_DYNAMIC;
     VK_DESCRIPTOR_TYPE_STORAGE_BUFFER;
     VK_DESCRIPTOR_TYPE_UNIFORM_BUFFER_DYNAMIC; VK_DESCRIPTOR_TYPE_UNIFORM_BUFFER_DYNAMIC].
Proof. reflexivity. Qed.

Example makeDescriptorsDynamic_five :
  DescriptorSlotMapping.makeDescriptorsDynamic fiveUniformBuffers 4 0
  = fiveUniformBuffers.
Proof. reflexivity. Qed.

(** ** [DxvkBindingLayout]: eager merging *)

Section MergeClasses.

Lemma canMerge_key (x b : DxvkBindingInfo) :
  BindingInfo.canMerge x b = true <-> mergeKey x = mergeKey b.
Proof.
  rewrite canMerge_iff. unfold mergeKey. split.
  - intros (H1 & H2 & H3 & H4). rewrite H1, H2, H3, H4. reflexivity.
  - intros H. repeat split; congruence.
Qed.

Lemma merge_key (x b : DxvkBindingInfo) :
  BindingInfo.canMerge x b = true ->
  mergeKey (BindingInfo.merge x b) = mergeKey x.
Proof.
  intros H. destruct (proj1 (canMerge_iff x b) H) as (Hbit & _).
  unfold mergeKey.
  change (stages (BindingInfo.merge x b)) with (Z.lor (stages x) (stages b)).
  rewrite Z.lor_spec, <- Hbit, orb_diag. reflexivity.
Qed.

Lemma addToSet_keys (bs : list DxvkBindingInfo) (b : DxvkBindingInfo) (k : bool * Z * Z * Z) :
  k ∈ mergeKey <$> BindingLayout.addToSet bs b ->
  k ∈ mergeKey <$> bs \/ k = mergeKey b.
Proof.
  induction bs as [|x rest IH]; simpl.
  - intros H. apply list_elem_of_singleton in H. right. exact H.
  - destruct (BindingInfo.canMerge x b) eqn:E; simpl.
    + rewrite merge_key by assumption. intros H. left. exact H.
    + intros H. apply elem_of_cons in H as [->|H].
      * left. left.
      * destruct (IH H) as [H'|H']; [left; right; exact H' | right; exact H'].
Qed.

Lemma addToSet_NoDup (bs : list DxvkBindingInfo) (b : DxvkBindingInfo) :
  NoDup (mergeKey <$> bs) -> NoDup (mergeKey <$> BindingLayout.addToSet bs b).
Proof.
  induction bs as [|x rest IH]; simpl; intros Hnd.
  - apply NoDup_singleton.
  - apply NoDup_cons in Hnd as [Hx Hrest].
    destruct (BindingInfo.canMerge x b) eqn:E; simpl.
    + rewrite merge_key by assumption. apply NoDup_cons. split; assumption.
    + apply NoDup_cons. split; [|apply IH; assumption].
      intros Hin. apply addToSet_keys in Hin as [Hin|Heq]; [contradiction|].
      apply canMerge_key in Heq. congruence.
Qed.

Lemma sa_get_set {T} (a : SetArray T) (i j : Z) (x : T) :
  sa_get (sa_set a i x) j = sa_get a j \/ sa_get (sa_set a i x) j = x.
Proof.
  unfold sa_get, sa_set.
  destruct (i =? 0), (i =? 1), (j =? 0), (j =? 1); simpl; auto.
Qed.

Lemma sa_get_set_same {T} (a : SetArray T) (i : Z) (x : T) :
  sa_get (sa_set a i x) i = x.
Proof.
  unfold sa_get, sa_set.
  destruct (i =? 0) eqn:E0; simpl; [reflexivity|].
  destruct (i =? 1) eqn:E1; simpl; reflexivity.
Qed.

Lemma addBinding_keysDistinct (l : DxvkBindingLayout) (b : DxvkBindingInfo) :
  keysDistinct l -> keysDistinct (BindingLayout.addBinding l b).
Proof.
  intros Hl s. unfold BindingLayout.addBinding. simpl.
  destruct (sa_get_set (m_bindings l) (BindingInfo.computeSetIndex b) s
              (BindingLayout.addToSet
                 (sa_get (m_bindings l) (BindingInfo.computeSetIndex b)) b))
    as [-> | ->].
  - apply Hl.
  - apply addToSet_NoDup, Hl.
Qed.

Lemma addBindings_keysDistinct (bs : list DxvkBindingInfo) (l : DxvkBindingLayout) :
  keysDistinct l -> keysDistinct (fold_left BindingLayout.addBinding bs l).
Proof.
  revert l. induction bs as [|b bs IH]; intros l Hl; simpl; [exact Hl|].
  apply IH, addBinding_keysDistinct, Hl.
Qed.

Lemma applyOp_keysDistinct (l : DxvkBindingLayout) (op : layoutOp) :
  keysDistinct l -> keysDistinct (applyOp l op).
Proof.
  intros Hl. destruct op as [b|r|other]; simpl.
  - apply addBinding_keysDistinct, Hl.
  - exact Hl.
  - intros s. unfold BindingLayout.merge, BindingLayout.addPushConstantRange. simpl.
    apply addBindings_keysDistinct, Hl.
Qed.

Lemma buildLayout_keysDistinct (ops : list layoutOp) :
  keysDistinct (buildLayout ops).
Proof.
  unfold buildLayout.
  assert (H0 : keysDistinct BindingLayout.new).
  { intros s. unfold BindingLayout.new, sa_get, sa_fill. simpl.
    repeat case_match; apply NoDup_nil_2. }
  revert H0. generalize BindingLayout.new.
  induction ops as [|op ops IH]; intros l Hl; simpl; [exact Hl|].
  apply IH, applyOp_keysDistinct, Hl.
Qed.

Lemma keysDistinct_merged (l : DxvkBindingLayout) :
  keysDistinct l -> layoutMerged l.
Proof.
  intros Hl s _ i j x y Hi Hj (Hty & Hslot & Hview & Hbit).
  eapply (proj1 (NoDup_alt _) (Hl s) i j (mergeKey x)).
  - rewrite list_lookup_fmap, Hi. reflexivity.
  - rewrite list_lookup_fmap, Hj. simpl. unfold mergeKey. congruence.
Qed.

End MergeClasses.

(** C8. In a layout built from a freshly constructed one by any sequence of
    [addBinding], [addPushConstantRange] and [merge] calls, no descriptor
    set holds, at two positions, entries with the same descriptor type,
    resource binding slot and view type that also agree on the presence of
    the fragment stage. *)
Theorem buildLayout_merged (ops : list layoutOp) :
  layoutMerged (buildLayout ops).
Proof. apply keysDistinct_merged, buildLayout_keysDistinct. Qed.

(** ** Structural equality of binding layouts *)

Lemma BindingInfo_eq_true (a b : DxvkBindingInfo) :
  BindingInfo.eq a b = true <-> a = b.
Proof.
  unfold BindingInfo.eq. rewrite !andb_true_iff, !Z.eqb_eq.
  destruct a, b; simpl. split.
  - intros ((((-> & ->) & ->) & ->) & ->). reflexivity.
  - intros H. injection H as -> -> -> -> ->. repeat split.
Qed.

Lemma eqEntries_true (xs ys : list DxvkBindingInfo) :
  length xs = length ys -> BindingLayout.eqEntries xs ys = true -> xs = ys.
Proof.
  revert ys. induction xs as [|x xs IH]; intros [|y ys] Hlen H;
    simpl in *; try discriminate; [reflexivity|].
  apply andb_true_iff in H as [Hxy H].
  apply BindingInfo_eq_true in Hxy as ->.
  f_equal. apply IH; [lia | assumption].
Qed.

Lemma eqEntries_refl (xs : list DxvkBindingInfo) :
  BindingLayout.eqEntries xs xs = true.
Proof.
  induction xs as [|x xs IH]; simpl; [reflexivity|].
  rewrite IH, andb_true_r. apply BindingInfo_eq_true. reflexivity.
Qed.

Lemma BindingLayout_eq_refl (a : DxvkBindingLayout) : BindingLayout.eq a a = true.
Proof.
  unfold BindingLayout.eq. simpl.
  rewrite !Nat.eqb_refl, !eqEntries_refl, !Z.eqb_refl. reflexivity.
Qed.

Lemma BindingLayout_eq_true (a b : DxvkBindingLayout) :
  BindingLayout.eq a b = true <-> a = b.
Proof.
  split; [|intros ->; apply BindingLayout_eq_refl].
  unfold BindingLayout.eq, set_indices. cbn [forallb]. intros H.
  destruct (Nat.eqb_spec (length (sa_get (m_bindings a) 0))
                         (length (sa_get (m_bindings b) 0))) as [L0|];
    [|discriminate].
  destruct (Nat.eqb_spec (length (sa_get (m_bindings a) 1))
                         (length (sa_get (m_bindings b) 1))) as [L1|];
    [|discriminate].
  destruct (Nat.eqb_spec (length (sa_get (m_bindings a) 2))
                         (length (sa_get (m_bindings b) 2))) as [L2|];
    [|discriminate].
  destruct (BindingLayout.eqEntries (sa_get (m_bindings a) 0) _) eqn:E0;
    [|discriminate].
  destruct (BindingLayout.eqEntries (sa_get (m_bindings a) 1) _) eqn:E1;
    [|discriminate].
  destruct (BindingLayout.eqEntries (sa_get (m_bindings a) 2) _) eqn:E2;
    [|discriminate].
  destruct (Z.eqb_spec (stageFlags (m_pushConst a)) (stageFlags (m_pushConst b)));
    [|discriminate].
  destruct (Z.eqb_spec (offset (m_pushConst a)) (offset (m_pushConst b)));
    [|discriminate].
  destruct (Z.eqb_spec (size (m_pushConst a)) (size (m_pushConst b)));
    [|discriminate].
  apply eqEntries_true in E0, E1, E2; try assumption.
  destruct a as [[a0 a1 a2] [af ao az]], b as [[b0 b1 b2] [bf bo bz]].
  unfold sa_get in *. simpl in *. congruence.
Qed.

(** ** The caches of the pipeline manager *)

Section Caches.

Context {K V : Type} (same : K -> K -> bool).

Lemma map_find_Some (k : K) (m : list (K * V)) (i : nat) :
  map_find same k m = Some i ->
  exists k' v, m !! i = Some (k', v) /\ same k' k = true.
Proof.
  unfold map_find. intros H.
  apply fmap_Some in H as ([j [k' v]] & Hfind & ->).
  apply list_find_Some in Hfind as (Hlook & Hsame & _).
  exists k', v. split; [exact Hlook|]. apply Is_true_eq_true. exact Hsame.
Qed.

Lemma map_find_app_l (k : K) (m ext : list (K * V)) (i : nat) :
  map_find same k m = Some i -> map_find same k (m ++ ext) = Some i.
Proof.
  unfold map_find. intros H.
  apply fmap_Some in H as ([j kv] & Hfind & ->).
  erewrite list_find_app_l by exact Hfind. reflexivity.
Qed.

Lemma map_find_emplace (k : K) (v : V) (m : list (K * V)) :
  map_find same k m = None -> same k k = true ->
  map_find same k (map_emplace k v m) = Some (length m).
Proof.
  unfold map_find, map_emplace. intros Hnone Hrefl.
  apply fmap_None in Hnone.
  rewrite list_find_app_r by exact Hnone. simpl.
  rewrite decide_True by (simpl; rewrite Hrefl; exact I). reflexivity.
Qed.

End Caches.

Lemma GraphicsShaders_eq_true (a b : DxvkGraphicsPipelineShaders) :
  GraphicsShaders_eq a b = true <-> a = b.
Proof.
  unfold GraphicsShaders_eq, ShaderRef_eq.
  rewrite !andb_true_iff, !bool_decide_eq_true.
  destruct a, b; simpl. split.
  - intros ((((-> & ->) & ->) & ->) & ->). reflexivity.
  - intros H. injection H as -> -> -> -> ->. repeat split.
Qed.

Section Manager.

Variable MaxNumActiveBindings : Z.
Variable getBindings : nat -> DxvkBindingLayout.

Lemma cachesExtend_refl (mgr : DxvkPipelineManager) : cachesExtend mgr mgr.
Proof. split; exists []; rewrite app_nil_r; reflexivity. Qed.

Lemma cachesExtend_trans (m1 m2 m3 : DxvkPipelineManager) :
  cachesExtend m1 m2 -> cachesExtend m2 m3 -> cachesExtend m1 m3.
Proof.
  intros [[l1 Hl1] [g1 Hg1]] [[l2 Hl2] [g2 Hg2]]. split.
  - exists (l1 ++ l2). rewrite Hl2, Hl1, app_assoc. reflexivity.
  - exists (g1 ++ g2). rewrite Hg2, Hg1, app_assoc. reflexivity.
Qed.

Lemma layoutsResolved_extend (mgr mgr' : DxvkPipelineManager) :
  layoutsResolved getBindings mgr ->
  (exists ext, m_pipelineLayouts mgr' = m_pipelineLayouts mgr ++ ext) ->
  m_graphicsPipelines mgr' = m_graphicsPipelines mgr ->
  layoutsResolved getBindings mgr'.
Proof.
  intros Hres [ext Hext] Hg p s e Hp.
  rewrite Hg in Hp. rewrite Hext. apply map_find_app_l. eapply Hres, Hp.
Qed.

(** What [createPipelineLayout] does to the manager: the pipeline caches
    are untouched, the layout cache grows at the end, and the node it
    returns is the one [find] gives for that layout from then on. *)
Lemma createPipelineLayout_effect (layout : DxvkBindingLayout)
    (mgr : DxvkPipelineManager) :
  let r := PipelineManager.createPipelineLayout MaxNumActiveBindings layout mgr in
  m_graphicsPipelines (snd r) = m_graphicsPipelines mgr
  /\ m_computePipelines (snd r) = m_computePipelines mgr
  /\ (exists ext, m_pipelineLayouts (snd r) = m_pipelineLayouts mgr ++ ext)
  /\ (forall i, fst r = Returned i ->
        map_find BindingLayout.eq layout (m_pipelineLayouts (snd r)) = Some i).
Proof.
  unfold PipelineManager.createPipelineLayout.
  destruct (map_find BindingLayout.eq layout (m_pipelineLayouts mgr)) as [i|] eqn:Hfind;
    simpl.
  - repeat split; [exists []; rewrite app_nil_r; reflexivity|].
    intros j Hj. injection Hj as <-. exact Hfind.
  - unfold eff_bind, PipelineManager.onDevice.
    destruct (BindingLayoutObjects.new MaxNumActiveBindings layout (m_device mgr))
      as [[o|what|] d']; simpl.
    + repeat split; [eexists; reflexivity|].
      intros j Hj. injection Hj as <-.
      apply map_find_emplace; [exact Hfind | apply BindingLayout_eq_refl].
    + repeat split; [exists []; rewrite app_nil_r; reflexivity|].
      intros j Hj. discriminate Hj.
    + repeat split; [exists []; rewrite app_nil_r; reflexivity|].
      intros j Hj. discriminate Hj.
Qed.

Lemma createComputePipeline_effect (shaders : DxvkComputePipelineShaders)
    (mgr : DxvkPipelineManager) :
  let r := PipelineManager.createComputePipeline MaxNumActiveBindings getBindings shaders mgr in
  layoutsResolved getBindings mgr ->
  layoutsResolved getBindings (snd r) /\ cachesExtend mgr (snd r).
Proof.
  unfold PipelineManager.createComputePipeline. intros Hres.
  destruct (cs shaders) as [a|]; simpl;
    [|split; [exact Hres | apply cachesExtend_refl]].
  destruct (map_find ComputeShaders_eq shaders (m_computePipelines mgr));
    simpl; [split; [exact Hres | apply cachesExtend_refl]|].
  unfold eff_bind.
  pose proof (createPipelineLayout_effect (getBindings a) mgr) as (Hg & _ & Hl & _).
  destruct (PipelineManager.createPipelineLayout MaxNumActiveBindings (getBindings a) mgr)
    as [[i|what|] mgr']; simpl in *.
  - split.
    + eapply layoutsResolved_extend; [exact Hres | exact Hl | exact Hg].
    + split; [exact Hl | exists []; rewrite app_nil_r; exact Hg].
  - split.
    + eapply layoutsResolved_extend; [exact Hres | exact Hl | exact Hg].
    + split; [exact Hl | exists []; rewrite app_nil_r; exact Hg].
  - split.
    + eapply layoutsResolved_extend; [exact Hres | exact Hl | exact Hg].
    + split; [exact Hl | exists []; rewrite app_nil_r; exact Hg].
Qed.

Lemma createGraphicsPipeline_effect (shaders : DxvkGraphicsPipelineShaders)
    (mgr : DxvkPipelineManager) :
  let r := PipelineManager.createGraphicsPipeline MaxNumActiveBindings getBindings
             shaders mgr in
  layoutsResolved getBindings mgr ->
  layoutsResolved getBindings (snd r)
  /\ cachesExtend mgr (snd r)
  /\ (forall p, fst r = Returned (Some p) ->
        exists e, m_graphicsPipelines (snd r) !! p = Some (shaders, e)).
Proof.
  unfold PipelineManager.createGraphicsPipeline. intros Hres.
  destruct (vs shaders) as [a|]; simpl;
    [|split; [exact Hres | split; [apply cachesExtend_refl | discriminate]]].
  destruct (map_find GraphicsShaders_eq shaders (m_graphicsPipelines mgr))
    as [i|] eqn:Hfind; simpl.
  { split; [exact Hres|]. split; [apply cachesExtend_refl|].
    intros p Hp. injection Hp as <-.
    apply map_find_Some in Hfind as (k' & e & Hlook & Hsame).
    apply GraphicsShaders_eq_true in Hsame as ->. exists e. exact Hlook. }
  unfold eff_bind.
  pose proof (createPipelineLayout_effect
                (PipelineManager.mergedLayout getBindings shaders) mgr)
    as (Hg & _ & Hl & Hret).
  destruct (PipelineManager.createPipelineLayout MaxNumActiveBindings
              (PipelineManager.mergedLayout getBindings shaders) mgr)
    as [[i|what|] mgr']; simpl in *.
  - split; [|split].
    + intros p s e Hp. unfold map_emplace in Hp.
      apply lookup_app_Some in Hp as [Hp | [_ Hp]].
      * rewrite Hg in Hp. destruct Hl as [ext ->].
        apply map_find_app_l. eapply Hres, Hp.
      * apply list_lookup_singleton_Some in Hp as [_ Hp].
        injection Hp as <- <-. simpl. apply Hret. reflexivity.
    + split; [exact Hl|]. exists [(shaders, mkGraphicsPipeline shaders i)].
      unfold map_emplace. rewrite Hg. reflexivity.
    + intros p Hp. injection Hp as <-.
      exists (mkGraphicsPipeline shaders i). unfold map_emplace.
      rewrite lookup_app_r by lia. rewrite Nat.sub_diag. reflexivity.
  - split; [|split].
    + eapply layoutsResolved_extend; [exact Hres | exact Hl | exact Hg].
    + split; [exact Hl | exists []; rewrite app_nil_r; exact Hg].
    + discriminate.
  - split; [|split].
    + eapply layoutsResolved_extend; [exact Hres | exact Hl | exact Hg].
    + split; [exact Hl | exists []; rewrite app_nil_r; exact Hg].
    + discriminate.
Qed.

Lemma serve_effect (mgr : DxvkPipelineManager) (r : PipelineManager.request) :
  layoutsResolved getBindings mgr ->
  layoutsResolved getBindings (PipelineManager.serve MaxNumActiveBindings getBindings mgr r)
  /\ cachesExtend mgr (PipelineManager.serve MaxNumActiveBindings getBindings mgr r).
Proof.
  intros Hres. destruct r as [s|s]; simpl.
  - apply createComputePipeline_effect, Hres.
  - destruct (createGraphicsPipeline_effect s mgr Hres) as (H1 & H2 & _).
    split; assumption.
Qed.

Lemma serveAll_effect (rs : list PipelineManager.request) (mgr : DxvkPipelineManager) :
  layoutsResolved getBindings mgr ->
  layoutsResolved getBindings (PipelineManager.serveAll MaxNumActiveBindings getBindings rs mgr)
  /\ cachesExtend mgr (PipelineManager.serveAll MaxNumActiveBindings getBindings rs mgr).
Proof.
  revert mgr. induction rs as [|r rs IH]; intros mgr Hres; simpl.
  - split; [exact Hres | apply cachesExtend_refl].
  - destruct (serve_effect mgr r Hres) as [H1 H2].
    destruct (IH _ H1) as [H3 H4].
    split; [exact H3 | eapply cachesExtend_trans; eassumption].
Qed.

Lemma managerAfter_resolved (device : VkDevice) (history : list PipelineManager.request) :
  layoutsResolved getBindings (managerAfter MaxNumActiveBindings getBindings device history).
Proof.
  apply serveAll_effect. intros p s e Hp. simpl in Hp.
  rewrite lookup_nil in Hp. discriminate Hp.
Qed.

End Manager.

(** C6. Two graphics-pipeline creation calls that both return a pipeline,
    for shader sets that differ as cache keys and whose merged binding
    layouts are structurally equal ([eq]), return two different nodes of
    the graphics-pipeline cache, stored under the two shader sets, and the
    two pipelines hold the same [DxvkBindingLayoutObjects] node: the one
    cached under the merged layout.  This holds whatever requests were
    served before the first call and between the two. *)
Theorem equal_layouts_share_objects
    (MaxNumActiveBindings : Z) (getBindings : nat -> DxvkBindingLayout)
    (device : VkDevice) (before between : list PipelineManager.request)
    (s1 s2 : DxvkGraphicsPipelineShaders) (p1 p2 : nat) :
  GraphicsShaders_eq s1 s2 = false ->
  BindingLayout.eq (PipelineManager.mergedLayout getBindings s1)
                   (PipelineManager.mergedLayout getBindings s2) = true ->
  fst (firstCall MaxNumActiveBindings getBindings device before s1)
    = Returned (Some p1) ->
  fst (secondCall MaxNumActiveBindings getBindings device before s1 between s2)
    = Returned (Some p2) ->
  p1 <> p2
  /\ exists (e1 e2 : DxvkGraphicsPipeline) (objects : DxvkBindingLayoutObjects),
       m_graphicsPipelines
         (snd (secondCall MaxNumActiveBindings getBindings device before s1 between s2))
         !! p1 = Some (s1, e1)
       /\ m_graphicsPipelines
            (snd (secondCall MaxNumActiveBindings getBindings device before s1 between s2))
            !! p2 = Some (s2, e2)
       /\ gp_layout e1 = gp_layout e2
       /\ m_pipelineLayouts
            (snd (secondCall MaxNumActiveBindings getBindings device before s1 between s2))
            !! gp_layout e1
          = Some (PipelineManager.mergedLayout getBindings s1, objects).
Proof.
  intros Hkeys Hlayouts Hr1 Hr2.
  unfold secondCall in *. unfold firstCall in *.
  pose proof (managerAfter_resolved MaxNumActiveBindings getBindings device before) as H0.
  destruct (createGraphicsPipeline_effect MaxNumActiveBindings getBindings s1 _ H0)
    as (Hres1 & Hext1 & Hp1).
  destruct (Hp1 p1 Hr1) as [e1 He1].
  destruct (serveAll_effect MaxNumActiveBindings getBindings between _ Hres1)
    as (Hres1' & Hext1').
  destruct (createGraphicsPipeline_effect MaxNumActiveBindings getBindings s2 _ Hres1')
    as (Hres2 & Hext2 & Hp2).
  destruct (Hp2 p2 Hr2) as [e2 He2].
  set (mgr2 := snd (PipelineManager.createGraphicsPipeline MaxNumActiveBindings getBindings s2 _)) in *.
  assert (He1' : m_graphicsPipelines mgr2 !! p1 = Some (s1, e1)).
  { destruct Hext1' as [_ [g1 Hg1]]. destruct Hext2 as [_ [g2 Hg2]].
    rewrite Hg2, Hg1.
    apply lookup_app_l_Some, lookup_app_l_Some. exact He1. }
  assert (Hne : p1 <> p2).
  { intros ->. rewrite He1' in He2. injection He2 as Heq _.
    rewrite Heq in Hkeys.
    rewrite (proj2 (GraphicsShaders_eq_true s2 s2) eq_refl) in Hkeys.
    discriminate Hkeys. }
  split; [exact Hne|].
  pose proof (Hres2 _ _ _ He1') as Hf1.
  pose proof (Hres2 _ _ _ He2) as Hf2.
  apply BindingLayout_eq_true in Hlayouts.
  rewrite <- Hlayouts in Hf2.
  assert (Hsame : gp_layout e1 = gp_layout e2) by congruence.
  destruct (map_find_Some _ _ _ _ Hf1) as (k' & objects & Hlook & Hk).
  apply BindingLayout_eq_true in Hk as ->.
  exists e1, e2, objects. repeat split; assumption.
Qed.

Lemma equal_layouts_share_objects_witness :
  (0 <> 1)%nat
  /\ exists (e1 e2 : DxvkGraphicsPipeline) (objects : DxvkBindingLayoutObjects),
       m_graphicsPipelines
         (snd (secondCall exampleLimit exampleBindings (vkDeviceInit []) [] exampleShaders1
                 [] exampleShaders2))
         !! 0%nat = Some (exampleShaders1, e1)
       /\ m_graphicsPipelines
            (snd (secondCall exampleLimit exampleBindings (vkDeviceInit []) [] exampleShaders1
                    [] exampleShaders2))
            !! 1%nat = Some (exampleShaders2, e2)
       /\ gp_layout e1 = gp_layout e2
       /\ m_pipelineLayouts
            (snd (secondCall exampleLimit exampleBindings (vkDeviceInit []) [] exampleShaders1
                    [] exampleShaders2))
            !! gp_layout e1
          = Some (PipelineManager.mergedLayout exampleBindings exampleShaders1, objects).
Proof.
  apply (equal_layouts_share_objects exampleLimit exampleBindings (vkDeviceInit []) [] []
           exampleShaders1 exampleShaders2 0 1); vm_compute; reflexivity.
Defined.

(** C7. Without a compute shader [createComputePipeline] returns the null
    pointer, and without a vertex shader so does [createGraphicsPipeline];
    the manager (device and all three caches) is the one the call
    started from. *)
Theorem create_without_mandatory_shader
    (MaxNumActiveBindings : Z) (getBindings : nat -> DxvkBindingLayout)
    (mgr : DxvkPipelineManager) (tcs' tes' gs' fs' : ShaderRef) :
  PipelineManager.createComputePipeline MaxNumActiveBindings getBindings
    (mkComputeShaders None) mgr
    = (Returned None, mgr)
  /\ PipelineManager.createGraphicsPipeline MaxNumActiveBindings getBindings
       (mkGraphicsShaders None tcs' tes' gs' fs') mgr
    = (Returned None, mgr).
Proof. split; reflexivity. Qed.

(** ** [DxvkBindingLayoutObjects]: the slot table *)

Section SlotTable.

Lemma u32_range (z : Z) : 0 <= u32 z < 2 ^ 32.
Proof. unfold u32. apply Z.mod_pos_bound. lia. Qed.

Lemma u32_succ (z n : Z) : u32 (u32 (z + 1) + n) = u32 (z + (1 + n)).
Proof.
  unfold u32. rewrite Zplus_mod_idemp_l. f_equal. lia.
Qed.

Lemma insertIfAbsent_lookup (k : Z) (v : DxvkBindingMapping)
    (m : gmap Z DxvkBindingMapping) (slot : Z) :
  BindingLayoutObjects.insertIfAbsent k v m !! slot =
    match m !! slot with
    | Some w => Some w
    | None => if k =? slot then Some v else None
    end.
Proof.
  unfold BindingLayoutObjects.insertIfAbsent.
  destruct (Z.eqb_spec k slot) as [->|Hne].
  - destruct (m !! slot) eqn:E; [rewrite E; reflexivity|].
    rewrite lookup_insert_eq. reflexivity.
  - destruct (m !! k) eqn:E.
    + destruct (m !! slot); reflexivity.
    + rewrite lookup_insert_ne by assumption.
      destruct (m !! slot); reflexivity.
Qed.

Lemma mapBindings_lookup (i : Z) (bs : list DxvkBindingInfo) (j cid : Z)
    (m : gmap Z DxvkBindingMapping) (slot : Z) :
  fst (BindingLayoutObjects.mapBindings i j bs m cid) !! slot =
    match m !! slot with
    | Some w => Some w
    | None => firstIn i j cid bs slot
    end.
Proof.
  revert j cid m. induction bs as [|b bs IH]; intros j cid m; simpl.
  - destruct (m !! slot); reflexivity.
  - rewrite IH, insertIfAbsent_lookup.
    destruct (m !! slot); [reflexivity|].
    destruct (resourceBinding b =? slot); reflexivity.
Qed.

Lemma mapBindings_cid_range (i : Z) (bs : list DxvkBindingInfo) (j cid : Z)
    (m : gmap Z DxvkBindingMapping) :
  0 <= cid < 2 ^ 32 ->
  0 <= snd (BindingLayoutObjects.mapBindings i j bs m cid) < 2 ^ 32.
Proof.
  revert j cid m. induction bs as [|b bs IH]; intros j cid m Hcid; simpl.
  - exact Hcid.
  - apply IH, u32_range.
Qed.

Lemma firstIn_Some (i : Z) (bs : list DxvkBindingInfo) (j cid slot : Z)
    (m : DxvkBindingMapping) :
  0 <= cid < 2 ^ 32 ->
  firstIn i j cid bs slot = Some m ->
  exists (n : nat) (b : DxvkBindingInfo),
    bs !! n = Some b /\ resourceBinding b = slot
    /\ (forall n' b', (n' < n)%nat -> bs !! n' = Some b' -> resourceBinding b' <> slot)
    /\ m = {| set := i; binding := j + Z.of_nat n; constId := u32 (cid + Z.of_nat n) |}.
Proof.
  revert j cid. induction bs as [|b bs IH]; intros j cid Hcid H; simpl in H.
  - discriminate H.
  - destruct (Z.eqb_spec (resourceBinding b) slot) as [Heq|Hne].
    + injection H as <-. exists 0%nat, b. split; [reflexivity|].
      split; [exact Heq|]. split; [intros n' b' Hlt; lia|].
      simpl. rewrite !Z.add_0_r. rewrite u32_small by exact Hcid. reflexivity.
    + destruct (IH _ _ (u32_range _) H) as (n & b0 & Hn & Hb0 & Hmin & ->).
      exists (S n), b0. split; [exact Hn|]. split; [exact Hb0|]. split.
      * intros [|n'] b' Hlt Hb'; simpl in Hb'.
        -- injection Hb' as <-. exact Hne.
        -- eapply Hmin; [|exact Hb']. lia.
      * rewrite u32_succ. f_equal; [lia|]. apply (f_equal u32). lia.
Qed.

Lemma firstIn_None (i : Z) (bs : list DxvkBindingInfo) (j cid slot : Z) :
  firstIn i j cid bs slot = None <->
  forall n b, bs !! n = Some b -> resourceBinding b <> slot.
Proof.
  revert j cid. induction bs as [|b bs IH]; intros j cid; simpl.
  - split; [|reflexivity]. intros _ n b' H. rewrite lookup_nil in H. discriminate H.
  - destruct (Z.eqb_spec (resourceBinding b) slot) as [Heq|Hne].
    + split; [discriminate|]. intros H. exfalso. apply (H 0%nat b); [reflexivity | exact Heq].
    + rewrite IH. split.
      * intros H [|n] b' Hb'; simpl in Hb'.
        -- injection Hb' as <-. exact Hne.
        -- eapply H, Hb'.
      * intros H n b' Hb'. apply (H (S n) b'). exact Hb'.
Qed.

End SlotTable.

Lemma eff_bind_returned {S A B} (c : Eff S A) (k : A -> Eff S B) (s s' : S) (b : B) :
  eff_bind c k s = (Returned b, s') ->
  exists a s1, c s = (Returned a, s1) /\ k a s1 = (Returned b, s').
Proof.
  unfold eff_bind. destruct (c s) as [[a|what|] s1]; intros H.
  - exists a, s1. split; [reflexivity | exact H].
  - discriminate H.
  - discriminate H.
Qed.

Lemma take_all_u32 {A} (l : list A) :
  Z.of_nat (length l) < 2 ^ 32 ->
  take (Z.to_nat (u32 (Z.of_nat (length l)))) l = l.
Proof.
  intros H. rewrite u32_small by lia. rewrite Nat2Z.id. apply firstn_all.
Qed.

(** What one successful iteration of the loop over the sets leaves in the
    object under construction. *)
Lemma constructSet_returned (MaxNumActiveBindings : Z)
    (o o' : DxvkBindingLayoutObjects) (cid cid' i : Z) (d d' : VkDevice) :
  Z.of_nat (length (sa_get (m_bindings (m_layout o)) i)) < 2 ^ 32 ->
  BindingLayoutObjects.constructSet MaxNumActiveBindings (o, cid) i d
    = (Returned (o', cid'), d') ->
  BindingLayout.getBindingCount (m_layout o) i <= MaxNumActiveBindings
  /\ m_layout o' = m_layout o
  /\ m_bindingOffsets o' = sa_set (m_bindingOffsets o) i cid
  /\ m_mapping o' =
       fst (BindingLayoutObjects.mapBindings i 0
              (sa_get (m_bindings (m_layout o)) i) (m_mapping o) cid)
  /\ cid' =
       snd (BindingLayoutObjects.mapBindings i 0
              (sa_get (m_bindings (m_layout o)) i) (m_mapping o) cid).
Proof.
  intros Hfit. unfold BindingLayoutObjects.constructSet.
  destruct (MaxNumActiveBindings <? _) eqn:Hcap; [discriminate|].
  apply Z.ltb_ge in Hcap. intros H. split; [exact Hcap|]. clear Hcap. revert H.
  unfold BindingLayout.getBindingCount.
  rewrite take_all_u32 by exact Hfit.
  destruct (BindingLayoutObjects.mapBindings i 0 _ (m_mapping o) cid) as [mapping c].
  intros H. apply eff_bind_returned in H as (sl & d1 & _ & H).
  destruct (_ =? 0).
  - injection H as <- <- <-. repeat split.
  - apply eff_bind_returned in H as (tp & d2 & _ & H).
    injection H as <- <- <-. repeat split.
Qed.

(** C10. When the constructor succeeds on a layout whose sets have sizes
    that fit [uint32_t] and hold no more bindings than the constructor's
    arrays of [MaxNumActiveBindings] elements: [lookupBinding slot] finds nothing exactly when
    no entry of any set has resource binding [slot]; and what it finds is
    the mapping of the first occurrence of [slot], the sets being taken in
    index order and the entries of a set in position order: the set and
    the position of that occurrence, and the set's first binding number
    plus the position as the running id.  Occurrences in later sets, or
    later in the same set, do not replace it. *)
Theorem lookupBinding_first_occurrence (MaxNumActiveBindings : Z)
    (layout : DxvkBindingLayout) (device device' : VkDevice)
    (objects : DxvkBindingLayoutObjects) (slot : Z) :
  setSizesFit layout ->
  withinCapacity MaxNumActiveBindings layout ->
  BindingLayoutObjects.new MaxNumActiveBindings layout device
    = (Returned objects, device') ->
  (BindingLayoutObjects.lookupBinding objects slot = None <->
     forall i j, ~ occursAt layout slot i j)
  /\ (forall m, BindingLayoutObjects.lookupBinding objects slot = Some m ->
        exists j : nat,
          binding m = Z.of_nat j
          /\ occursAt layout slot (set m) j
          /\ (forall i' j', occursAt layout slot i' j' ->
                set m < i' \/ (set m = i' /\ (j <= j')%nat))
          /\ constId m =
               u32 (BindingLayoutObjects.getFirstBinding objects (set m) + binding m)).
Proof.
  intros Hfit _ Hnew. unfold BindingLayoutObjects.new in Hnew.
  apply eff_bind_returned in Hnew as ([o3 c3] & d3 & Hloop & Hnew).
  apply eff_bind_returned in Hnew as (pl & d4 & _ & Hnew).
  injection Hnew as <- _. simpl fst in *.
  unfold set_indices in Hloop. cbn [eff_fold] in Hloop.
  apply eff_bind_returned in Hloop as ([o1 c1] & d1 & H1 & Hloop).
  apply eff_bind_returned in Hloop as ([o2 c2] & d2 & H2 & Hloop).
  apply eff_bind_returned in Hloop as ([o3' c3'] & d3' & H3 & Hloop).
  injection Hloop as -> -> ->.
  apply constructSet_returned in H1 as (_ & L1 & O1 & M1 & C1); [|apply Hfit].
  apply constructSet_returned in H2 as (_ & L2 & O2 & M2 & C2); [|rewrite L1; apply Hfit].
  apply constructSet_returned in H3 as (_ & L3 & O3 & M3 & C3); [|rewrite L2, L1; apply Hfit].
  rewrite L1 in *. rewrite L2 in *. simpl m_layout in *. simpl m_mapping in *.
  simpl m_bindingOffsets in *.
  assert (R1 : 0 <= c1 < 2 ^ 32)
    by (rewrite C1; apply mapBindings_cid_range; lia).
  assert (R2 : 0 <= c2 < 2 ^ 32)
    by (rewrite C2; apply mapBindings_cid_range; exact R1).
  unfold BindingLayoutObjects.lookupBinding, BindingLayoutObjects.getFirstBinding.
  simpl m_mapping. simpl m_bindingOffsets.
  rewrite M3, mapBindings_lookup, M2, mapBindings_lookup, M1, mapBindings_lookup.
  rewrite lookup_empty. rewrite O3, O2, O1.
  set (s0 := sa_get (m_bindings layout) 0) in *.
  set (s1 := sa_get (m_bindings layout) 1) in *.
  set (s2 := sa_get (m_bindings layout) 2) in *.
  assert (Hocc : forall i j, occursAt layout slot i j ->
            (i = 0 /\ exists b, s0 !! j = Some b /\ resourceBinding b = slot)
            \/ (i = 1 /\ exists b, s1 !! j = Some b /\ resourceBinding b = slot)
            \/ (i = 2 /\ exists b, s2 !! j = Some b /\ resourceBinding b = slot)).
  { intros i j [Hi Hb]. unfold set_indices in Hi.
    apply elem_of_cons in Hi as [->|Hi]; [left; split; [reflexivity | exact Hb]|].
    apply elem_of_cons in Hi as [->|Hi]; [right; left; split; [reflexivity | exact Hb]|].
    apply list_elem_of_singleton in Hi as ->. right; right; split; [reflexivity | exact Hb]. }
  destruct (firstIn 0 0 0 s0 slot) as [m0|] eqn:F0;
    [|destruct (firstIn 1 0 c1 s1 slot) as [m1|] eqn:F1;
      [|destruct (firstIn 2 0 c2 s2 slot) as [m2|] eqn:F2]].
  - apply firstIn_Some in F0 as (n & b & Hn & Hb & Hmin & ->); [|lia].
    split.
    { split; [discriminate|]. intros H. exfalso. apply (H 0 n).
      split; [apply set_indices_elem | exists b; auto]. }
    intros m Hm. injection Hm as <-. exists n. cbn [set binding constId].
    split; [lia|]. split; [split; [apply set_indices_elem | exists b; auto]|].
    split; [|reflexivity].
    intros i' j' Hocc'.
    destruct (Hocc _ _ Hocc') as [(-> & b' & Hj' & Hb') | [(-> & _) | (-> & _)]];
      [|left; lia|left; lia].
    right. split; [reflexivity|].
    destruct (Nat.le_gt_cases n j') as [Hle|Hgt]; [exact Hle|].
    exfalso. exact (Hmin j' b' Hgt Hj' Hb').
  - apply firstIn_Some in F1 as (n & b & Hn & Hb & Hmin & ->); [|exact R1].
    pose proof (proj1 (firstIn_None _ _ _ _ _) F0) as N0.
    split.
    { split; [discriminate|]. intros H. exfalso. apply (H 1 n).
      split; [apply set_indices_elem | exists b; auto]. }
    intros m Hm. injection Hm as <-. exists n. cbn [set binding constId].
    split; [lia|]. split; [split; [apply set_indices_elem | exists b; auto]|].
    split; [|reflexivity].
    intros i' j' Hocc'.
    destruct (Hocc _ _ Hocc') as [(-> & b' & Hj' & Hb') | [(-> & b' & Hj' & Hb') | (-> & _)]];
      [exfalso; exact (N0 _ _ Hj' Hb') | | left; lia].
    right. split; [reflexivity|].
    destruct (Nat.le_gt_cases n j') as [Hle|Hgt]; [exact Hle|].
    exfalso. exact (Hmin j' b' Hgt Hj' Hb').
  - apply firstIn_Some in F2 as (n & b & Hn & Hb & Hmin & ->); [|exact R2].
    pose proof (proj1 (firstIn_None _ _ _ _ _) F0) as N0.
    pose proof (proj1 (firstIn_None _ _ _ _ _) F1) as N1.
    split.
    { split; [discriminate|]. intros H. exfalso. apply (H 2 n).
      split; [apply set_indices_elem | exists b; auto]. }
    intros m Hm. injection Hm as <-. exists n. cbn [set binding constId].
    split; [lia|]. split; [split; [apply set_indices_elem | exists b; auto]|].
    split; [|reflexivity].
    intros i' j' Hocc'.
    destruct (Hocc _ _ Hocc') as [(-> & b' & Hj' & Hb') | [(-> & b' & Hj' & Hb') | (-> & b' & Hj' & Hb')]];
      [exfalso; exact (N0 _ _ Hj' Hb') | exfalso; exact (N1 _ _ Hj' Hb') |].
    right. split; [reflexivity|].
    destruct (Nat.le_gt_cases n j') as [Hle|Hgt]; [exact Hle|].
    exfalso. exact (Hmin j' b' Hgt Hj' Hb').
  - pose proof (proj1 (firstIn_None _ _ _ _ _) F0) as N0.
    pose proof (proj1 (firstIn_None _ _ _ _ _) F1) as N1.
    pose proof (proj1 (firstIn_None _ _ _ _ _) F2) as N2.
    split; [|discriminate].
    split; [|reflexivity]. intros _ i j Hocc'.
    destruct (Hocc _ _ Hocc') as [(-> & b' & Hj' & Hb') | [(-> & b' & Hj' & Hb') | (-> & b' & Hj' & Hb')]].
    + exact (N0 _ _ Hj' Hb').
    + exact (N1 _ _ Hj' Hb').
    + exact (N2 _ _ Hj' Hb').
Qed.

(** ** Native objects and failed constructions *)

Section NativeObjects.

Lemma vkCreate_cases (kind : VkObjectKind) (d : VkDevice) :
  (exists d', vkCreate kind d = (None, d')
      /\ vk_live d' = vk_live d /\ vk_fresh d' = vk_fresh d)
  \/ (exists d', vkCreate kind d = (Some (vk_fresh d), d')
      /\ vk_live d' = vk_live d ++ [(kind, vk_fresh d)]
      /\ vk_fresh d' = vk_fresh d + 1).
Proof.
  unfold vkCreate. destruct (vk_results d) as [|[|] rest].
  - right. eexists. repeat split.
  - right. eexists. repeat split.
  - left. eexists. repeat split.
Qed.

Lemma filter_absent (live : list (VkObjectKind * Z)) (o : VkObjectKind * Z) :
  o ∉ live -> filter (fun x => x ≠ o) live = live.
Proof.
  induction live as [|x live IH]; intros Hnot; [reflexivity|].
  apply not_elem_of_cons in Hnot as [Hne Hnot].
  rewrite filter_cons, decide_True by congruence.
  rewrite IH by exact Hnot. reflexivity.
Qed.

Lemma filter_last (live : list (VkObjectKind * Z)) (o : VkObjectKind * Z) :
  o ∉ live -> filter (fun x => x ≠ o) (live ++ [o]) = live.
Proof.
  intros Hnot. rewrite filter_app, filter_absent by exact Hnot.
  rewrite filter_cons, decide_False by tauto.
  rewrite filter_nil. apply app_nil_r.
Qed.

Lemma fresh_absent (d : VkDevice) (k : VkObjectKind) :
  deviceOk d -> (k, vk_fresh d) ∉ vk_live d.
Proof. intros Hok Hin. apply Hok in Hin. lia. Qed.

Lemma null_absent (d : VkDevice) (k : VkObjectKind) :
  deviceOk d -> (k, VK_NULL_HANDLE) ∉ vk_live d.
Proof. intros Hok Hin. apply Hok in Hin. unfold VK_NULL_HANDLE in Hin. lia. Qed.

(** The single-set constructor gives back what it created: whenever it
    throws, the device holds exactly the objects it held before. *)
Lemma PipelineLayout_new_releases (MaxNumActiveBindings : Z)
    (slotMapping : DxvkDescriptorSlotMapping) (pipelineBindPoint : Z)
    (d d' : VkDevice) (what : string) :
  deviceOk d ->
  PipelineLayout.new MaxNumActiveBindings slotMapping pipelineBindPoint d
    = (Thrown what, d') ->
  vk_live d' = vk_live d.
Proof.
  intros Hok. unfold PipelineLayout.new.
  destruct (MaxNumActiveBindings <? _); [intros H; injection H as _ <-; reflexivity|].
  unfold eff_bind, createOrThrow, eff_ret.
  destruct (0 <? DescriptorSlotMapping.bindingCount slotMapping).
  - destruct (vkCreate_cases DescriptorSetLayoutObj d)
      as [(d1 & -> & L1 & F1) | (d1 & -> & L1 & F1)].
    { intros H. injection H as _ <-. exact L1. }
    destruct (vkCreate_cases PipelineLayoutObj d1)
      as [(d2 & -> & L2 & F2) | (d2 & -> & L2 & F2)].
    { intros H. injection H as _ <-. simpl. rewrite L2, L1.
      apply filter_last, fresh_absent, Hok. }
    destruct (vkCreate_cases DescriptorUpdateTemplateObj d2)
      as [(d3 & -> & L3 & F3) | (d3 & -> & L3 & F3)]; [|discriminate].
    intros H. injection H as _ <-. simpl. rewrite L3, L2, L1, F1.
    assert (Hdsl : (DescriptorSetLayoutObj, vk_fresh d) ∉ vk_live d)
      by apply fresh_absent, Hok.
    assert (Hpl : (PipelineLayoutObj, vk_fresh d + 1) ∉ vk_live d).
    { intros Hin. apply Hok in Hin. lia. }
    rewrite (filter_app _ (vk_live d ++ [(DescriptorSetLayoutObj, vk_fresh d)])).
    rewrite (filter_last _ _ Hdsl).
    rewrite filter_cons, decide_True by congruence.
    rewrite filter_nil. apply filter_last, Hpl.
  - destruct (vkCreate_cases PipelineLayoutObj d)
      as [(d2 & -> & L2 & F2) | (d2 & -> & L2 & F2)]; [|discriminate].
    intros H. injection H as _ <-. simpl. rewrite L2.
    apply filter_absent, null_absent, Hok.
Qed.

(** In particular, on a device that holds nothing, a failed construction
    leaves nothing behind. *)
Lemma PipelineLayout_new_releases_init (MaxNumActiveBindings : Z)
    (slotMapping : DxvkDescriptorSlotMapping) (pipelineBindPoint : Z)
    (results : list bool) (d' : VkDevice) (what : string) :
  PipelineLayout.new MaxNumActiveBindings slotMapping pipelineBindPoint
    (vkDeviceInit results) = (Thrown what, d') ->
  vk_live d' = [].
Proof.
  intros H. apply PipelineLayout_new_releases in H; [exact H|].
  intros k h Hin. simpl in Hin. apply elem_of_nil in Hin. contradiction.
Qed.

End NativeObjects.

(** The size of the constructor's arrays does not matter as long as the
    sets fit into them. *)
Lemma constructSet_layout (MaxNumActiveBindings : Z)
    (o o' : DxvkBindingLayoutObjects) (cid cid' i : Z) (d d' : VkDevice) :
  BindingLayoutObjects.constructSet MaxNumActiveBindings (o, cid) i d
    = (Returned (o', cid'), d') ->
  m_layout o' = m_layout o.
Proof.
  unfold BindingLayoutObjects.constructSet.
  destruct (MaxNumActiveBindings <? _); [discriminate|].
  destruct (BindingLayoutObjects.mapBindings i 0 _ (m_mapping o) cid) as [mapping c].
  intros H. apply eff_bind_returned in H as (sl & d1 & _ & H).
  destruct (_ =? 0).
  - injection H as <- _ _. reflexivity.
  - apply eff_bind_returned in H as (tp & d2 & _ & H).
    injection H as <- _ _. reflexivity.
Qed.

Lemma constructSet_capacity (M M' : Z) (o : DxvkBindingLayoutObjects) (cid i : Z) :
  BindingLayout.getBindingCount (m_layout o) i <= M ->
  BindingLayout.getBindingCount (m_layout o) i <= M' ->
  BindingLayoutObjects.constructSet M (o, cid) i
  = BindingLayoutObjects.constructSet M' (o, cid) i.
Proof.
  intros H H'. unfold BindingLayoutObjects.constructSet.
  rewrite (proj2 (Z.ltb_ge _ _) H), (proj2 (Z.ltb_ge _ _) H'). reflexivity.
Qed.

Lemma eff_bind_ext {S A B} (c c' : Eff S A) (k k' : A -> Eff S B) (s : S) :
  c s = c' s ->
  (forall a s1, c' s = (Returned a, s1) -> k a s1 = k' a s1) ->
  eff_bind c k s = eff_bind c' k' s.
Proof.
  intros Hc Hk. unfold eff_bind. rewrite Hc.
  destruct (c' s) as [[a|what|] s1]; [apply Hk; reflexivity | reflexivity..].
Qed.

Lemma new_capacity (M M' : Z) (layout : DxvkBindingLayout) (d : VkDevice) :
  withinCapacity M layout -> withinCapacity M' layout ->
  BindingLayoutObjects.new M layout d = BindingLayoutObjects.new M' layout d.
Proof.
  intros W W'.
  destruct set_indices_elem as (I0 & I1 & I2).
  unfold BindingLayoutObjects.new. apply eff_bind_ext; [|reflexivity].
  unfold set_indices. cbn [eff_fold].
  apply eff_bind_ext.
  { rewrite (constructSet_capacity M M'); [reflexivity | apply W, I0 | apply W', I0]. }
  intros [o1 c1] d1 H1. apply constructSet_layout in H1.
  cbn [BindingLayoutObjects.init m_layout] in H1.
  apply eff_bind_ext.
  { rewrite (constructSet_capacity M M');
      [reflexivity | rewrite H1; apply W, I1 | rewrite H1; apply W', I1]. }
  intros [o2 c2] d2 H2. apply constructSet_layout in H2. rewrite H1 in H2.
  apply eff_bind_ext; [|reflexivity].
  rewrite (constructSet_capacity M M');
    [reflexivity | rewrite H2; apply W, I2 | rewrite H2; apply W', I2].
Qed.

Lemma exampleLayout_capacity (M : Z) : 2 <= M -> withinCapacity M exampleLayout.
Proof.
  intros H s Hs. unfold set_indices in Hs.
  repeat (apply elem_of_cons in Hs as [->|Hs]);
    [| | |apply elem_of_nil in Hs; contradiction].
  - change (BindingLayout.getBindingCount exampleLayout 0) with 1. lia.
  - change (BindingLayout.getBindingCount exampleLayout 1) with 1. lia.
  - change (BindingLayout.getBindingCount exampleLayout 2) with 2. lia.
Qed.

Lemma emptyLayout_capacity (M : Z) : 0 <= M -> withinCapacity M BindingLayout.new.
Proof.
  intros H s Hs. unfold set_indices in Hs.
  repeat (apply elem_of_cons in Hs as [->|Hs]);
    [| | |apply elem_of_nil in Hs; contradiction];
    (change (BindingLayout.getBindingCount BindingLayout.new _) with 0; lia).
Qed.

(** C1, on the code.  The constructor of [DxvkBindingLayoutObjects] throws
    with native objects of its own still alive, whatever size of at least
    two elements its arrays have.  On the example layout,
    with a driver that refuses the update template of set 1: the set
    layout and the template of set 0 and the set layout of set 1 stay
    behind.  On an empty layout, with a driver that refuses the set layout
    of set 1: the set layout of set 0 stays behind; with a driver that
    refuses the pipeline layout only: the three set layouts do. *)
Theorem BindingLayoutObjects_new_leaks (MaxNumActiveBindings : Z) :
  2 <= MaxNumActiveBindings ->
  BindingLayoutObjects.new MaxNumActiveBindings exampleLayout
    (vkDeviceInit [true; true; true; false])
    = (Thrown "DxvkBindingLayoutObjects: Failed to create descriptor update template",
       {| vk_results := []; vk_fresh := 4;
          vk_live := [(DescriptorSetLayoutObj, 1); (DescriptorUpdateTemplateObj, 2);
                      (DescriptorSetLayoutObj, 3)] |})
  /\ leaked (vkDeviceInit [true; true; true; false])
       (snd (BindingLayoutObjects.new MaxNumActiveBindings exampleLayout
               (vkDeviceInit [true; true; true; false])))
     = [(DescriptorSetLayoutObj, 1); (DescriptorUpdateTemplateObj, 2);
        (DescriptorSetLayoutObj, 3)]
  /\ BindingLayoutObjects.new MaxNumActiveBindings BindingLayout.new
       (vkDeviceInit [true; false])
     = (Thrown "DxvkBindingLayoutObjects: Failed to create descriptor set layout",
        {| vk_results := []; vk_fresh := 2;
           vk_live := [(DescriptorSetLayoutObj, 1)] |})
  /\ BindingLayoutObjects.new MaxNumActiveBindings BindingLayout.new
       (vkDeviceInit [true; true; true; false])
     = (Thrown "DxvkBindingLayoutObjects: Failed to create pipeline layout",
        {| vk_results := []; vk_fresh := 4;
           vk_live := [(DescriptorSetLayoutObj, 1); (DescriptorSetLayoutObj, 2);
                       (DescriptorSetLayoutObj, 3)] |}).
Proof.
  intros H.
  rewrite !(new_capacity MaxNumActiveBindings 2 exampleLayout)
    by (apply exampleLayout_capacity; lia).
  rewrite !(new_capacity MaxNumActiveBindings 2 BindingLayout.new)
    by (apply emptyLayout_capacity; lia).
  repeat split; vm_compute; reflexivity.
Qed.

Lemma BindingLayoutObjects_new_leaks_witness :
  2 <= exampleLimit
  /\ leaked (vkDeviceInit [true; true; true; false])
       (snd (BindingLayoutObjects.new exampleLimit exampleLayout
               (vkDeviceInit [true; true; true; false])))
     = [(DescriptorSetLayoutObj, 1); (DescriptorUpdateTemplateObj, 2);
        (DescriptorSetLayoutObj, 3)].
Proof.
  assert (H : 2 <= exampleLimit) by (unfold exampleLimit; lia).
  split; [exact H|].
  exact (proj1 (proj2 (BindingLayoutObjects_new_leaks exampleLimit H))).
Defined.

(** ** Repeated requests, one after the other

    The manager serialises its callers with one mutex; the property below
    is the sequential content of that design: a request that is served
    again after it returned a pipeline finds the node it created and
    leaves the manager as it is. *)

Lemma ComputeShaders_eq_refl (s : DxvkComputePipelineShaders) :
  ComputeShaders_eq s s = true.
Proof. unfold ComputeShaders_eq, ShaderRef_eq. apply bool_decide_eq_true. reflexivity. Qed.

Lemma createComputePipeline_again (MaxNumActiveBindings : Z)
    (getBindings : nat -> DxvkBindingLayout)
    (shaders : DxvkComputePipelineShaders) (mgr : DxvkPipelineManager) (p : nat) :
  fst (PipelineManager.createComputePipeline MaxNumActiveBindings getBindings shaders mgr)
    = Returned (Some p) ->
  PipelineManager.createComputePipeline MaxNumActiveBindings getBindings shaders
    (snd (PipelineManager.createComputePipeline MaxNumActiveBindings getBindings shaders mgr))
  = (Returned (Some p),
     snd (PipelineManager.createComputePipeline MaxNumActiveBindings getBindings shaders mgr)).
Proof.
  unfold PipelineManager.createComputePipeline at 1 3 4.
  destruct (cs shaders) as [a|] eqn:Hcs; [|discriminate].
  destruct (map_find ComputeShaders_eq shaders (m_computePipelines mgr)) as [i|] eqn:Hfind.
  - simpl. intros H. injection H as <-.
    unfold PipelineManager.createComputePipeline. rewrite Hcs, Hfind. reflexivity.
  - unfold eff_bind.
    pose proof (createPipelineLayout_effect MaxNumActiveBindings (getBindings a) mgr)
      as (_ & Hc & _).
    destruct (PipelineManager.createPipelineLayout MaxNumActiveBindings (getBindings a) mgr)
      as [[i|what|] mgr']; simpl in *; [|discriminate..].
    intros H. injection H as <-.
    unfold PipelineManager.createComputePipeline. rewrite Hcs. simpl.
    rewrite Hc.
    rewrite (map_find_emplace ComputeShaders_eq shaders _ _ Hfind
               (ComputeShaders_eq_refl shaders)).
    reflexivity.
Qed.

Lemma lookupBinding_first_occurrence_witness :
  setSizesFit exampleLayout
  /\ withinCapacity exampleLimit exampleLayout
  /\ exists (objects : DxvkBindingLayoutObjects) (device' : VkDevice),
       BindingLayoutObjects.new exampleLimit exampleLayout (vkDeviceInit [])
         = (Returned objects, device')
       /\ BindingLayoutObjects.lookupBinding objects 5
          = Some {| set := 0; binding := 0; constId := 0 |}
       /\ BindingLayoutObjects.lookupBinding objects 6
          = Some {| set := 2; binding := 0; constId := 2 |}
       /\ (BindingLayoutObjects.lookupBinding objects 9 = None <->
             forall i j, ~ occursAt exampleLayout 9 i j).
Proof.
  assert (Hfit : setSizesFit exampleLayout).
  { intros s. unfold sa_get. destruct (s =? 0); [reflexivity|].
    destruct (s =? 1); reflexivity. }
  assert (Hcap : withinCapacity exampleLimit exampleLayout)
    by (apply exampleLayout_capacity; unfold exampleLimit; lia).
  split; [exact Hfit|]. split; [exact Hcap|].
  destruct (BindingLayoutObjects.new exampleLimit exampleLayout (vkDeviceInit []))
    as [[objects|what|] device'] eqn:Hnew.
  - exists objects, device'. split; [reflexivity|].
    pose proof Hnew as Hval. vm_compute in Hval. injection Hval as Hobj _.
    split; [rewrite <- Hobj; reflexivity|].
    split; [rewrite <- Hobj; reflexivity|].
    exact (proj1 (lookupBinding_first_occurrence exampleLimit exampleLayout
                    (vkDeviceInit []) device' objects 9 Hfit Hcap Hnew)).
  - exfalso. vm_compute in Hnew. discriminate Hnew.
  - exfalso. vm_compute in Hnew. discriminate Hnew.
Defined.

(** * Further properties of the code *)

(** ** [DxvkBindingLayout]: equality, placement, merging *)

(** X1. [DxvkBindingLayout::eq] answers [true] exactly for two layouts
    that hold the same entries, in the same order, in each of the three
    sets and the same push-constant range. *)
Theorem BindingLayout_eq_structural (a b : DxvkBindingLayout) :
  BindingLayout.eq a b = true <->
    sa_get (m_bindings a) 0 = sa_get (m_bindings b) 0
    /\ sa_get (m_bindings a) 1 = sa_get (m_bindings b) 1
    /\ sa_get (m_bindings a) 2 = sa_get (m_bindings b) 2
    /\ stageFlags (m_pushConst a) = stageFlags (m_pushConst b)
    /\ offset (m_pushConst a) = offset (m_pushConst b)
    /\ size (m_pushConst a) = size (m_pushConst b).
Proof.
  rewrite BindingLayout_eq_true. split.
  - intros ->. repeat split.
  - destruct a as [[a0 a1 a2] [af ao az]], b as [[b0 b1 b2] [bf bo bz]].
    unfold sa_get. simpl. intros (-> & -> & -> & -> & -> & ->). reflexivity.
Qed.

Lemma sa_get_set_other {T} (a : SetArray T) (i j : Z) (x : T) :
  i ∈ set_indices -> j ∈ set_indices -> i <> j ->
  sa_get (sa_set a i x) j = sa_get a j.
Proof.
  unfold set_indices. intros Hi Hj Hne.
  repeat (apply elem_of_cons in Hi as [->|Hi]); [| | |apply elem_of_nil in Hi; contradiction];
  repeat (apply elem_of_cons in Hj as [->|Hj]);
    try (apply elem_of_nil in Hj; contradiction);
    try contradiction; reflexivity.
Qed.

Lemma merge_computeSetIndex (e b : DxvkBindingInfo) :
  BindingInfo.canMerge e b = true ->
  BindingInfo.computeSetIndex e = BindingInfo.computeSetIndex b ->
  BindingInfo.computeSetIndex (BindingInfo.merge e b) = BindingInfo.computeSetIndex b.
Proof.
  intros Hcan. destruct (proj1 (canMerge_iff e b) Hcan) as (Hbit & Hty & _ & _).
  unfold BindingInfo.computeSetIndex.
  rewrite !has_compute_bit, !has_fragment_bit.
  change (stages (BindingInfo.merge e b)) with (Z.lor (stages e) (stages b)).
  change (descriptorType (BindingInfo.merge e b)) with (descriptorType e).
  rewrite !Z.lor_spec, Hbit, Hty.
  destruct (Z.testbit (stages e) 5), (Z.testbit (stages b) 5),
           (Z.testbit (stages b) 4),
           ((descriptorType b =? VK_DESCRIPTOR_TYPE_UNIFORM_BUFFER)
            || (descriptorType b =? VK_DESCRIPTOR_TYPE_STORAGE_BUFFER));
    simpl; intros H; try reflexivity; try exact H; try (symmetry; exact H);
    discriminate H.
Qed.

Lemma addToSet_placed (s : Z) (bs : list DxvkBindingInfo) (b : DxvkBindingInfo) :
  BindingInfo.computeSetIndex b = s ->
  Forall (fun x => BindingInfo.computeSetIndex x = s) bs ->
  Forall (fun x => BindingInfo.computeSetIndex x = s) (BindingLayout.addToSet bs b).
Proof.
  intros Hb. induction bs as [|x rest IH]; intros Hall; simpl.
  - constructor; [exact Hb | constructor].
  - apply Forall_cons in Hall as [Hx Hrest].
    destruct (BindingInfo.canMerge x b) eqn:E.
    + constructor; [|exact Hrest].
      rewrite merge_computeSetIndex; [exact Hb | exact E | congruence].
    + constructor; [exact Hx | apply IH, Hrest].
Qed.

Lemma addBinding_placed (l : DxvkBindingLayout) (b : DxvkBindingInfo) :
  layoutPlaced l -> layoutPlaced (BindingLayout.addBinding l b).
Proof.
  intros Hl s Hs. unfold BindingLayout.addBinding. simpl.
  destruct (decide (BindingInfo.computeSetIndex b = s)) as [Heq|Hne].
  - rewrite Heq, sa_get_set_same. apply addToSet_placed; [exact Heq | apply Hl, Hs].
  - rewrite sa_get_set_other; [apply Hl, Hs | apply computeSetIndex_range | exact Hs | exact Hne].
Qed.

Lemma addBindings_placed (bs : list DxvkBindingInfo) (l : DxvkBindingLayout) :
  layoutPlaced l -> layoutPlaced (fold_left BindingLayout.addBinding bs l).
Proof.
  revert l. induction bs as [|b bs IH]; intros l Hl; simpl; [exact Hl|].
  apply IH, addBinding_placed, Hl.
Qed.

Lemma applyOp_placed (l : DxvkBindingLayout) (op : layoutOp) :
  layoutPlaced l -> layoutPlaced (applyOp l op).
Proof.
  intros Hl. destruct op as [b|r|other]; simpl.
  - apply addBinding_placed, Hl.
  - exact Hl.
  - intros s Hs. unfold BindingLayout.merge, BindingLayout.addPushConstantRange. simpl.
    apply addBindings_placed; assumption.
Qed.

Lemma new_placed : layoutPlaced BindingLayout.new.
Proof.
  intros s _. unfold BindingLayout.new, sa_get, sa_fill. simpl.
  repeat case_match; constructor.
Qed.

Lemma applyOps_placed (ops : list layoutOp) (l : DxvkBindingLayout) :
  layoutPlaced l -> layoutPlaced (fold_left applyOp ops l).
Proof.
  revert l. induction ops as [|op ops IH]; intros l Hl; simpl; [exact Hl|].
  apply IH, applyOp_placed, Hl.
Qed.

(** X2. In a layout built from a fresh one by [addBinding],
    [addPushConstantRange] and [merge], every entry is stored in the set
    that [computeSetIndex] computes for it, also after other bindings
    were merged into it. *)
Theorem buildLayout_placed (ops : list layoutOp) :
  layoutPlaced (buildLayout ops).
Proof. apply applyOps_placed, new_placed. Qed.

Lemma lor_absorb (x c b : Z) : Z.lor x b = x -> Z.lor (Z.lor x c) b = Z.lor x c.
Proof.
  intros H. rewrite <- Z.lor_assoc, (Z.lor_comm c b), Z.lor_assoc, H. reflexivity.
Qed.

Lemma addToSet_absorbs (bs : list DxvkBindingInfo) (b : DxvkBindingInfo) :
  absorbedIn b (BindingLayout.addToSet bs b).
Proof.
  induction bs as [|x rest IH]; simpl.
  - exists b. split; [left|]. split; [reflexivity|].
    split; apply Z.lor_diag.
  - destruct (BindingInfo.canMerge x b) eqn:E.
    + exists (BindingInfo.merge x b). split; [left|]. split.
      * rewrite merge_key by exact E. apply canMerge_key, E.
      * change (stages (BindingInfo.merge x b)) with (Z.lor (stages x) (stages b)).
        change (access (BindingInfo.merge x b)) with (Z.lor (access x) (access b)).
        split; rewrite <- Z.lor_assoc, Z.lor_diag; reflexivity.
    + destruct IH as (e & Hin & Hrest). exists e. split; [right; exact Hin | exact Hrest].
Qed.

Lemma addToSet_keeps (bs : list DxvkBindingInfo) (b c : DxvkBindingInfo) :
  absorbedIn b bs -> absorbedIn b (BindingLayout.addToSet bs c).
Proof.
  induction bs as [|x rest IH]; intros (e & Hin & Hkey & Hst & Hac).
  - apply elem_of_nil in Hin. contradiction.
  - simpl. destruct (BindingInfo.canMerge x c) eqn:E.
    + apply elem_of_cons in Hin as [->|Hin].
      * exists (BindingInfo.merge x c). split; [left|]. split.
        -- rewrite merge_key by exact E. exact Hkey.
        -- change (stages (BindingInfo.merge x c)) with (Z.lor (stages x) (stages c)).
           change (access (BindingInfo.merge x c)) with (Z.lor (access x) (access c)).
           split; apply lor_absorb; assumption.
      * exists e. split; [right; exact Hin|]. repeat split; assumption.
    + apply elem_of_cons in Hin as [->|Hin].
      * exists x. split; [left|]. repeat split; assumption.
      * destruct IH as (e' & Hin' & Hrest'); [exists e; repeat split; assumption|].
        exists e'. split; [right; exact Hin' | exact Hrest'].
Qed.

Lemma addBinding_represents (l : DxvkBindingLayout) (b : DxvkBindingInfo) :
  represented b (BindingLayout.addBinding l b).
Proof.
  unfold represented, BindingLayout.addBinding. simpl.
  rewrite sa_get_set_same. apply addToSet_absorbs.
Qed.

Lemma addBinding_keeps (l : DxvkBindingLayout) (b c : DxvkBindingInfo) :
  represented b l -> represented b (BindingLayout.addBinding l c).
Proof.
  unfold represented, BindingLayout.addBinding. simpl. intros H.
  destruct (decide (BindingInfo.computeSetIndex c = BindingInfo.computeSetIndex b))
    as [Heq|Hne].
  - rewrite Heq, sa_get_set_same. apply addToSet_keeps, H.
  - rewrite sa_get_set_other;
      [exact H | apply computeSetIndex_range | apply computeSetIndex_range | exact Hne].
Qed.

Lemma addBindings_keep (bs : list DxvkBindingInfo) (l : DxvkBindingLayout)
    (b : DxvkBindingInfo) :
  represented b l -> represented b (fold_left BindingLayout.addBinding bs l).
Proof.
  revert l. induction bs as [|c bs IH]; intros l H; simpl; [exact H|].
  apply IH, addBinding_keeps, H.
Qed.

Lemma applyOp_keeps (l : DxvkBindingLayout) (op : layoutOp) (b : DxvkBindingInfo) :
  represented b l -> represented b (applyOp l op).
Proof.
  intros H. destruct op as [c|r|other]; simpl.
  - apply addBinding_keeps, H.
  - exact H.
  - unfold BindingLayout.merge, BindingLayout.addPushConstantRange, represented. simpl.
    apply (addBindings_keep _ _ _ H).
Qed.

(** X3. A binding that was added stays represented whatever is done to
    the layout afterwards: the set [computeSetIndex] names for it holds an
    entry of its merge class whose stage and access masks contain the
    masks of the binding.  No operation removes or narrows an entry. *)
Theorem addBinding_stays_represented
    (l : DxvkBindingLayout) (b : DxvkBindingInfo) (ops : list layoutOp) :
  exists e : DxvkBindingInfo,
    e ∈ sa_get (m_bindings (fold_left applyOp ops (BindingLayout.addBinding l b)))
               (BindingInfo.computeSetIndex b)
    /\ sameMergeClass e b
    /\ Z.lor (stages e) (stages b) = stages e
    /\ Z.lor (access e) (access b) = access e.
Proof.
  assert (H : represented b (fold_left applyOp ops (BindingLayout.addBinding l b))).
  { generalize (addBinding_represents l b).
    generalize (BindingLayout.addBinding l b).
    induction ops as [|op ops IH]; intros l' Hl'; simpl; [exact Hl'|].
    apply IH, applyOp_keeps, Hl'. }
  destruct H as (e & Hin & Hkey & Hst & Hac).
  exists e. split; [exact Hin|]. split; [|split; assumption].
  apply canMerge_key in Hkey. apply canMerge_iff in Hkey as (H1 & H2 & H3 & H4).
  repeat split; assumption.
Qed.

Lemma merge_eq_self (x b : DxvkBindingInfo) :
  Z.lor (stages x) (stages b) = stages x ->
  Z.lor (access x) (access b) = access x ->
  BindingInfo.merge x b = x.
Proof.
  intros Hs Ha. unfold BindingInfo.merge. rewrite Hs, Ha. destruct x; reflexivity.
Qed.

Lemma addToSet_id (bs : list DxvkBindingInfo) (b : DxvkBindingInfo) :
  NoDup (mergeKey <$> bs) -> absorbedIn b bs -> BindingLayout.addToSet bs b = bs.
Proof.
  induction bs as [|x rest IH]; intros Hnd (e & Hin & Hkey & Hst & Hac).
  - apply elem_of_nil in Hin. contradiction.
  - simpl. rewrite fmap_cons in Hnd. apply NoDup_cons in Hnd as [Hx Hrest].
    destruct (BindingInfo.canMerge x b) eqn:E.
    + apply elem_of_cons in Hin as [->|Hin].
      * rewrite merge_eq_self by assumption. reflexivity.
      * exfalso. apply Hx. apply canMerge_key in E. rewrite E, <- Hkey.
        apply list_elem_of_fmap_2. exact Hin.
    + apply elem_of_cons in Hin as [->|Hin].
      * apply canMerge_key in Hkey. congruence.
      * f_equal. apply IH; [exact Hrest|]. exists e. repeat split; assumption.
Qed.

Lemma sa_set_get {T} (a : SetArray T) (i : Z) : sa_set a i (sa_get a i) = a.
Proof.
  unfold sa_set, sa_get. destruct a as [a0 a1 a2]. simpl.
  destruct (i =? 0); [reflexivity|]. destruct (i =? 1); reflexivity.
Qed.

Lemma addBinding_id (l : DxvkBindingLayout) (b : DxvkBindingInfo) :
  keysDistinct l -> represented b l -> BindingLayout.addBinding l b = l.
Proof.
  intros Hk Hr. unfold BindingLayout.addBinding.
  rewrite addToSet_id; [|apply Hk | exact Hr].
  rewrite sa_set_get. destruct l; reflexivity.
Qed.

Lemma addBindings_id (bs : list DxvkBindingInfo) (l : DxvkBindingLayout) :
  keysDistinct l -> (forall b, b ∈ bs -> represented b l) ->
  fold_left BindingLayout.addBinding bs l = l.
Proof.
  intros Hk. induction bs as [|b bs IH]; intros Hall; simpl; [reflexivity|].
  rewrite addBinding_id; [|exact Hk | apply Hall; left].
  apply IH. intros c Hc. apply Hall. right. exact Hc.
Qed.

Lemma addBindings_represent (bs : list DxvkBindingInfo) (l : DxvkBindingLayout) :
  forall b, b ∈ bs -> represented b (fold_left BindingLayout.addBinding bs l).
Proof.
  revert l. induction bs as [|c bs IH]; intros l b Hb.
  - apply elem_of_nil in Hb. contradiction.
  - simpl. apply elem_of_cons in Hb as [->|Hb].
    + apply addBindings_keep, addBinding_represents.
    + apply IH, Hb.
Qed.

Lemma addBindings_pushConst (bs : list DxvkBindingInfo) (l : DxvkBindingLayout) :
  m_pushConst (fold_left BindingLayout.addBinding bs l) = m_pushConst l.
Proof.
  revert l. induction bs as [|b bs IH]; intros l; simpl; [reflexivity|].
  rewrite IH. reflexivity.
Qed.

Lemma addBindings_addPushConstantRange (bs : list DxvkBindingInfo)
    (l : DxvkBindingLayout) (r : VkPushConstantRange) :
  fold_left BindingLayout.addBinding bs (BindingLayout.addPushConstantRange l r)
  = BindingLayout.addPushConstantRange (fold_left BindingLayout.addBinding bs l) r.
Proof.
  revert l. induction bs as [|b bs IH]; intros l; simpl; [reflexivity|].
  rewrite <- IH. reflexivity.
Qed.

Lemma u32_idem (z : Z) : u32 (u32 z) = u32 z.
Proof. unfold u32. apply Z.mod_mod. lia. Qed.

Lemma addPushConstantRange_twice (l : DxvkBindingLayout) (r : VkPushConstantRange) :
  BindingLayout.addPushConstantRange (BindingLayout.addPushConstantRange l r) r
  = BindingLayout.addPushConstantRange l r.
Proof.
  unfold BindingLayout.addPushConstantRange. simpl. f_equal. f_equal.
  - rewrite <- Z.lor_assoc, Z.lor_diag. reflexivity.
  - lia.
  - set (o := Z.min (offset (m_pushConst l)) (offset r)).
    set (E := Z.max (u32 (offset (m_pushConst l) + size (m_pushConst l)))
                    (u32 (offset r + size r))).
    assert (HE : 0 <= E < 2 ^ 32).
    { pose proof (u32_range (offset (m_pushConst l) + size (m_pushConst l))).
      pose proof (u32_range (offset r + size r)). unfold E. lia. }
    assert (Hold : u32 (o + u32 (E - o)) = E).
    { unfold u32. rewrite Zplus_mod_idemp_r.
      replace (o + (E - o)) with E by lia. apply Z.mod_small. exact HE. }
    rewrite Hold.
    replace (Z.min o (offset r)) with o by (unfold o; lia).
    replace (Z.max E (u32 (offset r + size r))) with E by (unfold E; lia).
    reflexivity.
Qed.

(** X4. Merging the same layout a second time changes nothing: for every
    layout built from a fresh one and every layout [other],
    [merge] of [other] is idempotent, in the bindings and in the
    push-constant range. *)
Theorem merge_idempotent (ops : list layoutOp) (other : DxvkBindingLayout) :
  BindingLayout.merge (BindingLayout.merge (buildLayout ops) other) other
  = BindingLayout.merge (buildLayout ops) other.
Proof.
  unfold BindingLayout.merge at 1 2.
  rewrite addBindings_addPushConstantRange.
  rewrite (addBindings_id (BindingLayout.allBindings other)
             (fold_left BindingLayout.addBinding (BindingLayout.allBindings other)
                (buildLayout ops))).
  - unfold BindingLayout.merge. apply addPushConstantRange_twice.
  - apply addBindings_keysDistinct, buildLayout_keysDistinct.
  - apply addBindings_represent.
Qed.

Lemma addToSet_fresh (bs : list DxvkBindingInfo) (b : DxvkBindingInfo) :
  mergeKey b ∉ mergeKey <$> bs -> BindingLayout.addToSet bs b = bs ++ [b].
Proof.
  induction bs as [|x rest IH]; intros Hnot; simpl; [reflexivity|].
  rewrite fmap_cons in Hnot. apply not_elem_of_cons in Hnot as [Hne Hnot].
  destruct (BindingInfo.canMerge x b) eqn:E.
  - apply canMerge_key in E. congruence.
  - rewrite IH by exact Hnot. reflexivity.
Qed.

(** Entries of one set, with pairwise different merge keys, added to a
    layout whose set holds none of these keys, are appended in order. *)
Lemma addBindings_append (s : Z) (bs : list DxvkBindingInfo) (l : DxvkBindingLayout) :
  s ∈ set_indices ->
  Forall (fun b => BindingInfo.computeSetIndex b = s) bs ->
  NoDup (mergeKey <$> (sa_get (m_bindings l) s ++ bs)) ->
  fold_left BindingLayout.addBinding bs l
  = {| m_bindings := sa_set (m_bindings l) s (sa_get (m_bindings l) s ++ bs);
       m_pushConst := m_pushConst l |}.
Proof.
  intros Hs. revert l. induction bs as [|b bs IH]; intros l Hall Hnd.
  - simpl. rewrite app_nil_r, sa_set_get. destruct l; reflexivity.
  - apply Forall_cons in Hall as [Hb Hall]. simpl.
    assert (Hstep : BindingLayout.addBinding l b
              = {| m_bindings := sa_set (m_bindings l) s (sa_get (m_bindings l) s ++ [b]);
                   m_pushConst := m_pushConst l |}).
    { unfold BindingLayout.addBinding. rewrite Hb. rewrite addToSet_fresh; [reflexivity|].
      rewrite fmap_app in Hnd. apply NoDup_app in Hnd as (_ & Hdisj & _).
      intros Hin. apply (Hdisj _ Hin). rewrite fmap_cons. left. }
    rewrite Hstep. rewrite IH; simpl.
    + rewrite sa_get_set_same, <- app_assoc. simpl. f_equal.
      destruct (m_bindings l) as [a0 a1 a2]. unfold sa_set; simpl.
      destruct (s =? 0); [reflexivity|]. destruct (s =? 1); reflexivity.
    + exact Hall.
    + rewrite sa_get_set_same, <- app_assoc. exact Hnd.
Qed.

Lemma merge_into_new_bindings (l : DxvkBindingLayout) :
  keysDistinct l -> layoutPlaced l ->
  fold_left BindingLayout.addBinding (BindingLayout.allBindings l) BindingLayout.new
  = {| m_bindings := m_bindings l; m_pushConst := mkPushConstantRange 0 0 0 |}.
Proof.
  intros Hk Hp. unfold BindingLayout.allBindings, set_indices. simpl.
  rewrite app_nil_r, !fold_left_app.
  destruct set_indices_elem as (H0 & H1 & H2).
  rewrite (addBindings_append 0 (sa_get (m_bindings l) 0));
    [|exact H0 | apply Hp, H0 | apply Hk].
  rewrite (addBindings_append 1 (sa_get (m_bindings l) 1));
    [|exact H1 | apply Hp, H1 | apply Hk].
  rewrite (addBindings_append 2 (sa_get (m_bindings l) 2));
    [|exact H2 | apply Hp, H2 | apply Hk].
  simpl. destruct (m_bindings l) as [a0 a1 a2]. reflexivity.
Qed.

Lemma addPushConstantRange_normal (l : DxvkBindingLayout) (r : VkPushConstantRange) :
  pushConstNormal l -> rangeOk r ->
  pushConstNormal (BindingLayout.addPushConstantRange l r).
Proof.
  intros [Hoff Hsz] (H0 & H1 & H2). unfold pushConstNormal. simpl.
  rewrite Hoff. split; [lia|]. apply u32_range.
Qed.

Lemma applyOp_normal (l : DxvkBindingLayout) (op : layoutOp) :
  pushConstNormal l -> opRangeOk op -> pushConstNormal (applyOp l op).
Proof.
  intros Hl Hop. destruct op as [b|r|other]; simpl.
  - exact Hl.
  - apply addPushConstantRange_normal; assumption.
  - unfold BindingLayout.merge. apply addPushConstantRange_normal; [|exact Hop].
    unfold pushConstNormal. rewrite addBindings_pushConst. exact Hl.
Qed.

Lemma buildLayout_normal (ops : list layoutOp) :
  Forall opRangeOk ops -> pushConstNormal (buildLayout ops).
Proof.
  unfold buildLayout.
  assert (H0 : pushConstNormal BindingLayout.new) by (split; simpl; lia).
  revert H0. generalize BindingLayout.new.
  induction ops as [|op ops IH]; intros l Hl Hok; simpl; [exact Hl|].
  apply Forall_cons in Hok as [Hop Hok].
  apply IH; [apply applyOp_normal; assumption | exact Hok].
Qed.

Lemma union_with_empty (z : Z) :
  0 <= z < 2 ^ 32 -> u32 (Z.max (u32 (0 + 0)) (u32 (0 + z)) - Z.min 0 0) = z.
Proof.
  intros Hz. rewrite !Z.add_0_l, Z.min_id, Z.sub_0_r.
  rewrite (u32_small z) by exact Hz. rewrite (u32_small 0) by lia.
  rewrite Z.max_r by lia. apply u32_small, Hz.
Qed.

(** X5. Merging a layout into a freshly constructed one reproduces it:
    for a layout built from a fresh one by operations whose push-constant
    ranges do not wrap, [merge] into an empty layout gives back the same
    sets, entry by entry and in the same order, and the same
    push-constant range. *)
Theorem merge_into_new (ops : list layoutOp) :
  Forall opRangeOk ops ->
  BindingLayout.merge BindingLayout.new (buildLayout ops) = buildLayout ops.
Proof.
  intros Hok. unfold BindingLayout.merge.
  rewrite merge_into_new_bindings;
    [|apply buildLayout_keysDistinct | apply applyOps_placed, new_placed].
  destruct (buildLayout_normal ops Hok) as [Hoff Hsz].
  unfold BindingLayout.addPushConstantRange.
  cbn [m_pushConst m_bindings offset size stageFlags].
  destruct (buildLayout ops) as [bindings [f o z]].
  cbn [m_pushConst m_bindings offset size stageFlags] in *. subst o.
  rewrite union_with_empty by exact Hsz.
  rewrite Z.lor_0_l, Z.min_id. reflexivity.
Qed.

Lemma merge_into_new_witness :
  Forall opRangeOk exampleOps
  /\ BindingLayout.merge BindingLayout.new (buildLayout exampleOps)
     = buildLayout exampleOps.
Proof.
  assert (Hok : Forall opRangeOk exampleOps).
  { unfold exampleOps. repeat constructor; simpl; lia. }
  split; [exact Hok | exact (merge_into_new exampleOps Hok)].
Defined.

(** ** Push-constant ranges in any order *)

Lemma fold_left_permutation (f : Z -> Z -> Z) (xs ys : list Z) :
  (forall a x y, f (f a x) y = f (f a y) x) ->
  Permutation xs ys -> forall a, fold_left f xs a = fold_left f ys a.
Proof.
  intros Hswap Hperm. induction Hperm as [|x xs ys _ IH|x y xs|xs ys zs _ IH1 _ IH2];
    intros a; simpl.
  - reflexivity.
  - apply IH.
  - rewrite Hswap. reflexivity.
  - rewrite IH1. apply IH2.
Qed.

(** X6. The accumulated push-constant range does not depend on the order
    in which the ranges are added: two sequences of non-wrapping ranges
    that are permutations of each other leave the same stored range. *)
Theorem storedRange_permutation (rs rs' : list VkPushConstantRange) :
  Forall rangeOk rs -> Permutation rs rs' ->
  storedRange rs = storedRange rs'.
Proof.
  intros Hok Hperm.
  assert (Hok' : Forall rangeOk rs') by (rewrite <- Hperm; exact Hok).
  destruct (storedRange_closed_form rs Hok) as (Ho & Hs & Hf).
  destruct (storedRange_closed_form rs' Hok') as (Ho' & Hs' & Hf').
  destruct (storedRange rs) as [f o z], (storedRange rs') as [f' o' z'].
  simpl in *. subst. f_equal.
  - unfold orStageFlags. apply fold_left_permutation.
    + intros a x y. rewrite <- !Z.lor_assoc, (Z.lor_comm x y). reflexivity.
    + apply Permutation_map, Hperm.
  - apply fold_left_permutation.
    + intros a x y. lia.
    + apply Permutation_map, Hperm.
Qed.

Lemma storedRange_permutation_witness :
  Forall rangeOk [mkPushConstantRange 1 0 16; mkPushConstantRange 16 16 16]
  /\ storedRange [mkPushConstantRange 1 0 16; mkPushConstantRange 16 16 16]
     = storedRange [mkPushConstantRange 16 16 16; mkPushConstantRange 1 0 16].
Proof.
  assert (Hok : Forall rangeOk
            [mkPushConstantRange 1 0 16; mkPushConstantRange 16 16 16]).
  { repeat constructor; simpl; lia. }
  split; [exact Hok|].
  apply (storedRange_permutation _ _ Hok). apply perm_swap.
Defined.

(** ** [DxvkBindingLayoutObjects]: a successful construction *)

Lemma createOrThrow_returned (kind : VkObjectKind) (what : string)
    (d d' : VkDevice) (h : Z) :
  createOrThrow kind what d = (Returned h, d') ->
  h = vk_fresh d
  /\ vk_live d' = vk_live d ++ [(kind, vk_fresh d)]
  /\ vk_fresh d' = vk_fresh d + 1.
Proof.
  unfold createOrThrow.
  destruct (vkCreate_cases kind d) as [(d1 & -> & _) | (d1 & -> & L & F)];
    [discriminate|].
  intros H. injection H as <- <-. repeat split; assumption.
Qed.

(** The native side of one successful iteration of the loop over the
    sets. *)
Lemma constructSet_native (MaxNumActiveBindings : Z)
    (o o' : DxvkBindingLayoutObjects) (cid cid' i : Z) (d d' : VkDevice) :
  BindingLayoutObjects.constructSet MaxNumActiveBindings (o, cid) i d
    = (Returned (o', cid'), d') ->
  m_pipelineLayout o' = m_pipelineLayout o
  /\ m_setLayouts o' = sa_set (m_setLayouts o) i (vk_fresh d)
  /\ m_setTemplates o' =
       sa_set (m_setTemplates o) i
         (if BindingLayout.getBindingCount (m_layout o) i =? 0
          then sa_get (m_setTemplates o) i else vk_fresh d + 1)
  /\ m_setMask o' =
       Z.lor (m_setMask o) (setMaskBit (BindingLayout.getBindingCount (m_layout o) i) i)
  /\ vk_live d' =
       vk_live d ++ setObjects (BindingLayout.getBindingCount (m_layout o) i) (vk_fresh d)
  /\ vk_fresh d' = nextFresh (BindingLayout.getBindingCount (m_layout o) i) (vk_fresh d).
Proof.
  unfold BindingLayoutObjects.constructSet, setObjects, setMaskBit, nextFresh.
  destruct (MaxNumActiveBindings <? _); [discriminate|].
  destruct (BindingLayoutObjects.mapBindings i 0 _ (m_mapping o) cid) as [mapping c].
  intros H. apply eff_bind_returned in H as (sl & d1 & Hsl & H).
  apply createOrThrow_returned in Hsl as (-> & L1 & F1).
  destruct (BindingLayout.getBindingCount (m_layout o) i =? 0).
  - injection H as <- <- <-. cbn [m_pipelineLayout m_setLayouts m_setTemplates m_setMask].
    rewrite sa_set_get, Z.lor_0_r. repeat split; assumption.
  - apply eff_bind_returned in H as (tp & d2 & Htp & H).
    apply createOrThrow_returned in Htp as (-> & L2 & F2).
    injection H as <- <- <-. cbn [m_pipelineLayout m_setLayouts m_setTemplates m_setMask].
    rewrite L2, L1, F2, F1, <- app_assoc. repeat split. lia.
Qed.

(** The native side of a successful construction: which handles the
    object stores and which objects the device holds afterwards. *)
Lemma new_native (MaxNumActiveBindings : Z) (layout : DxvkBindingLayout) (d d1 : VkDevice)
    (o : DxvkBindingLayoutObjects) :
  BindingLayoutObjects.new MaxNumActiveBindings layout d = (Returned o, d1) ->
  m_layout o = layout
  /\ m_setLayouts o =
       mkSetArray (freshAt layout (vk_fresh d) 0) (freshAt layout (vk_fresh d) 1)
                  (freshAt layout (vk_fresh d) 2)
  /\ m_setTemplates o =
       mkSetArray
         (setTemplate (BindingLayout.getBindingCount layout 0) (freshAt layout (vk_fresh d) 0))
         (setTemplate (BindingLayout.getBindingCount layout 1) (freshAt layout (vk_fresh d) 1))
         (setTemplate (BindingLayout.getBindingCount layout 2) (freshAt layout (vk_fresh d) 2))
  /\ m_pipelineLayout o = freshAt layout (vk_fresh d) 3
  /\ m_setMask o =
       Z.lor (Z.lor (Z.lor 0 (setMaskBit (BindingLayout.getBindingCount layout 0) 0))
                    (setMaskBit (BindingLayout.getBindingCount layout 1) 1))
             (setMaskBit (BindingLayout.getBindingCount layout 2) 2)
  /\ vk_live d1 =
       vk_live d
       ++ setObjects (BindingLayout.getBindingCount layout 0) (freshAt layout (vk_fresh d) 0)
       ++ setObjects (BindingLayout.getBindingCount layout 1) (freshAt layout (vk_fresh d) 1)
       ++ setObjects (BindingLayout.getBindingCount layout 2) (freshAt layout (vk_fresh d) 2)
       ++ [(PipelineLayoutObj, freshAt layout (vk_fresh d) 3)]
  /\ vk_fresh d1 = freshAt layout (vk_fresh d) 3 + 1.
Proof.
  intros Hnew. unfold BindingLayoutObjects.new in Hnew.
  apply eff_bind_returned in Hnew as ([o3 c3] & d3 & Hloop & Hnew).
  apply eff_bind_returned in Hnew as (pl & d4 & Hpl & Hnew).
  injection Hnew as <- <-.
  apply createOrThrow_returned in Hpl as (-> & L4 & F4).
  unfold set_indices in Hloop. cbn [eff_fold] in Hloop.
  apply eff_bind_returned in Hloop as ([o1 c1] & d1' & H1 & Hloop).
  apply eff_bind_returned in Hloop as ([o2 c2] & d2 & H2 & Hloop).
  apply eff_bind_returned in Hloop as ([o3' c3'] & d3' & H3 & Hloop).
  injection Hloop as -> -> ->.
  pose proof (constructSet_layout _ _ _ _ _ _ _ _ H1) as Y1.
  pose proof (constructSet_layout _ _ _ _ _ _ _ _ H2) as Y2.
  pose proof (constructSet_layout _ _ _ _ _ _ _ _ H3) as Y3.
  apply constructSet_native in H1 as (P1 & S1 & T1 & M1 & L1 & F1).
  apply constructSet_native in H2 as (P2 & S2 & T2 & M2 & L2 & F2).
  apply constructSet_native in H3 as (P3 & S3 & T3 & M3 & L3 & F3).
  cbn [BindingLayoutObjects.init m_layout] in Y1.
  rewrite Y1 in Y2. rewrite Y2 in Y3.
  rewrite Y1 in T2, M2, L2, F2. rewrite Y2 in T3, M3, L3, F3.
  cbn [BindingLayoutObjects.init m_layout m_setLayouts m_setTemplates m_setMask
       m_pipelineLayout fst] in *.
  assert (E0 : freshAt layout (vk_fresh d) 0 = vk_fresh d) by reflexivity.
  assert (E1 : freshAt layout (vk_fresh d) 1 = vk_fresh d1') by (rewrite F1; reflexivity).
  assert (E2 : freshAt layout (vk_fresh d) 2 = vk_fresh d2)
    by (rewrite F2, F1; reflexivity).
  assert (E3 : freshAt layout (vk_fresh d) 3 = vk_fresh d3)
    by (rewrite F3, F2, F1; reflexivity).
  rewrite E0, E1, E2, E3.
  split; [exact Y3|].
  split; [rewrite S3, S2, S1; reflexivity|].
  split.
  { rewrite T3, T2, T1. unfold setTemplate, sa_fill, sa_set, sa_get. simpl.
    repeat case_match; reflexivity. }
  split; [reflexivity|].
  split; [rewrite M3, M2, M1; reflexivity|].
  split; [|exact F4].
  rewrite L4, L3, L2, L1, <- !app_assoc. reflexivity.
Qed.

Lemma filter_keep_all {A} (P : A -> Prop) `{!forall x, Decision (P x)} (l : list A) :
  Forall P l -> filter P l = l.
Proof.
  induction 1 as [|x l Hx _ IH]; [reflexivity|].
  rewrite filter_cons, decide_True by exact Hx. rewrite IH. reflexivity.
Qed.

Lemma filter_drop_all {A} (P : A -> Prop) `{!forall x, Decision (P x)} (l : list A) :
  Forall (fun x => ~ P x) l -> filter P l = [].
Proof.
  induction 1 as [|x l Hx _ IH]; [reflexivity|].
  rewrite filter_cons, decide_False by exact Hx. exact IH.
Qed.

(** Destroying the objects [D] one after the other removes exactly the
    members of [D]. *)
Lemma destroy_all_filter (D l : list (VkObjectKind * Z)) :
  fold_left (fun acc x => filter (fun y => y ≠ x) acc) D l
  = filter (fun y => y ∉ D) l.
Proof.
  revert l. induction D as [|x D IH]; intros l; simpl.
  - symmetry. apply filter_keep_all. apply Forall_forall. intros y _. apply not_elem_of_nil.
  - rewrite IH. rewrite list_filter_filter. apply list_filter_iff.
    intros y. rewrite not_elem_of_cons. tauto.
Qed.

Lemma destroy_all_restores (D L C : list (VkObjectKind * Z)) :
  (forall y, y ∈ L -> y ∉ D) -> (forall y, y ∈ C -> y ∈ D) ->
  fold_left (fun acc x => filter (fun y => y ≠ x) acc) D (L ++ C) = L.
Proof.
  intros HL HC. rewrite destroy_all_filter, filter_app.
  rewrite filter_keep_all by (apply Forall_forall; exact HL).
  rewrite filter_drop_all; [apply app_nil_r|].
  apply Forall_forall. intros y Hy Hnot. exact (Hnot (HC y Hy)).
Qed.

Lemma freshAt_1 (layout : DxvkBindingLayout) (f : Z) :
  freshAt layout f 1 = nextFresh (BindingLayout.getBindingCount layout 0) f.
Proof. reflexivity. Qed.

Lemma freshAt_2 (layout : DxvkBindingLayout) (f : Z) :
  freshAt layout f 2 =
  nextFresh (BindingLayout.getBindingCount layout 1)
    (nextFresh (BindingLayout.getBindingCount layout 0) f).
Proof. reflexivity. Qed.

Lemma freshAt_3 (layout : DxvkBindingLayout) (f : Z) :
  freshAt layout f 3 =
  nextFresh (BindingLayout.getBindingCount layout 2)
    (nextFresh (BindingLayout.getBindingCount layout 1)
       (nextFresh (BindingLayout.getBindingCount layout 0) f)).
Proof. reflexivity. Qed.

Lemma freshAt_0 (layout : DxvkBindingLayout) (f : Z) : freshAt layout f 0 = f.
Proof. reflexivity. Qed.

Ltac split_set_counts layout :=
  rewrite ?freshAt_0, ?freshAt_1, ?freshAt_2, ?freshAt_3 in *;
  unfold setObjects, setTemplate, setMaskBit, nextFresh in *;
  destruct (BindingLayout.getBindingCount layout 0 =? 0);
  destruct (BindingLayout.getBindingCount layout 1 =? 0);
  destruct (BindingLayout.getBindingCount layout 2 =? 0).

(** X7. Construction and destruction are inverse on the device: after a
    successful construction of a [DxvkBindingLayoutObjects], from a
    layout whose sets hold no more bindings than the constructor's arrays
    of [MaxNumActiveBindings] elements, on a device with well-formed
    handles, running the destructor leaves the device with exactly the
    native objects it held before the construction. *)
Theorem BindingLayoutObjects_new_delete (MaxNumActiveBindings : Z)
    (layout : DxvkBindingLayout) (d d1 : VkDevice) (o : DxvkBindingLayoutObjects) :
  deviceReady d ->
  withinCapacity MaxNumActiveBindings layout ->
  BindingLayoutObjects.new MaxNumActiveBindings layout d = (Returned o, d1) ->
  vk_live (snd (BindingLayoutObjects.delete o d1)) = vk_live d.
Proof.
  intros [Hok Hpos] _ Hnew.
  apply new_native in Hnew as (_ & S & T & P & _ & L & _).
  unfold BindingLayoutObjects.delete, eff_bind, destroy, set_indices.
  cbn [eff_fold eff_bind eff_ret snd fst]. unfold eff_bind, eff_ret.
  cbn [snd fst vkDestroy vk_live].
  rewrite S, T, P, L.
  unfold sa_get. cbn [cell0 cell1 cell2]. simpl Z.eqb. cbv iota.
  match goal with
  | |- filter (fun y7 => y7 ≠ ?x7) (filter (fun y6 => y6 ≠ ?x6) (filter (fun y5 => y5 ≠ ?x5)
         (filter (fun y4 => y4 ≠ ?x4) (filter (fun y3 => y3 ≠ ?x3) (filter (fun y2 => y2 ≠ ?x2)
         (filter (fun y1 => y1 ≠ ?x1) ?l)))))) = _ =>
      change (fold_left (fun acc x => filter (fun y => y ≠ x) acc)
                [x1; x2; x3; x4; x5; x6; x7] l = vk_live d)
  end.
  apply destroy_all_restores.
  - intros [k h] Hin HD. apply Hok in Hin.
    split_set_counts layout; unfold VK_NULL_HANDLE in *;
      repeat (apply elem_of_cons in HD as [HD|HD]; [injection HD as _ ->; lia|]);
      apply elem_of_nil in HD; contradiction.
  - intros y Hy.
    split_set_counts layout; simpl in Hy;
      repeat (apply elem_of_cons in Hy as [->|Hy]);
      try (apply elem_of_nil in Hy; contradiction);
      repeat (first [apply list_elem_of_here | apply list_elem_of_further]).
Qed.

Lemma BindingLayoutObjects_new_delete_witness :
  deviceReady (vkDeviceInit [])
  /\ withinCapacity exampleLimit exampleLayout
  /\ exists (o : DxvkBindingLayoutObjects) (d1 : VkDevice),
       BindingLayoutObjects.new exampleLimit exampleLayout (vkDeviceInit [])
         = (Returned o, d1)
       /\ vk_live d1 <> []
       /\ vk_live (snd (BindingLayoutObjects.delete o d1)) = [].
Proof.
  assert (Hready : deviceReady (vkDeviceInit [])).
  { split; [|simpl; lia]. intros k h Hin. simpl in Hin.
    apply elem_of_nil in Hin. contradiction. }
  assert (Hcap : withinCapacity exampleLimit exampleLayout)
    by (apply exampleLayout_capacity; unfold exampleLimit; lia).
  split; [exact Hready|]. split; [exact Hcap|].
  destruct (BindingLayoutObjects.new exampleLimit exampleLayout (vkDeviceInit []))
    as [[o|what|] d1] eqn:Hnew.
  - exists o, d1. split; [reflexivity|]. split.
    + pose proof Hnew as Hval. vm_compute in Hval. injection Hval as _ Hd.
      rewrite <- Hd. simpl. discriminate.
    + exact (BindingLayoutObjects_new_delete exampleLimit exampleLayout
               (vkDeviceInit []) d1 o Hready Hcap Hnew).
  - exfalso. vm_compute in Hnew. discriminate Hnew.
  - exfalso. vm_compute in Hnew. discriminate Hnew.
Defined.

(** X8. After a successful construction from a layout whose sets hold no
    more bindings than the constructor's arrays of [MaxNumActiveBindings]
    elements, every handle the object reports is alive on the device:
    the descriptor set layout of each of the three sets and the pipeline
    layout always, the update template of a set exactly when
    [getBindingCount] of that set is not zero.  For such
    a set the bit of the set is on in [getSetMask]; for an empty set the
    template handle is null and the bit is off; no other bit is on. *)
Theorem BindingLayoutObjects_new_handles (MaxNumActiveBindings : Z)
    (layout : DxvkBindingLayout) (d d1 : VkDevice) (o : DxvkBindingLayoutObjects) :
  withinCapacity MaxNumActiveBindings layout ->
  BindingLayoutObjects.new MaxNumActiveBindings layout d = (Returned o, d1) ->
  (forall i, i ∈ set_indices ->
     (DescriptorSetLayoutObj, BindingLayoutObjects.getSetLayout o i) ∈ vk_live d1
     /\ if BindingLayout.getBindingCount layout i =? 0
        then BindingLayoutObjects.getSetUpdateTemplate o i = VK_NULL_HANDLE
             /\ Z.testbit (BindingLayoutObjects.getSetMask o) i = false
        else (DescriptorUpdateTemplateObj,
              BindingLayoutObjects.getSetUpdateTemplate o i) ∈ vk_live d1
             /\ Z.testbit (BindingLayoutObjects.getSetMask o) i = true)
  /\ (PipelineLayoutObj, BindingLayoutObjects.getPipelineLayout o) ∈ vk_live d1
  /\ 0 <= BindingLayoutObjects.getSetMask o < 8.
Proof.
  intros _ Hnew.
  apply new_native in Hnew as (_ & S & T & P & M & L & _).
  unfold BindingLayoutObjects.getSetLayout, BindingLayoutObjects.getSetUpdateTemplate,
    BindingLayoutObjects.getSetMask, BindingLayoutObjects.getPipelineLayout.
  rewrite S, T, P, M, L. clear S T P M L.
  split; [|split].
  - intros i Hi. unfold set_indices in Hi.
    repeat (apply elem_of_cons in Hi as [->|Hi]);
      [| | |apply elem_of_nil in Hi; contradiction];
      unfold sa_get; cbn [cell0 cell1 cell2]; simpl Z.eqb; cbv iota;
      rewrite ?freshAt_0, ?freshAt_1, ?freshAt_2, ?freshAt_3;
      unfold setObjects, setTemplate, setMaskBit, nextFresh;
      destruct (BindingLayout.getBindingCount layout 0 =? 0);
      destruct (BindingLayout.getBindingCount layout 1 =? 0);
      destruct (BindingLayout.getBindingCount layout 2 =? 0);
      (split; [|split; try reflexivity]);
      simpl; apply elem_of_app; right;
      repeat (first [apply list_elem_of_here | apply list_elem_of_further]).
  - rewrite !elem_of_app. do 4 right. apply list_elem_of_here.
  - unfold setMaskBit.
    destruct (BindingLayout.getBindingCount layout 0 =? 0);
    destruct (BindingLayout.getBindingCount layout 1 =? 0);
    destruct (BindingLayout.getBindingCount layout 2 =? 0);
    vm_compute; (split; [discriminate | reflexivity]).
Qed.

Lemma BindingLayoutObjects_new_handles_witness :
  withinCapacity exampleLimit exampleLayout
  /\ exists (o : DxvkBindingLayoutObjects) (d1 : VkDevice),
       BindingLayoutObjects.new exampleLimit exampleLayout (vkDeviceInit [])
         = (Returned o, d1)
       /\ (PipelineLayoutObj, BindingLayoutObjects.getPipelineLayout o) ∈ vk_live d1
       /\ 0 <= BindingLayoutObjects.getSetMask o < 8.
Proof.
  assert (Hcap : withinCapacity exampleLimit exampleLayout)
    by (apply exampleLayout_capacity; unfold exampleLimit; lia).
  split; [exact Hcap|].
  destruct (BindingLayoutObjects.new exampleLimit exampleLayout (vkDeviceInit []))
    as [[o|what|] d1] eqn:Hnew.
  - exists o, d1. split; [reflexivity|].
    exact (proj2 (BindingLayoutObjects_new_handles exampleLimit exampleLayout
                    (vkDeviceInit []) d1 o Hcap Hnew)).
  - exfalso. vm_compute in Hnew. discriminate Hnew.
  - exfalso. vm_compute in Hnew. discriminate Hnew.
Defined.

(** ** [DxvkBindingLayoutObjects]: the size of the constructor's arrays *)




(** With arrays of one element the example layout, whose last set holds
    two bindings, takes the constructor past their end. *)
Example BindingLayoutObjects_new_beyond :
  fst (BindingLayoutObjects.new 1 exampleLayout (vkDeviceInit [])) = Undefined.
Proof. vm_compute. reflexivity. Qed.

(** ** [DxvkBindingLayoutObjects]: binding numbers *)

Lemma mapBindings_cid (i : Z) (bs : list DxvkBindingInfo) (j cid : Z)
    (m : gmap Z DxvkBindingMapping) :
  0 <= cid < 2 ^ 32 ->
  snd (BindingLayoutObjects.mapBindings i j bs m cid)
  = u32 (cid + Z.of_nat (length bs)).
Proof.
  revert j cid m. induction bs as [|b bs IH]; intros j cid m Hcid.
  - simpl. rewrite Z.add_0_r. symmetry. apply u32_small, Hcid.
  - cbn [BindingLayoutObjects.mapBindings]. rewrite IH by apply u32_range.
    rewrite u32_succ. apply (f_equal u32). rewrite length_cons. lia.
Qed.

Lemma layoutFits_sets (layout : DxvkBindingLayout) :
  layoutFits layout ->
  setSizesFit layout
  /\ Z.of_nat (length (sa_get (m_bindings layout) 0))
     + Z.of_nat (length (sa_get (m_bindings layout) 1))
     + Z.of_nat (length (sa_get (m_bindings layout) 2)) < 2 ^ 32.
Proof.
  unfold layoutFits, BindingLayout.allBindings, set_indices. cbn [map concat].
  rewrite !length_app, !Nat2Z.inj_add. cbn [length]. intros H.
  assert (Hsum : Z.of_nat (length (sa_get (m_bindings layout) 0))
     + Z.of_nat (length (sa_get (m_bindings layout) 1))
     + Z.of_nat (length (sa_get (m_bindings layout) 2)) < 2 ^ 32) by lia.
  split; [|exact Hsum].
  intros s. clear H. unfold sa_get in *. simpl Z.eqb in Hsum. cbv iota in Hsum.
  destruct (s =? 0); [lia|]. destruct (s =? 1); lia.
Qed.

Lemma bindingsBelow_values (layout : DxvkBindingLayout) :
  bindingsBelow layout 0 = 0
  /\ bindingsBelow layout 1 = Z.of_nat (length (sa_get (m_bindings layout) 0))
  /\ bindingsBelow layout 2 =
       Z.of_nat (length (sa_get (m_bindings layout) 0))
       + Z.of_nat (length (sa_get (m_bindings layout) 1)).
Proof.
  unfold bindingsBelow, set_indices.
  split; [reflexivity|]. split.
  - change (filter (fun j => j < 1) [0; 1; 2]) with [0]. cbn [map concat].
    rewrite app_nil_r. reflexivity.
  - change (filter (fun j => j < 2) [0; 1; 2]) with [0; 1]. cbn [map concat].
    rewrite app_nil_r, length_app, Nat2Z.inj_add. reflexivity.
Qed.

(** The table and the first binding numbers after a successful
    construction. *)
Lemma new_table (MaxNumActiveBindings : Z) (layout : DxvkBindingLayout) (d d1 : VkDevice)
    (o : DxvkBindingLayoutObjects) :
  layoutFits layout ->
  BindingLayoutObjects.new MaxNumActiveBindings layout d = (Returned o, d1) ->
  m_bindingOffsets o =
    mkSetArray (bindingsBelow layout 0) (bindingsBelow layout 1) (bindingsBelow layout 2)
  /\ forall slot,
       m_mapping o !! slot =
         match firstIn 0 0 (bindingsBelow layout 0) (sa_get (m_bindings layout) 0) slot with
         | Some m => Some m
         | None =>
             match firstIn 1 0 (bindingsBelow layout 1) (sa_get (m_bindings layout) 1) slot with
             | Some m => Some m
             | None =>
                 firstIn 2 0 (bindingsBelow layout 2) (sa_get (m_bindings layout) 2) slot
             end
         end.
Proof.
  intros Hfits Hnew. destruct (layoutFits_sets layout Hfits) as [Hfit Hsum].
  unfold BindingLayoutObjects.new in Hnew.
  apply eff_bind_returned in Hnew as ([o3 c3] & d3 & Hloop & Hnew).
  apply eff_bind_returned in Hnew as (pl & d4 & _ & Hnew).
  injection Hnew as <- _. cbn [fst m_bindingOffsets m_mapping].
  unfold set_indices in Hloop. cbn [eff_fold] in Hloop.
  apply eff_bind_returned in Hloop as ([o1 c1] & d1' & H1 & Hloop).
  apply eff_bind_returned in Hloop as ([o2 c2] & d2 & H2 & Hloop).
  apply eff_bind_returned in Hloop as ([o3' c3'] & d3' & H3 & Hloop).
  injection Hloop as -> -> ->.
  apply constructSet_returned in H1 as (_ & L1 & O1 & M1 & C1); [|apply Hfit].
  apply constructSet_returned in H2 as (_ & L2 & O2 & M2 & C2); [|rewrite L1; apply Hfit].
  apply constructSet_returned in H3 as (_ & L3 & O3 & M3 & C3); [|rewrite L2, L1; apply Hfit].
  rewrite L1 in *. rewrite L2 in *.
  cbn [BindingLayoutObjects.init m_layout m_mapping m_bindingOffsets] in *.
  destruct (bindingsBelow_values layout) as (B0 & B1 & B2).
  rewrite mapBindings_cid in C1 by lia.
  assert (E1 : c1 = bindingsBelow layout 1).
  { rewrite C1, B1, Z.add_0_l. apply u32_small. pose proof (Hfit 0). lia. }
  assert (R1 : 0 <= c1 < 2 ^ 32) by (rewrite C1; apply u32_range).
  rewrite mapBindings_cid in C2 by exact R1.
  assert (E2 : c2 = bindingsBelow layout 2).
  { rewrite C2, E1, B2, B1. apply u32_small. lia. }
  split.
  - rewrite O3, O2, O1, E1, E2, B0. reflexivity.
  - intros slot.
    rewrite M3, mapBindings_lookup, M2, mapBindings_lookup, M1, mapBindings_lookup.
    rewrite lookup_empty, E1, E2, B0.
    destruct (firstIn 0 0 0 _ slot); [reflexivity|].
    destruct (firstIn 1 0 _ _ slot); reflexivity.
Qed.

(** Where a slot that [lookupBinding] finds is located. *)
Lemma lookupBinding_located (MaxNumActiveBindings : Z)
    (layout : DxvkBindingLayout) (d d1 : VkDevice)
    (o : DxvkBindingLayoutObjects) (slot : Z) (m : DxvkBindingMapping) :
  layoutFits layout ->
  BindingLayoutObjects.new MaxNumActiveBindings layout d = (Returned o, d1) ->
  BindingLayoutObjects.lookupBinding o slot = Some m ->
  exists (n : nat) (b : DxvkBindingInfo),
    set m ∈ set_indices
    /\ sa_get (m_bindings layout) (set m) !! n = Some b
    /\ resourceBinding b = slot
    /\ binding m = Z.of_nat n
    /\ constId m = bindingsBelow layout (set m) + Z.of_nat n.
Proof.
  intros Hfits Hnew. destruct (layoutFits_sets layout Hfits) as [Hfit Hsum].
  destruct (new_table MaxNumActiveBindings layout d d1 o Hfits Hnew) as [_ Htab].
  destruct (bindingsBelow_values layout) as (B0 & B1 & B2).
  destruct set_indices_elem as (I0 & I1 & I2).
  unfold BindingLayoutObjects.lookupBinding. rewrite Htab.
  destruct (firstIn 0 0 _ _ slot) as [m0|] eqn:F0;
    [|destruct (firstIn 1 0 _ _ slot) as [m1|] eqn:F1];
    intros Hm.
  - injection Hm as <-.
    apply firstIn_Some in F0 as (n & b & Hn & Hb & _ & ->); [|rewrite B0; lia].
    exists n, b. cbn [set binding constId].
    pose proof (lookup_lt_Some _ _ _ Hn) as Hlt.
    split; [exact I0|]. split; [exact Hn|]. split; [exact Hb|]. split; [lia|].
    apply u32_small. rewrite B0. lia.
  - injection Hm as <-.
    apply firstIn_Some in F1 as (n & b & Hn & Hb & _ & ->); [|rewrite B1; pose proof (Hfit 0); lia].
    exists n, b. cbn [set binding constId].
    pose proof (lookup_lt_Some _ _ _ Hn) as Hlt.
    split; [exact I1|]. split; [exact Hn|]. split; [exact Hb|]. split; [lia|].
    apply u32_small. rewrite B1. lia.
  - apply firstIn_Some in Hm as (n & b & Hn & Hb & _ & ->); [|rewrite B2; lia].
    exists n, b. cbn [set binding constId].
    pose proof (lookup_lt_Some _ _ _ Hn) as Hlt.
    split; [exact I2|]. split; [exact Hn|]. split; [exact Hb|]. split; [lia|].
    apply u32_small. rewrite B2. lia.
Qed.

(** X9. After a successful construction on a layout with fewer than
    [2^32] bindings, none of whose sets holds more bindings than the
    constructor's arrays of [MaxNumActiveBindings] elements,
    [getFirstBinding] of a set is the number of bindings
    in the sets before it, and the running id of a slot that
    [lookupBinding] finds is the first binding number of its set plus its
    binding number within the set. *)
Theorem getFirstBinding_counts (MaxNumActiveBindings : Z)
    (layout : DxvkBindingLayout) (d d1 : VkDevice) (o : DxvkBindingLayoutObjects) :
  layoutFits layout ->
  withinCapacity MaxNumActiveBindings layout ->
  BindingLayoutObjects.new MaxNumActiveBindings layout d = (Returned o, d1) ->
  BindingLayoutObjects.getFirstBinding o 0 = 0
  /\ BindingLayoutObjects.getFirstBinding o 1
     = Z.of_nat (length (sa_get (m_bindings layout) 0))
  /\ BindingLayoutObjects.getFirstBinding o 2
     = Z.of_nat (length (sa_get (m_bindings layout) 0))
       + Z.of_nat (length (sa_get (m_bindings layout) 1))
  /\ forall slot m,
       BindingLayoutObjects.lookupBinding o slot = Some m ->
       constId m = BindingLayoutObjects.getFirstBinding o (set m) + binding m.
Proof.
  intros Hfits _ Hnew.
  destruct (new_table MaxNumActiveBindings layout d d1 o Hfits Hnew) as [Hoff _].
  destruct (bindingsBelow_values layout) as (B0 & B1 & B2).
  unfold BindingLayoutObjects.getFirstBinding. rewrite Hoff.
  split; [exact B0|]. split; [exact B1|]. split; [exact B2|].
  intros slot m Hm.
  destruct (lookupBinding_located MaxNumActiveBindings layout d d1 o slot m Hfits Hnew Hm)
    as (n & b & Hi & _ & _ & Hbind & Hcid).
  rewrite Hcid, Hbind. f_equal.
  unfold set_indices in Hi.
  repeat (apply elem_of_cons in Hi as [->|Hi]);
    [| | |apply elem_of_nil in Hi; contradiction]; reflexivity.
Qed.

Lemma getFirstBinding_counts_witness :
  layoutFits exampleLayout
  /\ withinCapacity exampleLimit exampleLayout
  /\ exists (o : DxvkBindingLayoutObjects) (d1 : VkDevice),
       BindingLayoutObjects.new exampleLimit exampleLayout (vkDeviceInit [])
         = (Returned o, d1)
       /\ BindingLayoutObjects.getFirstBinding o 0 = 0
       /\ BindingLayoutObjects.getFirstBinding o 1 = 1
       /\ BindingLayoutObjects.getFirstBinding o 2 = 2.
Proof.
  assert (Hfits : layoutFits exampleLayout) by reflexivity.
  assert (Hcap : withinCapacity exampleLimit exampleLayout)
    by (apply exampleLayout_capacity; unfold exampleLimit; lia).
  split; [exact Hfits|]. split; [exact Hcap|].
  destruct (BindingLayoutObjects.new exampleLimit exampleLayout (vkDeviceInit []))
    as [[o|what|] d1] eqn:Hnew.
  - exists o, d1. split; [reflexivity|].
    destruct (getFirstBinding_counts exampleLimit exampleLayout (vkDeviceInit []) d1 o
                Hfits Hcap Hnew) as (H0 & H1 & H2 & _).
    split; [exact H0|]. split; [exact H1 | exact H2].
  - exfalso. vm_compute in Hnew. discriminate Hnew.
  - exfalso. vm_compute in Hnew. discriminate Hnew.
Defined.

(** X10. After a successful construction on a layout with fewer than
    [2^32] bindings, none of whose sets holds more bindings than the
    constructor's arrays of [MaxNumActiveBindings] elements,
    [lookupBinding] sends different resource slots to
    different places: two slots that are both found never share a
    (set, binding) pair nor a running id, and every running id is below
    the total number of bindings. *)
Theorem lookupBinding_injective (MaxNumActiveBindings : Z)
    (layout : DxvkBindingLayout) (d d1 : VkDevice)
    (o : DxvkBindingLayoutObjects) (slot1 slot2 : Z) (m1 m2 : DxvkBindingMapping) :
  layoutFits layout ->
  withinCapacity MaxNumActiveBindings layout ->
  BindingLayoutObjects.new MaxNumActiveBindings layout d = (Returned o, d1) ->
  BindingLayoutObjects.lookupBinding o slot1 = Some m1 ->
  BindingLayoutObjects.lookupBinding o slot2 = Some m2 ->
  slot1 <> slot2 ->
  (set m1 <> set m2 \/ binding m1 <> binding m2)
  /\ constId m1 <> constId m2
  /\ 0 <= constId m1 < Z.of_nat (length (BindingLayout.allBindings layout)).
Proof.
  intros Hfits _ Hnew H1 H2 Hne.
  destruct (lookupBinding_located MaxNumActiveBindings layout d d1 o slot1 m1 Hfits Hnew H1)
    as (n1 & b1 & Hi1 & Hn1 & Hb1 & Hbind1 & Hcid1).
  destruct (lookupBinding_located MaxNumActiveBindings layout d d1 o slot2 m2 Hfits Hnew H2)
    as (n2 & b2 & Hi2 & Hn2 & Hb2 & Hbind2 & Hcid2).
  destruct (bindingsBelow_values layout) as (B0 & B1 & B2).
  assert (Htotal : Z.of_nat (length (BindingLayout.allBindings layout))
            = Z.of_nat (length (sa_get (m_bindings layout) 0))
              + Z.of_nat (length (sa_get (m_bindings layout) 1))
              + Z.of_nat (length (sa_get (m_bindings layout) 2))).
  { unfold BindingLayout.allBindings, set_indices. cbn [map concat].
    rewrite !length_app, !Nat2Z.inj_add. cbn [length]. lia. }
  assert (Hsame : set m1 = set m2 -> n1 = n2 -> False).
  { intros Hs Hn. rewrite Hs, Hn in Hn1. rewrite Hn1 in Hn2.
    injection Hn2 as ->. congruence. }
  pose proof (lookup_lt_Some _ _ _ Hn1) as Hlt1.
  pose proof (lookup_lt_Some _ _ _ Hn2) as Hlt2.
  rewrite Hcid1, Hcid2, Htotal. clear Hcid1 Hcid2 Htotal H1 H2.
  unfold set_indices in Hi1, Hi2.
  repeat (apply elem_of_cons in Hi1 as [Hi1|Hi1]);
    [| | |apply elem_of_nil in Hi1; contradiction];
    (repeat (apply elem_of_cons in Hi2 as [Hi2|Hi2]);
      [| | |apply elem_of_nil in Hi2; contradiction]);
    rewrite Hi1 in *; rewrite Hi2 in *;
    rewrite ?B0, ?B1, ?B2;
    (split; [|split; [|lia]]);
    try (left; lia); try lia;
    try (destruct (decide (n1 = n2)) as [Heq|Hneq];
         [exfalso; apply Hsame; [congruence | exact Heq] | try (right; lia); lia]).
Qed.

Lemma lookupBinding_injective_witness :
  layoutFits exampleLayout
  /\ withinCapacity exampleLimit exampleLayout
  /\ exists (o : DxvkBindingLayoutObjects) (d1 : VkDevice) (m1 m2 : DxvkBindingMapping),
       BindingLayoutObjects.new exampleLimit exampleLayout (vkDeviceInit [])
         = (Returned o, d1)
       /\ BindingLayoutObjects.lookupBinding o 5 = Some m1
       /\ BindingLayoutObjects.lookupBinding o 6 = Some m2
       /\ (set m1 <> set m2 \/ binding m1 <> binding m2)
       /\ constId m1 <> constId m2.
Proof.
  assert (Hfits : layoutFits exampleLayout) by reflexivity.
  assert (Hcap : withinCapacity exampleLimit exampleLayout)
    by (apply exampleLayout_capacity; unfold exampleLimit; lia).
  split; [exact Hfits|]. split; [exact Hcap|].
  destruct (BindingLayoutObjects.new exampleLimit exampleLayout (vkDeviceInit []))
    as [[o|what|] d1] eqn:Hnew.
  - pose proof Hnew as Hval. vm_compute in Hval. injection Hval as Hobj _.
    assert (H5 : BindingLayoutObjects.lookupBinding o 5
                 = Some {| set := 0; binding := 0; constId := 0 |})
      by (rewrite <- Hobj; reflexivity).
    assert (H6 : BindingLayoutObjects.lookupBinding o 6
                 = Some {| set := 2; binding := 0; constId := 2 |})
      by (rewrite <- Hobj; reflexivity).
    exists o, d1, {| set := 0; binding := 0; constId := 0 |},
      {| set := 2; binding := 0; constId := 2 |}.
    split; [reflexivity|]. split; [exact H5|]. split; [exact H6|].
    assert (Hne : (5 : Z) <> 6) by lia.
    destruct (lookupBinding_injective exampleLimit exampleLayout (vkDeviceInit [])
                d1 o 5 6 _ _ Hfits Hcap Hnew H5 H6 Hne) as (Hpair & Hcid & _).
    split; [exact Hpair | exact Hcid].
  - exfalso. vm_compute in Hnew. discriminate Hnew.
  - exfalso. vm_compute in Hnew. discriminate Hnew.
Defined.

(** ** [DxvkBindingLayoutObjects::getAccessFlags] *)

Lemma fold_lor_testbit {A} (f : A -> Z) (xs : list A) (acc k : Z) :
  Z.testbit (fold_left (fun a x => Z.lor a (f x)) xs acc) k = true <->
  Z.testbit acc k = true \/ exists x, x ∈ xs /\ Z.testbit (f x) k = true.
Proof.
  revert acc. induction xs as [|x xs IH]; intros acc; simpl.
  - split; [auto|]. intros [H|(x & Hx & _)]; [exact H|].
    apply elem_of_nil in Hx. contradiction.
  - rewrite IH, Z.lor_spec, orb_true_iff. split.
    + intros [[H|H]|(y & Hy & H)]; [left; exact H | right | right].
      * exists x. split; [left | exact H].
      * exists y. split; [right; exact Hy | exact H].
    + intros [H|(y & Hy & H)]; [left; left; exact H|].
      apply elem_of_cons in Hy as [->|Hy]; [left; right; exact H|].
      right. exists y. split; assumption.
Qed.

(** X11. [getAccessFlags] is the union of the access masks: for a layout
    whose sets have sizes that fit [uint32_t], a bit is on in the result
    exactly when it is on in the access mask of some binding of some
    set. *)
Theorem getAccessFlags_bits (o : DxvkBindingLayoutObjects) (k : Z) :
  setSizesFit (m_layout o) ->
  Z.testbit (BindingLayoutObjects.getAccessFlags o) k = true <->
  exists b, b ∈ BindingLayout.allBindings (m_layout o)
    /\ Z.testbit (access b) k = true.
Proof.
  intros Hfit. unfold BindingLayoutObjects.getAccessFlags, BindingLayout.getBindingCount,
    BindingLayout.allBindings, set_indices.
  cbn [fold_left map concat].
  rewrite !take_all_u32 by apply Hfit.
  rewrite !fold_lor_testbit, Z.bits_0, app_nil_r. split.
  - intros [[[H|(b & Hb & H)]|(b & Hb & H)]|(b & Hb & H)]; [discriminate| | |];
      exists b; (split; [|exact H]); rewrite !elem_of_app; auto.
  - intros (b & Hb & H). rewrite !elem_of_app in Hb.
    destruct Hb as [Hb|[Hb|Hb]]; [left; left; right | left; right | right];
      exists b; split; assumption.
Qed.

Lemma getAccessFlags_bits_witness :
  setSizesFit exampleWriteLayout
  /\ Z.testbit (BindingLayoutObjects.getAccessFlags
                  (BindingLayoutObjects.init exampleWriteLayout)) 6 = true.
Proof.
  assert (Hfit : setSizesFit exampleWriteLayout).
  { intros s. unfold sa_get. destruct (s =? 0); [reflexivity|].
    destruct (s =? 1); reflexivity. }
  split; [exact Hfit|].
  apply (getAccessFlags_bits (BindingLayoutObjects.init exampleWriteLayout) 6 Hfit).
  exists (mkBindingInfo VK_DESCRIPTOR_TYPE_STORAGE_IMAGE 9 1 VK_SHADER_STAGE_COMPUTE_BIT
            VK_ACCESS_SHADER_WRITE_BIT).
  split; [|reflexivity].
  vm_compute. repeat constructor.
Defined.

(** ** [DxvkDescriptorState] *)

Lemma has_flag_lor_l (a b m : Z) :
  has_flag (Z.lor a b) m = has_flag a m || has_flag b m.
Proof.
  unfold has_flag. rewrite Z.land_lor_distr_l.
  destruct (Z.eqb_spec (Z.land a m) 0) as [Ha|Ha];
    destruct (Z.eqb_spec (Z.land b m) 0) as [Hb|Hb]; simpl.
  - rewrite Ha, Hb. reflexivity.
  - destruct (Z.eqb_spec (Z.lor (Z.land a m) (Z.land b m)) 0) as [H|H]; [|reflexivity].
    apply Z.lor_eq_0_iff in H. tauto.
  - destruct (Z.eqb_spec (Z.lor (Z.land a m) (Z.land b m)) 0) as [H|H]; [|reflexivity].
    apply Z.lor_eq_0_iff in H. tauto.
  - destruct (Z.eqb_spec (Z.lor (Z.land a m) (Z.land b m)) 0) as [H|H]; [|reflexivity].
    apply Z.lor_eq_0_iff in H. tauto.
Qed.

Lemma has_flag_lor_r (a m n : Z) :
  has_flag a (Z.lor m n) = has_flag a m || has_flag a n.
Proof.
  unfold has_flag. rewrite Z.land_lor_distr_r.
  destruct (Z.eqb_spec (Z.land a m) 0) as [Ha|Ha];
    destruct (Z.eqb_spec (Z.land a n) 0) as [Hb|Hb]; simpl.
  - rewrite Ha, Hb. reflexivity.
  - destruct (Z.eqb_spec (Z.lor (Z.land a m) (Z.land a n)) 0) as [H|H]; [|reflexivity].
    apply Z.lor_eq_0_iff in H. tauto.
  - destruct (Z.eqb_spec (Z.lor (Z.land a m) (Z.land a n)) 0) as [H|H]; [|reflexivity].
    apply Z.lor_eq_0_iff in H. tauto.
  - destruct (Z.eqb_spec (Z.lor (Z.land a m) (Z.land a n)) 0) as [H|H]; [|reflexivity].
    apply Z.lor_eq_0_iff in H. tauto.
Qed.

Lemma all_graphics_split (x : Z) :
  has_flag x VK_SHADER_STAGE_ALL_GRAPHICS
  = has_flag x VK_SHADER_STAGE_FRAGMENT_BIT
    || has_flag x (DescriptorState.clearBits VK_SHADER_STAGE_ALL_GRAPHICS
                     VK_SHADER_STAGE_FRAGMENT_BIT).
Proof.
  change VK_SHADER_STAGE_ALL_GRAPHICS
    with (Z.lor VK_SHADER_STAGE_FRAGMENT_BIT
            (DescriptorState.clearBits VK_SHADER_STAGE_ALL_GRAPHICS
               VK_SHADER_STAGE_FRAGMENT_BIT)) at 1.
  apply has_flag_lor_r.
Qed.

Lemma getDirtyGraphicsSets_nonzero (st : DxvkDescriptorState) :
  DescriptorState.getDirtyGraphicsSets st <> 0 <->
  DescriptorState.hasDirtyGraphicsSets st = true.
Proof.
  unfold DescriptorState.getDirtyGraphicsSets, DescriptorState.hasDirtyGraphicsSets.
  rewrite all_graphics_split, (has_flag_lor_l _ _ VK_SHADER_STAGE_FRAGMENT_BIT).
  destruct (has_flag (m_dirtyBuffers st) VK_SHADER_STAGE_FRAGMENT_BIT),
           (has_flag (m_dirtyViews st) VK_SHADER_STAGE_FRAGMENT_BIT),
           (has_flag (Z.lor (m_dirtyBuffers st) (m_dirtyViews st)) _);
    vm_compute; split; congruence.
Qed.

(** X12. The two views of dirtiness agree: [getDirtyGraphicsSets] names
    at least one set exactly when [hasDirtyGraphicsSets] holds, and
    [getDirtyComputeSets] names a set exactly when [hasDirtyComputeSets]
    holds. *)
Theorem dirty_sets_consistent (st : DxvkDescriptorState) :
  (DescriptorState.getDirtyGraphicsSets st <> 0 <->
     DescriptorState.hasDirtyGraphicsSets st = true)
  /\ (DescriptorState.getDirtyComputeSets st <> 0 <->
        DescriptorState.hasDirtyComputeSets st = true).
Proof.
  split; [apply getDirtyGraphicsSets_nonzero|].
  unfold DescriptorState.getDirtyComputeSets, DescriptorState.hasDirtyComputeSets.
  destruct (has_flag (Z.lor (m_dirtyBuffers st) (m_dirtyViews st))
              VK_SHADER_STAGE_COMPUTE_BIT);
    vm_compute; split; congruence.
Qed.

(** X13. [getDirtyGraphicsSets] names sets of the graphics bind point
    only, and the set of the fragment views never without the set of the
    fragment buffers: the result is below [2^SetCount], and when bit
    [FsViews] is on, bit [FsBuffers] is on as well. *)
Theorem dirty_graphics_sets_shape (st : DxvkDescriptorState) :
  0 <= DescriptorState.getDirtyGraphicsSets st < 2 ^ DxvkDescriptorSets.SetCount
  /\ implb (Z.testbit (DescriptorState.getDirtyGraphicsSets st) DxvkDescriptorSets.FsViews)
           (Z.testbit (DescriptorState.getDirtyGraphicsSets st) DxvkDescriptorSets.FsBuffers)
     = true.
Proof.
  unfold DescriptorState.getDirtyGraphicsSets.
  destruct (has_flag (m_dirtyBuffers st) VK_SHADER_STAGE_FRAGMENT_BIT),
           (has_flag (m_dirtyViews st) VK_SHADER_STAGE_FRAGMENT_BIT),
           (has_flag (Z.lor (m_dirtyBuffers st) (m_dirtyViews st)) _);
    vm_compute; (split; [split; [discriminate | reflexivity] | reflexivity]).
Qed.

Lemma u32_testbit (x n : Z) :
  0 <= n -> Z.testbit (u32 x) n = (n <? 32) && Z.testbit x n.
Proof. intros Hn. unfold u32. rewrite Z.testbit_mod_pow2 by lia. reflexivity. Qed.

Lemma clearBits_testbit (flags stages n : Z) :
  0 <= n ->
  Z.testbit (DescriptorState.clearBits flags stages) n
  = Z.testbit flags n && ((n <? 32) && negb (Z.testbit stages n)).
Proof.
  intros Hn. unfold DescriptorState.clearBits.
  rewrite Z.land_spec, u32_testbit, Z.lnot_spec by exact Hn. reflexivity.
Qed.

Lemma has_flag_false (x m : Z) : has_flag x m = false <-> Z.land x m = 0.
Proof.
  unfold has_flag. destruct (Z.eqb_spec (Z.land x m) 0); simpl; split; congruence.
Qed.

Lemma clearBits_cleared (flags stages : Z) :
  has_flag (DescriptorState.clearBits flags stages) stages = false.
Proof.
  apply has_flag_false. apply Z.bits_inj'. intros n Hn.
  rewrite Z.land_spec, clearBits_testbit, Z.bits_0 by exact Hn.
  destruct (Z.testbit flags n), (n <? 32), (Z.testbit stages n); reflexivity.
Qed.

Lemma clearBits_lor (flags stages : Z) :
  DescriptorState.clearBits (Z.lor flags stages) stages
  = DescriptorState.clearBits flags stages.
Proof.
  apply Z.bits_inj'. intros n Hn.
  rewrite !clearBits_testbit, Z.lor_spec by exact Hn.
  destruct (Z.testbit flags n), (n <? 32), (Z.testbit stages n); reflexivity.
Qed.

(** X14. [clearStages] undoes [dirtyStages] and clears nothing else:
    after [clearStages(stages)] no bit of [stages] is dirty, neither for
    buffers nor for views; marking stages dirty and clearing them again
    gives the same state as clearing them alone; and clearing all
    graphics stages leaves the compute dirtiness as it was and no
    graphics set dirty. *)
Theorem clearStages_spec (st : DxvkDescriptorState) (stages : Z) :
  has_flag (m_dirtyBuffers (DescriptorState.clearStages st stages)) stages = false
  /\ has_flag (m_dirtyViews (DescriptorState.clearStages st stages)) stages = false
  /\ DescriptorState.clearStages (DescriptorState.dirtyStages st stages) stages
     = DescriptorState.clearStages st stages
  /\ DescriptorState.getDirtyGraphicsSets
       (DescriptorState.clearStages st VK_SHADER_STAGE_ALL_GRAPHICS) = 0
  /\ DescriptorState.hasDirtyComputeSets
       (DescriptorState.clearStages st VK_SHADER_STAGE_ALL_GRAPHICS)
     = DescriptorState.hasDirtyComputeSets st.
Proof.
  split; [apply clearBits_cleared|]. split; [apply clearBits_cleared|]. split.
  { unfold DescriptorState.clearStages, DescriptorState.dirtyStages. simpl.
    rewrite !clearBits_lor. reflexivity. }
  split.
  - assert (H : DescriptorState.hasDirtyGraphicsSets
                  (DescriptorState.clearStages st VK_SHADER_STAGE_ALL_GRAPHICS) = false).
    { unfold DescriptorState.hasDirtyGraphicsSets, DescriptorState.clearStages. simpl.
      rewrite has_flag_lor_l, !clearBits_cleared. reflexivity. }
    destruct (Z.eq_dec (DescriptorState.getDirtyGraphicsSets
                (DescriptorState.clearStages st VK_SHADER_STAGE_ALL_GRAPHICS)) 0)
      as [Hz|Hnz]; [exact Hz|].
    apply getDirtyGraphicsSets_nonzero in Hnz. congruence.
  - unfold DescriptorState.hasDirtyComputeSets, DescriptorState.clearStages. simpl.
    rewrite !has_flag_lor_l.
    change VK_SHADER_STAGE_COMPUTE_BIT with (2 ^ 5).
    rewrite !has_flag_testbit, !clearBits_testbit by lia. simpl.
    rewrite !andb_true_r. reflexivity.
Qed.

Lemma setCell_valid (bindPoint index : Z) :
  validCell bindPoint index ->
  setCell_eq (DescriptorState.setCell bindPoint index) bindPoint index.
Proof.
  intros [Hbp Hidx]. unfold setCell_eq, DescriptorState.setCell, DxvkDescriptorSets.SetCount in *.
  unfold VK_PIPELINE_BIND_POINT_GRAPHICS, VK_PIPELINE_BIND_POINT_COMPUTE in Hbp.
  rewrite u32_small by lia. lia.
Qed.

(** X15. The descriptor sets of the two bind points do not alias: for
    bind points graphics and compute and set indices below [SetCount],
    in a state whose array has its [2 * SetCount] cells, assigning
    through [getSet<BindPoint>(index)] is read back through the same
    reference and changes no other cell, and after [clearSets] every
    cell reads as the null handle. *)
Theorem getSet_cells (st : DxvkDescriptorState)
    (bindPoint index bindPoint' index' handle : Z) :
  length (m_sets st) = 6%nat ->
  validCell bindPoint index ->
  validCell bindPoint' index' ->
  DescriptorState.getSet
    (DescriptorState.assignSet st bindPoint index handle) bindPoint' index'
  = (if bool_decide (bindPoint = bindPoint' /\ index = index')
     then Some handle
     else DescriptorState.getSet st bindPoint' index')
  /\ DescriptorState.getSet (DescriptorState.clearSets st) bindPoint index
     = Some VK_NULL_HANDLE.
Proof.
  intros Hlen Hc Hc'.
  pose proof (setCell_valid _ _ Hc) as [E L].
  pose proof (setCell_valid _ _ Hc') as [E' L'].
  destruct Hc as [Hbp Hidx], Hc' as [Hbp' Hidx'].
  unfold DxvkDescriptorSets.SetCount, VK_PIPELINE_BIND_POINT_GRAPHICS,
    VK_PIPELINE_BIND_POINT_COMPUTE in *.
  unfold DescriptorState.getSet, DescriptorState.assignSet, DescriptorState.clearSets.
  cbn [m_sets]. split.
  - case_bool_decide as Hsame.
    + destruct Hsame as [-> ->]. apply list_lookup_insert_eq. lia.
    + apply list_lookup_insert_ne. intros Heq. rewrite Heq in E.
      apply Hsame. lia.
  - rewrite list_lookup_fmap.
    destruct (lookup_lt_is_Some_2 (m_sets st) (DescriptorState.setCell bindPoint index))
      as [x Hx]; [lia|].
    rewrite Hx. reflexivity.
Qed.

Lemma getSet_cells_witness :
  length (m_sets exampleState) = 6%nat
  /\ validCell VK_PIPELINE_BIND_POINT_COMPUTE 0
  /\ validCell VK_PIPELINE_BIND_POINT_GRAPHICS 0
  /\ DescriptorState.getSet
       (DescriptorState.assignSet exampleState VK_PIPELINE_BIND_POINT_COMPUTE 0 99)
       VK_PIPELINE_BIND_POINT_GRAPHICS 0
     = Some 11.
Proof.
  assert (Hlen : length (m_sets exampleState) = 6%nat) by reflexivity.
  assert (Hc : validCell VK_PIPELINE_BIND_POINT_COMPUTE 0).
  { split; [right; reflexivity | unfold DxvkDescriptorSets.SetCount; lia]. }
  assert (Hg : validCell VK_PIPELINE_BIND_POINT_GRAPHICS 0).
  { split; [left; reflexivity | unfold DxvkDescriptorSets.SetCount; lia]. }
  split; [exact Hlen|]. split; [exact Hc|]. split; [exact Hg|].
  exact (proj1 (getSet_cells exampleState _ _ _ _ 99 Hlen Hc Hg)).
Defined.

(** ** [DxvkDescriptorSlotMapping]: slots *)

Lemma getBindingIdFrom_spec (slots : list DescriptorSlot.t) (i0 slot : Z) :
  0 <= i0 ->
  i0 + Z.of_nat (length slots) < 2 ^ 32 ->
  (DescriptorSlotMapping.getBindingIdFrom i0 slots slot
     = DescriptorSlotMapping.InvalidBinding
   /\ forall s, s ∈ slots -> DescriptorSlot.slot s <> slot)
  \/ exists (n : nat) (s : DescriptorSlot.t),
       DescriptorSlotMapping.getBindingIdFrom i0 slots slot = i0 + Z.of_nat n
       /\ slots !! n = Some s
       /\ DescriptorSlot.slot s = slot
       /\ forall n' s', (n' < n)%nat -> slots !! n' = Some s' ->
            DescriptorSlot.slot s' <> slot.
Proof.
  revert i0. induction slots as [|x rest IH]; intros i0 H0 Hlen.
  - left. split; [reflexivity|]. intros s Hs. apply elem_of_nil in Hs. contradiction.
  - cbn [DescriptorSlotMapping.getBindingIdFrom]. rewrite length_cons in Hlen.
    destruct (Z.eqb_spec (DescriptorSlot.slot x) slot) as [Heq|Hne].
    + right. exists 0%nat, x. split; [simpl; lia|]. split; [reflexivity|].
      split; [exact Heq|]. intros n' s' Hlt. lia.
    + rewrite u32_small by lia.
      destruct (IH (i0 + 1)) as [[Hinv Habs] | (n & s & Hid & Hn & Hs & Hmin)];
        [lia | lia | |].
      * left. split; [exact Hinv|]. intros s Hs.
        apply elem_of_cons in Hs as [->|Hs]; [exact Hne | apply Habs, Hs].
      * right. exists (S n), s. split; [rewrite Hid; lia|]. split; [exact Hn|].
        split; [exact Hs|]. intros [|n'] s' Hlt Hs'; simpl in Hs'.
        -- injection Hs' as <-. exact Hne.
        -- eapply Hmin; [|exact Hs']. lia.
Qed.

(** X16. [getBindingId] on a mapping of fewer than [2^32] slots returns
    [InvalidBinding] exactly when no entry has the slot number, and
    otherwise the index of the first entry that has it. *)
Theorem getBindingId_spec (m : DxvkDescriptorSlotMapping) (slot : Z) :
  Z.of_nat (length (m_descriptorSlots m)) < 2 ^ 32 ->
  (DescriptorSlotMapping.getBindingId m slot = DescriptorSlotMapping.InvalidBinding
   <-> slot ∉ slotNumbers m)
  /\ (slot ∈ slotNumbers m ->
      exists (n : nat) (s : DescriptorSlot.t),
        DescriptorSlotMapping.getBindingId m slot = Z.of_nat n
        /\ m_descriptorSlots m !! n = Some s
        /\ DescriptorSlot.slot s = slot
        /\ forall n' s', (n' < n)%nat -> m_descriptorSlots m !! n' = Some s' ->
             DescriptorSlot.slot s' <> slot).
Proof.
  intros Hlen. unfold DescriptorSlotMapping.getBindingId, slotNumbers.
  destruct (getBindingIdFrom_spec (m_descriptorSlots m) 0 slot)
    as [[Hinv Habs] | (n & s & Hid & Hn & Hs & Hmin)]; [lia | lia | |].
  - assert (Hnot : slot ∉ map DescriptorSlot.slot (m_descriptorSlots m)).
    { intros Hin. apply list_elem_of_fmap in Hin as (s & -> & Hs).
      exact (Habs s Hs eq_refl). }
    split; [split; [intros _; exact Hnot | intros _; exact Hinv]|].
    intros Hin. contradiction.
  - assert (Hin : slot ∈ map DescriptorSlot.slot (m_descriptorSlots m)).
    { apply list_elem_of_fmap. exists s. split; [symmetry; exact Hs|].
      apply list_elem_of_lookup. exists n. exact Hn. }
    pose proof (lookup_lt_Some _ _ _ Hn) as Hlt.
    split.
    + split; [|intros Hnot; contradiction].
      rewrite Hid. unfold DescriptorSlotMapping.InvalidBinding. intros Heq. exfalso. lia.
    + intros _. exists n, s. split; [rewrite Hid; lia|].
      split; [exact Hn|]. split; [exact Hs | exact Hmin].
Qed.

Lemma getBindingId_spec_witness :
  Z.of_nat (length (m_descriptorSlots (buildMapping exampleSlotOps))) < 2 ^ 32
  /\ 4 ∈ slotNumbers (buildMapping exampleSlotOps)
  /\ exists (n : nat) (s : DescriptorSlot.t),
       DescriptorSlotMapping.getBindingId (buildMapping exampleSlotOps) 4 = Z.of_nat n
       /\ m_descriptorSlots (buildMapping exampleSlotOps) !! n = Some s
       /\ DescriptorSlot.slot s = 4.
Proof.
  assert (Hlen : Z.of_nat (length (m_descriptorSlots (buildMapping exampleSlotOps)))
                 < 2 ^ 32) by reflexivity.
  assert (Hin : 4 ∈ slotNumbers (buildMapping exampleSlotOps)).
  { vm_compute. repeat constructor. }
  split; [exact Hlen|]. split; [exact Hin|].
  destruct (proj2 (getBindingId_spec (buildMapping exampleSlotOps) 4 Hlen) Hin)
    as (n & s & Hid & Hn & Hs & _).
  exists n, s. split; [exact Hid|]. split; [exact Hn | exact Hs].
Defined.

Lemma extendSlot_slot (stage acc : Z) (slots : list DescriptorSlot.t) (i : nat) :
  map DescriptorSlot.slot (alter (DescriptorSlotMapping.extendSlot stage acc) i slots)
  = map DescriptorSlot.slot slots.
Proof.
  revert i. induction slots as [|x rest IH]; intros [|i]; simpl; try reflexivity.
  f_equal. apply IH.
Qed.

Lemma replaceType_slot (oldType newType : Z) (slots : list DescriptorSlot.t) :
  map DescriptorSlot.slot (map (DescriptorSlotMapping.replaceType oldType newType) slots)
  = map DescriptorSlot.slot slots.
Proof.
  induction slots as [|x rest IH]; simpl; [reflexivity|].
  rewrite IH. f_equal. unfold DescriptorSlotMapping.replaceType.
  destruct (_ =? _); reflexivity.
Qed.

Lemma applySlotOp_slots (m : DxvkDescriptorSlotMapping) (op : slotOp) :
  Z.of_nat (length (m_descriptorSlots m)) < 2 ^ 32 ->
  NoDup (slotNumbers m) ->
  NoDup (slotNumbers (applySlotOp m op))
  /\ (length (m_descriptorSlots (applySlotOp m op))
      <= S (length (m_descriptorSlots m)))%nat.
Proof.
  intros Hlen Hnd. destruct op as [stage desc|stage off sz|u s]; simpl.
  - unfold DescriptorSlotMapping.defineSlot, slotNumbers.
    destruct (Z.eqb_spec (DescriptorSlotMapping.getBindingId m (ResourceSlot.slot desc))
                DescriptorSlotMapping.InvalidBinding) as [Hinv|Hfound]; simpl.
    + split; [|rewrite length_app; simpl; lia].
      rewrite map_app. simpl. apply NoDup_app. split; [exact Hnd|]. split.
      * intros x Hx Hx'. apply list_elem_of_singleton in Hx'. subst x.
        destruct (getBindingIdFrom_spec (m_descriptorSlots m) 0 (ResourceSlot.slot desc))
          as [[_ Habs] | (n & s0 & Hid & Hn & _)]; [lia | lia | |].
        -- apply list_elem_of_fmap in Hx as (s0 & Heq & Hs0).
           exact (Habs s0 Hs0 (eq_sym Heq)).
        -- unfold DescriptorSlotMapping.getBindingId in Hinv. rewrite Hid in Hinv.
           pose proof (lookup_lt_Some _ _ _ Hn).
           unfold DescriptorSlotMapping.InvalidBinding in Hinv. lia.
      * apply NoDup_singleton.
    + rewrite extendSlot_slot. split; [exact Hnd|].
      rewrite length_alter. lia.
  - split; [exact Hnd | lia].
  - unfold DescriptorSlotMapping.makeDescriptorsDynamic, slotNumbers.
    destruct (_ <=? _); simpl.
    + rewrite replaceType_slot. split; [exact Hnd|]. rewrite length_map. lia.
    + split; [exact Hnd | lia].
Qed.

Lemma buildMapping_invariant (ops : list slotOp) :
  Z.of_nat (length ops) < 2 ^ 32 ->
  NoDup (slotNumbers (buildMapping ops))
  /\ (length (m_descriptorSlots (buildMapping ops)) <= length ops)%nat.
Proof.
  induction ops as [|op ops IH] using rev_ind; intros Hlen.
  - split; [apply NoDup_nil_2 | simpl; lia].
  - rewrite length_app in Hlen. simpl in Hlen.
    destruct IH as [Hnd Hle]; [lia|].
    unfold buildMapping. rewrite fold_left_app. simpl. fold (buildMapping ops).
    destruct (applySlotOp_slots (buildMapping ops) op) as [Hnd' Hle']; [lia | exact Hnd|].
    split; [exact Hnd'|]. rewrite length_app. simpl. lia.
Qed.

(** X17. A slot number is bound at most once: in a mapping built from an
    empty one by fewer than [2^32] calls of [defineSlot],
    [definePushConstRange] and [makeDescriptorsDynamic], no two entries
    have the same slot number, and there are at most as many entries as
    calls. *)
Theorem buildMapping_slots_unique (ops : list slotOp) :
  Z.of_nat (length ops) < 2 ^ 32 ->
  NoDup (slotNumbers (buildMapping ops))
  /\ (length (m_descriptorSlots (buildMapping ops)) <= length ops)%nat.
Proof. apply buildMapping_invariant. Qed.

Lemma buildMapping_slots_unique_witness :
  Z.of_nat (length exampleSlotOps) < 2 ^ 32
  /\ NoDup (slotNumbers (buildMapping exampleSlotOps))
  /\ (length (m_descriptorSlots (buildMapping exampleSlotOps)) <= length exampleSlotOps)%nat.
Proof.
  assert (Hlen : Z.of_nat (length exampleSlotOps) < 2 ^ 32) by reflexivity.
  split; [exact Hlen | exact (buildMapping_slots_unique exampleSlotOps Hlen)].
Defined.

Lemma getBindingIdFrom_slots (l l' : list DescriptorSlot.t) (i0 slot : Z) :
  map DescriptorSlot.slot l = map DescriptorSlot.slot l' ->
  DescriptorSlotMapping.getBindingIdFrom i0 l slot
  = DescriptorSlotMapping.getBindingIdFrom i0 l' slot.
Proof.
  revert l' i0. induction l as [|x rest IH]; intros [|x' rest'] i0 H;
    simpl in H; try discriminate; [reflexivity|].
  injection H as Hx Hrest. simpl. rewrite Hx.
  destruct (_ =? _); [reflexivity | apply IH, Hrest].
Qed.

Lemma getBindingIdFrom_app_absent (l r : list DescriptorSlot.t) (i0 slot : Z) :
  (forall s, s ∈ l -> DescriptorSlot.slot s <> slot) ->
  0 <= i0 -> i0 + Z.of_nat (length l) < 2 ^ 32 ->
  DescriptorSlotMapping.getBindingIdFrom i0 (l ++ r) slot
  = DescriptorSlotMapping.getBindingIdFrom (i0 + Z.of_nat (length l)) r slot.
Proof.
  revert i0. induction l as [|x rest IH]; intros i0 Habs H0 Hlen.
  - simpl. rewrite Z.add_0_r. reflexivity.
  - rewrite length_cons in Hlen. cbn [app DescriptorSlotMapping.getBindingIdFrom].
    destruct (Z.eqb_spec (DescriptorSlot.slot x) slot) as [Heq|Hne].
    + exfalso. apply (Habs x); [left | exact Heq].
    + rewrite u32_small by lia. rewrite IH; [|intros s Hs; apply Habs; right; exact Hs|lia|lia].
      f_equal. rewrite length_cons. lia.
Qed.

(** X18. What [defineSlot] leaves for the slot it was called with, on a
    mapping with room for one more entry: [getBindingId] then finds the
    slot, at an index [n].  When the slot was already defined, the entry
    at [n] keeps its type and view, whatever the new description says,
    and its stage and access masks are ORed with the new ones; when it
    was not, the entry is a new last entry made from the description.
    No other entry changes. *)
Theorem defineSlot_entry (m : DxvkDescriptorSlotMapping) (stage : Z)
    (desc : ResourceSlot.t) :
  Z.of_nat (length (m_descriptorSlots m)) + 1 < 2 ^ 32 ->
  exists (n : nat) (e : DescriptorSlot.t),
    DescriptorSlotMapping.getBindingId
      (DescriptorSlotMapping.defineSlot m stage desc) (ResourceSlot.slot desc)
    = Z.of_nat n
    /\ m_descriptorSlots (DescriptorSlotMapping.defineSlot m stage desc) !! n = Some e
    /\ DescriptorSlot.slot e = ResourceSlot.slot desc
    /\ match m_descriptorSlots m !! n with
       | Some old =>
           DescriptorSlot.slot old = ResourceSlot.slot desc
           /\ DescriptorSlot.type e = DescriptorSlot.type old
           /\ DescriptorSlot.view e = DescriptorSlot.view old
           /\ DescriptorSlot.stages e = Z.lor (DescriptorSlot.stages old) stage
           /\ DescriptorSlot.access e
              = Z.lor (DescriptorSlot.access old) (ResourceSlot.access desc)
       | None =>
           n = length (m_descriptorSlots m)
           /\ DescriptorSlot.type e = ResourceSlot.type desc
           /\ DescriptorSlot.view e = ResourceSlot.view desc
           /\ DescriptorSlot.stages e = stage
           /\ DescriptorSlot.access e = ResourceSlot.access desc
       end
    /\ forall j : nat, j <> n ->
         m_descriptorSlots (DescriptorSlotMapping.defineSlot m stage desc) !! j
         = m_descriptorSlots m !! j.
Proof.
  intros Hlen. unfold DescriptorSlotMapping.defineSlot, DescriptorSlotMapping.getBindingId.
  destruct (getBindingIdFrom_spec (m_descriptorSlots m) 0 (ResourceSlot.slot desc))
    as [[Hinv Habs] | (n & old & Hid & Hn & Hold & Hmin)]; [lia | lia | |].
  - rewrite Hinv, Z.eqb_refl. cbn [negb m_descriptorSlots].
    exists (length (m_descriptorSlots m)). eexists. split.
    + rewrite getBindingIdFrom_app_absent by (try exact Habs; lia).
      cbn [DescriptorSlotMapping.getBindingIdFrom DescriptorSlot.slot].
      rewrite Z.eqb_refl. lia.
    + split; [rewrite lookup_app_r by lia; rewrite Nat.sub_diag; reflexivity|].
      split; [reflexivity|]. split.
      * rewrite lookup_ge_None_2 by lia. repeat split.
      * intros j Hj. destruct (Nat.lt_ge_cases j (length (m_descriptorSlots m))) as [Hlt|Hge].
        -- rewrite lookup_app_l by exact Hlt. reflexivity.
        -- rewrite lookup_ge_None_2 by (rewrite length_app; simpl; lia).
           symmetry. apply lookup_ge_None_2. lia.
  - pose proof (lookup_lt_Some _ _ _ Hn) as Hlt.
    rewrite Hid, Z.add_0_l.
    destruct (Z.eqb_spec (Z.of_nat n) DescriptorSlotMapping.InvalidBinding) as [Hbad|_];
      [unfold DescriptorSlotMapping.InvalidBinding in Hbad; lia|].
    cbn [negb m_descriptorSlots]. rewrite Nat2Z.id.
    exists n, (DescriptorSlotMapping.extendSlot stage (ResourceSlot.access desc) old).
    split.
    + rewrite (getBindingIdFrom_slots _ (m_descriptorSlots m)) by apply extendSlot_slot.
      rewrite Hid. lia.
    + split; [rewrite list_lookup_alter_eq, Hn; reflexivity|].
      split; [exact Hold|]. split.
      * rewrite Hn. repeat split. exact Hold.
      * intros j Hj. apply list_lookup_alter_ne. congruence.
Qed.

Lemma defineSlot_entry_witness :
  Z.of_nat (length (m_descriptorSlots (buildMapping exampleSlotOps))) + 1 < 2 ^ 32
  /\ exists (n : nat) (e : DescriptorSlot.t),
       DescriptorSlotMapping.getBindingId
         (DescriptorSlotMapping.defineSlot (buildMapping exampleSlotOps)
            VK_SHADER_STAGE_GEOMETRY_BIT
            (ResourceSlot.mk 4 VK_DESCRIPTOR_TYPE_STORAGE_BUFFER 0 0)) 4
       = Z.of_nat n
       /\ m_descriptorSlots
            (DescriptorSlotMapping.defineSlot (buildMapping exampleSlotOps)
               VK_SHADER_STAGE_GEOMETRY_BIT
               (ResourceSlot.mk 4 VK_DESCRIPTOR_TYPE_STORAGE_BUFFER 0 0)) !! n
          = Some e
       /\ DescriptorSlot.slot e = 4.
Proof.
  assert (Hlen : Z.of_nat (length (m_descriptorSlots (buildMapping exampleSlotOps))) + 1
                 < 2 ^ 32) by reflexivity.
  split; [exact Hlen|].
  destruct (defineSlot_entry (buildMapping exampleSlotOps) VK_SHADER_STAGE_GEOMETRY_BIT
              (ResourceSlot.mk 4 VK_DESCRIPTOR_TYPE_STORAGE_BUFFER 0 0) Hlen)
    as (n & e & Hid & He & Hslot & _).
  exists n, e. split; [exact Hid|]. split; [exact He | exact Hslot].
Defined.

(** ** Push-constant ranges of the two schemes *)

Lemma legacyRange_snoc (rs : list VkPushConstantRange) (r : VkPushConstantRange) :
  legacyRange (rs ++ [r])
  = {| stageFlags := Z.lor (stageFlags (legacyRange rs)) (stageFlags r);
       offset     := offset (legacyRange rs);
       size       := Z.max (size (legacyRange rs)) (u32 (offset r + size r)) |}.
Proof. unfold legacyRange. rewrite fold_left_app. reflexivity. Qed.

Lemma legacyRange_closed_form (rs : list VkPushConstantRange) :
  Forall rangeOk rs ->
  offset (legacyRange rs) = 0
  /\ size (legacyRange rs) = fold_left Z.max (map rangeEnd rs) 0
  /\ stageFlags (legacyRange rs) = orStageFlags rs.
Proof.
  induction rs as [|r rs IH] using rev_ind; intros Hok.
  - repeat split.
  - apply Forall_app in Hok as [Hrs Hr]. apply Forall_inv in Hr.
    destruct (IH Hrs) as (Hoff & Hsz & Hfl). destruct Hr as (H0 & H1 & H2).
    rewrite legacyRange_snoc. cbn [offset size stageFlags].
    rewrite Hoff, Hsz, Hfl. unfold orStageFlags.
    rewrite !map_app, !fold_left_app. cbn [fold_left map]. unfold rangeEnd at 3.
    rewrite (u32_small (offset r + size r)) by lia. repeat split.
Qed.

(** X19. The two binding schemes accumulate the same push-constant range:
    for ranges that do not wrap, calling [definePushConstRange] of an
    empty slot mapping with the stage mask, offset and size of each range
    leaves the range that [addPushConstantRange] leaves in a fresh
    binding layout for the same ranges. *)
Theorem legacyRange_agrees (rs : list VkPushConstantRange) :
  Forall rangeOk rs -> legacyRange rs = storedRange rs.
Proof.
  intros Hok.
  destruct (legacyRange_closed_form rs Hok) as (Ho & Hs & Hf).
  destruct (storedRange_closed_form rs Hok) as (Ho' & Hs' & Hf').
  destruct (legacyRange rs) as [f o z], (storedRange rs) as [f' o' z'].
  simpl in *. congruence.
Qed.

Lemma legacyRange_agrees_witness :
  Forall rangeOk [mkPushConstantRange 1 16 16; mkPushConstantRange 16 0 8]
  /\ legacyRange [mkPushConstantRange 1 16 16; mkPushConstantRange 16 0 8]
     = storedRange [mkPushConstantRange 1 16 16; mkPushConstantRange 16 0 8].
Proof.
  assert (Hok : Forall rangeOk
            [mkPushConstantRange 1 16 16; mkPushConstantRange 16 0 8]).
  { repeat constructor; simpl; lia. }
  split; [exact Hok | exact (legacyRange_agrees _ Hok)].
Defined.

(** ** [DxvkPipelineLayout]: construction *)

(** The native side of a successful construction of the single-set
    layout. *)
Lemma PipelineLayout_new_native (MaxNumActiveBindings : Z)
    (slotMapping : DxvkDescriptorSlotMapping) (pipelineBindPoint : Z)
    (d d1 : VkDevice) (o : PipelineLayout.t) :
  PipelineLayout.new MaxNumActiveBindings slotMapping pipelineBindPoint d
    = (Returned o, d1) ->
  DescriptorSlotMapping.bindingCount slotMapping <= MaxNumActiveBindings
  /\ PipelineLayout.m_bindingSlots o
     = take (Z.to_nat (DescriptorSlotMapping.bindingCount slotMapping))
            (m_descriptorSlots slotMapping)
  /\ PipelineLayout.m_dynamicSlots o
     = PipelineLayout.dynamicSlotsFrom 0 (PipelineLayout.m_bindingSlots o)
  /\ PipelineLayout.m_descriptorTypes o
     = list_to_set (map DescriptorSlot.type (PipelineLayout.m_bindingSlots o))
  /\ PipelineLayout.m_pushConstRange o = m_pushConstRange slotMapping
  /\ if 0 <? DescriptorSlotMapping.bindingCount slotMapping
     then PipelineLayout.m_descriptorSetLayout o = vk_fresh d
          /\ PipelineLayout.m_pipelineLayout o = vk_fresh d + 1
          /\ PipelineLayout.m_descriptorTemplate o = vk_fresh d + 2
          /\ vk_live d1 = vk_live d ++ [(DescriptorSetLayoutObj, vk_fresh d);
                                        (PipelineLayoutObj, vk_fresh d + 1);
                                        (DescriptorUpdateTemplateObj, vk_fresh d + 2)]
     else PipelineLayout.m_descriptorSetLayout o = VK_NULL_HANDLE
          /\ PipelineLayout.m_pipelineLayout o = vk_fresh d
          /\ PipelineLayout.m_descriptorTemplate o = VK_NULL_HANDLE
          /\ vk_live d1 = vk_live d ++ [(PipelineLayoutObj, vk_fresh d)].
Proof.
  unfold PipelineLayout.new.
  destruct (Z.ltb_spec MaxNumActiveBindings
              (DescriptorSlotMapping.bindingCount slotMapping)) as [Hgt|Hle];
    [discriminate|].
  intros H. split; [exact Hle|].
  apply eff_bind_returned in H as (dsl & d2 & Hdsl & H).
  apply eff_bind_returned in H as (pl & d3 & Hpl & H).
  apply eff_bind_returned in H as (tp & d4 & Htp & H).
  injection H as <- <-.
  cbn [PipelineLayout.m_bindingSlots PipelineLayout.m_dynamicSlots
       PipelineLayout.m_descriptorTypes PipelineLayout.m_pushConstRange
       PipelineLayout.m_descriptorSetLayout PipelineLayout.m_pipelineLayout
       PipelineLayout.m_descriptorTemplate].
  do 4 (split; [reflexivity|]).
  destruct (0 <? DescriptorSlotMapping.bindingCount slotMapping).
  - apply createOrThrow_returned in Hdsl as (-> & L2 & F2).
    destruct (vkCreate_cases PipelineLayoutObj d2)
      as [(d3' & E3 & _) | (d3' & E3 & L3 & F3)];
      rewrite E3 in Hpl; [discriminate|]. injection Hpl as <- <-.
    destruct (vkCreate_cases DescriptorUpdateTemplateObj d3')
      as [(d4' & E4 & _) | (d4' & E4 & L4 & F4)];
      rewrite E4 in Htp; [discriminate|]. injection Htp as <- <-.
    rewrite L4, L3, L2, F3, F2, <- !app_assoc.
    replace (vk_fresh d + 1 + 1) with (vk_fresh d + 2) by lia.
    repeat split.
  - injection Hdsl as <- <-.
    destruct (vkCreate_cases PipelineLayoutObj d)
      as [(d3' & E3 & _) | (d3' & E3 & L3 & F3)];
      rewrite E3 in Hpl; [discriminate|]. injection Hpl as <- <-.
    injection Htp as <- <-. repeat split. exact L3.
Qed.

(** X20. The single-set layout, too, gives back on destruction what it
    created: after a successful construction on a device with well-formed
    handles, running the destructor leaves the device with exactly the
    native objects it held before, whether or not the mapping had any
    binding. *)
Theorem PipelineLayout_new_delete (MaxNumActiveBindings : Z)
    (slotMapping : DxvkDescriptorSlotMapping) (pipelineBindPoint : Z)
    (d d1 : VkDevice) (o : PipelineLayout.t) :
  deviceReady d ->
  PipelineLayout.new MaxNumActiveBindings slotMapping pipelineBindPoint d
    = (Returned o, d1) ->
  vk_live (snd (PipelineLayout.delete o d1)) = vk_live d.
Proof.
  intros [Hok Hpos] Hnew.
  apply PipelineLayout_new_native in Hnew as (_ & _ & _ & _ & _ & Hnat).
  unfold PipelineLayout.delete, eff_bind, destroy. cbn [snd fst vkDestroy vk_live].
  change (fold_left (fun acc x => filter (fun y => y ≠ x) acc)
            [(DescriptorUpdateTemplateObj, PipelineLayout.m_descriptorTemplate o);
             (PipelineLayoutObj, PipelineLayout.m_pipelineLayout o);
             (DescriptorSetLayoutObj, PipelineLayout.m_descriptorSetLayout o)]
            (vk_live d1) = vk_live d).
  destruct (0 <? DescriptorSlotMapping.bindingCount slotMapping);
    destruct Hnat as (-> & -> & -> & ->); apply destroy_all_restores.
  - intros [k h] Hin HD. apply Hok in Hin.
    repeat (apply elem_of_cons in HD as [HD|HD]; [injection HD as _ ->; lia|]).
    apply elem_of_nil in HD. contradiction.
  - intros y Hy.
    repeat (apply elem_of_cons in Hy as [->|Hy]);
      try (apply elem_of_nil in Hy; contradiction);
      repeat (first [apply list_elem_of_here | apply list_elem_of_further]).
  - intros [k h] Hin HD. apply Hok in Hin. unfold VK_NULL_HANDLE in HD.
    repeat (apply elem_of_cons in HD as [HD|HD]; [injection HD as _ ->; lia|]).
    apply elem_of_nil in HD. contradiction.
  - intros y Hy.
    repeat (apply elem_of_cons in Hy as [->|Hy]);
      try (apply elem_of_nil in Hy; contradiction);
      repeat (first [apply list_elem_of_here | apply list_elem_of_further]).
Qed.

Lemma PipelineLayout_new_delete_witness :
  deviceReady (vkDeviceInit [])
  /\ exists (o : PipelineLayout.t) (d1 : VkDevice),
       PipelineLayout.new 16 fourUniformBuffers VK_PIPELINE_BIND_POINT_GRAPHICS
         (vkDeviceInit []) = (Returned o, d1)
       /\ vk_live (snd (PipelineLayout.delete o d1)) = [].
Proof.
  assert (Hready : deviceReady (vkDeviceInit [])).
  { split; [|simpl; lia]. intros k h Hin. simpl in Hin.
    apply elem_of_nil in Hin. contradiction. }
  split; [exact Hready|].
  destruct (PipelineLayout.new 16 fourUniformBuffers VK_PIPELINE_BIND_POINT_GRAPHICS
              (vkDeviceInit [])) as [[o|what|] d1] eqn:Hnew.
  - exists o, d1. split; [reflexivity|].
    exact (PipelineLayout_new_delete 16 fourUniformBuffers
             VK_PIPELINE_BIND_POINT_GRAPHICS (vkDeviceInit []) d1 o Hready Hnew).
  - exfalso. vm_compute in Hnew. discriminate Hnew.
  - exfalso. vm_compute in Hnew. discriminate Hnew.
Defined.

(** X21. A mapping with more bindings than [MaxNumActiveBindings] is
    refused before the driver is asked for anything: the constructor
    throws the text "Too many active bindings in pipeline layout ("
    followed by the binding count in decimal and ")", and the device, the
    outcomes still to come included, is as it was. *)
Theorem PipelineLayout_new_too_many (MaxNumActiveBindings : Z)
    (slotMapping : DxvkDescriptorSlotMapping) (pipelineBindPoint : Z) (d : VkDevice) :
  MaxNumActiveBindings < DescriptorSlotMapping.bindingCount slotMapping ->
  PipelineLayout.new MaxNumActiveBindings slotMapping pipelineBindPoint d
  = (Thrown ("Too many active bindings in pipeline layout ("
             +:+ pretty (DescriptorSlotMapping.bindingCount slotMapping) +:+ ")"), d).
Proof.
  intros Hgt. unfold PipelineLayout.new.
  destruct (Z.ltb_spec MaxNumActiveBindings
              (DescriptorSlotMapping.bindingCount slotMapping)); [reflexivity | lia].
Qed.

Lemma PipelineLayout_new_too_many_witness :
  4 < DescriptorSlotMapping.bindingCount fiveUniformBuffers
  /\ PipelineLayout.new 4 fiveUniformBuffers VK_PIPELINE_BIND_POINT_GRAPHICS
       (vkDeviceInit [true; false])
     = (Thrown "Too many active bindings in pipeline layout (5)",
        vkDeviceInit [true; false]).
Proof.
  assert (Hgt : 4 < DescriptorSlotMapping.bindingCount fiveUniformBuffers) by reflexivity.
  split; [exact Hgt|].
  exact (PipelineLayout_new_too_many 4 fiveUniformBuffers
           VK_PIPELINE_BIND_POINT_GRAPHICS (vkDeviceInit [true; false]) Hgt).
Defined.

(** ** [DxvkPipelineLayout]: what it reports about its bindings *)

Lemma dynamicSlotsFrom_elem (slots : list DescriptorSlot.t) (i0 i : Z) :
  i ∈ PipelineLayout.dynamicSlotsFrom i0 slots <->
  exists (n : nat) (s : DescriptorSlot.t),
    i = i0 + Z.of_nat n /\ slots !! n = Some s
    /\ DescriptorSlot.type s = VK_DESCRIPTOR_TYPE_UNIFORM_BUFFER_DYNAMIC.
Proof.
  revert i0. induction slots as [|x rest IH]; intros i0; simpl.
  - split; [intros H; apply elem_of_nil in H; contradiction|].
    intros (n & s & _ & H & _). rewrite lookup_nil in H. discriminate H.
  - assert (Hrest : (exists (n : nat) (s : DescriptorSlot.t),
                i = i0 + 1 + Z.of_nat n /\ rest !! n = Some s
                /\ DescriptorSlot.type s = VK_DESCRIPTOR_TYPE_UNIFORM_BUFFER_DYNAMIC)
              <-> exists (n : nat) (s : DescriptorSlot.t),
                i = i0 + Z.of_nat (S n) /\ rest !! n = Some s
                /\ DescriptorSlot.type s = VK_DESCRIPTOR_TYPE_UNIFORM_BUFFER_DYNAMIC).
    { split; intros (n & s & Hi & H); exists n, s; (split; [lia | exact H]). }
    destruct (Z.eqb_spec (DescriptorSlot.type x) VK_DESCRIPTOR_TYPE_UNIFORM_BUFFER_DYNAMIC)
      as [Hty|Hty].
    + rewrite elem_of_cons, IH, Hrest. split.
      * intros [->|(n & s & Hi & Hn & Hs)].
        -- exists 0%nat, x. split; [lia|]. split; [reflexivity | exact Hty].
        -- exists (S n), s. split; [exact Hi|]. split; [exact Hn | exact Hs].
      * intros ([|n] & s & Hi & Hn & Hs).
        -- left. lia.
        -- right. exists n, s. split; [exact Hi|]. split; [exact Hn | exact Hs].
    + rewrite IH, Hrest. split.
      * intros (n & s & Hi & Hn & Hs). exists (S n), s.
        split; [exact Hi|]. split; [exact Hn | exact Hs].
      * intros ([|n] & s & Hi & Hn & Hs).
        -- simpl in Hn. injection Hn as <-. contradiction.
        -- exists n, s. split; [exact Hi|]. split; [exact Hn | exact Hs].
Qed.

Lemma dynamicSlotsFrom_length (slots : list DescriptorSlot.t) (i0 : Z) :
  length (PipelineLayout.dynamicSlotsFrom i0 slots) = dynamicBufferCount slots.
Proof.
  unfold dynamicBufferCount.
  revert i0. induction slots as [|x rest IH]; intros i0; simpl; [reflexivity|].
  rewrite filter_cons.
  destruct (Z.eqb_spec (DescriptorSlot.type x) VK_DESCRIPTOR_TYPE_UNIFORM_BUFFER_DYNAMIC)
    as [Hty|Hty].
  - rewrite decide_True by exact Hty. simpl. rewrite IH. reflexivity.
  - rewrite decide_False by exact Hty. apply IH.
Qed.

(** X22. After a successful construction from a mapping of fewer than
    [2^32] slots, the layout holds the slots of the mapping, and its
    dynamic bindings are exactly its dynamic uniform buffers: every
    [dynamicBinding(id)] is a binding of the dynamic uniform-buffer type,
    every binding of that type is listed among the dynamic slots, and
    [dynamicBindingCount] is their number. *)
Theorem PipelineLayout_dynamic_bindings (MaxNumActiveBindings : Z)
    (slotMapping : DxvkDescriptorSlotMapping) (pipelineBindPoint : Z)
    (d d1 : VkDevice) (o : PipelineLayout.t) :
  Z.of_nat (length (m_descriptorSlots slotMapping)) < 2 ^ 32 ->
  PipelineLayout.new MaxNumActiveBindings slotMapping pipelineBindPoint d
    = (Returned o, d1) ->
  PipelineLayout.m_bindingSlots o = m_descriptorSlots slotMapping
  /\ (forall id s, PipelineLayout.dynamicBinding o id = Some s ->
        DescriptorSlot.type s = VK_DESCRIPTOR_TYPE_UNIFORM_BUFFER_DYNAMIC)
  /\ (forall (n : nat) s,
        PipelineLayout.binding o (Z.of_nat n) = Some s ->
        DescriptorSlot.type s = VK_DESCRIPTOR_TYPE_UNIFORM_BUFFER_DYNAMIC ->
        Z.of_nat n ∈ PipelineLayout.m_dynamicSlots o)
  /\ PipelineLayout.dynamicBindingCount o
     = Z.of_nat (dynamicBufferCount (m_descriptorSlots slotMapping)).
Proof.
  intros Hlen Hnew.
  apply PipelineLayout_new_native in Hnew as (_ & Hslots & Hdyn & _).
  unfold DescriptorSlotMapping.bindingCount in Hslots.
  rewrite take_all_u32 in Hslots by exact Hlen.
  split; [exact Hslots|].
  unfold PipelineLayout.dynamicBinding, PipelineLayout.binding,
    PipelineLayout.dynamicBindingCount.
  rewrite Hdyn, Hslots. split; [|split].
  - intros id s H.
    destruct (PipelineLayout.dynamicSlotsFrom 0 (m_descriptorSlots slotMapping)
                !! Z.to_nat id) as [i|] eqn:Hi; [|discriminate].
    apply list_elem_of_lookup_2 in Hi.
    apply dynamicSlotsFrom_elem in Hi as (n & s' & -> & Hn & Hty).
    rewrite Z.add_0_l, Nat2Z.id, Hn in H. injection H as <-. exact Hty.
  - intros n s Hn Hty. rewrite Nat2Z.id in Hn.
    apply dynamicSlotsFrom_elem. exists n, s.
    split; [lia|]. split; [exact Hn | exact Hty].
  - rewrite dynamicSlotsFrom_length. apply u32_small.
    unfold dynamicBufferCount.
    pose proof (length_filter
                  (fun s => DescriptorSlot.type s = VK_DESCRIPTOR_TYPE_UNIFORM_BUFFER_DYNAMIC)
                  (m_descriptorSlots slotMapping)).
    lia.
Qed.

Lemma PipelineLayout_dynamic_bindings_witness :
  Z.of_nat (length (m_descriptorSlots
                      (DescriptorSlotMapping.makeDescriptorsDynamic fourUniformBuffers 4 0)))
    < 2 ^ 32
  /\ exists (o : PipelineLayout.t) (d1 : VkDevice),
       PipelineLayout.new 16
         (DescriptorSlotMapping.makeDescriptorsDynamic fourUniformBuffers 4 0)
         VK_PIPELINE_BIND_POINT_GRAPHICS (vkDeviceInit []) = (Returned o, d1)
       /\ PipelineLayout.dynamicBindingCount o = 4.
Proof.
  assert (Hlen : Z.of_nat (length (m_descriptorSlots
                   (DescriptorSlotMapping.makeDescriptorsDynamic fourUniformBuffers 4 0)))
                 < 2 ^ 32) by reflexivity.
  split; [exact Hlen|].
  destruct (PipelineLayout.new 16
              (DescriptorSlotMapping.makeDescriptorsDynamic fourUniformBuffers 4 0)
              VK_PIPELINE_BIND_POINT_GRAPHICS (vkDeviceInit []))
    as [[o|what|] d1] eqn:Hnew.
  - exists o, d1. split; [reflexivity|].
    destruct (PipelineLayout_dynamic_bindings 16 _ _ _ d1 o Hlen Hnew) as (_ & _ & _ & Hcount).
    rewrite Hcount. reflexivity.
  - exfalso. vm_compute in Hnew. discriminate Hnew.
  - exfalso. vm_compute in Hnew. discriminate Hnew.
Defined.

Lemma hasStaticBufferBindings_iff (o : PipelineLayout.t) :
  PipelineLayout.m_descriptorTypes o
    = list_to_set (map DescriptorSlot.type (PipelineLayout.m_bindingSlots o)) ->
  PipelineLayout.hasStaticBufferBindings o = true <->
  exists s, s ∈ PipelineLayout.m_bindingSlots o
    /\ DescriptorSlot.type s = VK_DESCRIPTOR_TYPE_UNIFORM_BUFFER.
Proof.
  intros Hty. unfold PipelineLayout.hasStaticBufferBindings.
  rewrite bool_decide_eq_true, Hty, elem_of_list_to_set. split.
  - intros Hin. apply list_elem_of_fmap in Hin as (s & Hs & Hin).
    exists s. split; [exact Hin | symmetry; exact Hs].
  - intros (s & Hin & Hs). apply list_elem_of_fmap. exists s.
    split; [symmetry; exact Hs | exact Hin].
Qed.

(** X23. [makeDescriptorsDynamic] decides whether the pipeline layout
    has static buffer bindings: for a layout constructed from
    [makeDescriptorsDynamic(uniformBuffers, _)] of a mapping of fewer
    than [2^32] slots, [hasStaticBufferBindings] holds exactly when the
    mapping had more uniform buffers than [uniformBuffers]. *)
Theorem hasStaticBufferBindings_after_dynamic (MaxNumActiveBindings : Z)
    (slotMapping : DxvkDescriptorSlotMapping)
    (uniformBuffers storageBuffers pipelineBindPoint : Z)
    (d d1 : VkDevice) (o : PipelineLayout.t) :
  Z.of_nat (length (m_descriptorSlots slotMapping)) < 2 ^ 32 ->
  0 <= uniformBuffers ->
  PipelineLayout.new MaxNumActiveBindings
    (DescriptorSlotMapping.makeDescriptorsDynamic slotMapping uniformBuffers storageBuffers)
    pipelineBindPoint d = (Returned o, d1) ->
  PipelineLayout.hasStaticBufferBindings o = true <->
  uniformBuffers < Z.of_nat (uniformBufferCount slotMapping).
Proof.
  intros Hlen Hlimit Hnew.
  apply PipelineLayout_new_native in Hnew as (_ & Hslots & _ & Hty & _).
  rewrite (hasStaticBufferBindings_iff o Hty), Hslots.
  unfold DescriptorSlotMapping.bindingCount, DescriptorSlotMapping.makeDescriptorsDynamic.
  rewrite countDescriptors_uniform by exact Hlen.
  destruct (Z.leb_spec (Z.of_nat (uniformBufferCount slotMapping)) uniformBuffers)
    as [Hle|Hgt].
  - cbn [DescriptorSlotMapping.replaceDescriptors m_descriptorSlots].
    rewrite take_all_u32 by (rewrite length_map; exact Hlen).
    split; [|lia]. intros (s & Hin & Hs). exfalso.
    apply list_elem_of_fmap in Hin as (s0 & -> & _).
    unfold DescriptorSlotMapping.replaceType in Hs.
    destruct (Z.eqb_spec (DescriptorSlot.type s0) VK_DESCRIPTOR_TYPE_UNIFORM_BUFFER)
      as [Heq|Hne]; [discriminate Hs | contradiction].
  - rewrite take_all_u32 by exact Hlen.
    split; [intros _; exact Hgt|]. intros _.
    destruct (uniformBufferCount_pos slotMapping) as (i & s & Hi & Hs); [lia|].
    exists s. split; [|exact Hs]. apply list_elem_of_lookup. exists i. exact Hi.
Qed.

Lemma hasStaticBufferBindings_after_dynamic_witness :
  Z.of_nat (length (m_descriptorSlots fiveUniformBuffers)) < 2 ^ 32
  /\ exists (o : PipelineLayout.t) (d1 : VkDevice),
       PipelineLayout.new 16
         (DescriptorSlotMapping.makeDescriptorsDynamic fiveUniformBuffers 4 0)
         VK_PIPELINE_BIND_POINT_GRAPHICS (vkDeviceInit []) = (Returned o, d1)
       /\ PipelineLayout.hasStaticBufferBindings o = true.
Proof.
  assert (Hlen : Z.of_nat (length (m_descriptorSlots fiveUniformBuffers)) < 2 ^ 32)
    by reflexivity.
  assert (Hlimit : 0 <= 4) by lia.
  split; [exact Hlen|].
  destruct (PipelineLayout.new 16
              (DescriptorSlotMapping.makeDescriptorsDynamic fiveUniformBuffers 4 0)
              VK_PIPELINE_BIND_POINT_GRAPHICS (vkDeviceInit []))
    as [[o|what|] d1] eqn:Hnew.
  - exists o, d1. split; [reflexivity|].
    apply (hasStaticBufferBindings_after_dynamic 16 fiveUniformBuffers 4 0
             VK_PIPELINE_BIND_POINT_GRAPHICS (vkDeviceInit []) d1 o Hlen Hlimit Hnew).
    vm_compute. reflexivity.
  - exfalso. vm_compute in Hnew. discriminate Hnew.
  - exfalso. vm_compute in Hnew. discriminate Hnew.
Defined.

Lemma fold_storage_stages (slots : list DescriptorSlot.t) (acc k : Z) :
  Z.testbit
    (fold_left
       (fun stages s =>
          if has_flag (DescriptorSlot.access s) VK_ACCESS_SHADER_WRITE_BIT
          then Z.lor stages (DescriptorSlot.stages s) else stages)
       slots acc) k = true <->
  Z.testbit acc k = true
  \/ exists s, s ∈ slots
       /\ has_flag (DescriptorSlot.access s) VK_ACCESS_SHADER_WRITE_BIT = true
       /\ Z.testbit (DescriptorSlot.stages s) k = true.
Proof.
  revert acc. induction slots as [|x rest IH]; intros acc; simpl.
  - split; [auto|]. intros [H|(s & Hs & _)]; [exact H|].
    apply elem_of_nil in Hs. contradiction.
  - rewrite IH. split.
    + intros [H|(s & Hs & Hw & Hk)].
      * destruct (has_flag (DescriptorSlot.access x) VK_ACCESS_SHADER_WRITE_BIT) eqn:Hw.
        -- rewrite Z.lor_spec in H. apply orb_true_iff in H as [H|H]; [left; exact H|].
           right. exists x. split; [left|]. split; assumption.
        -- left. exact H.
      * right. exists s. split; [right; exact Hs|]. split; assumption.
    + intros [H|(s & Hs & Hw & Hk)].
      * left. destruct (has_flag (DescriptorSlot.access x) VK_ACCESS_SHADER_WRITE_BIT);
          [rewrite Z.lor_spec, H; reflexivity | exact H].
      * apply elem_of_cons in Hs as [->|Hs].
        -- left. rewrite Hw, Z.lor_spec, Hk. apply orb_true_r.
        -- right. exists s. split; [exact Hs|]. split; assumption.
Qed.

(** X24. [getStorageDescriptorStages] collects the stages that write: a
    stage bit is on in the result exactly when some binding with
    [VK_ACCESS_SHADER_WRITE_BIT] in its access mask has that bit in its
    stage mask; bindings that are only read contribute nothing. *)
Theorem getStorageDescriptorStages_bits (o : PipelineLayout.t) (k : Z) :
  Z.testbit (PipelineLayout.getStorageDescriptorStages o) k = true <->
  exists s, s ∈ PipelineLayout.m_bindingSlots o
    /\ Z.testbit (DescriptorSlot.access s) 6 = true
    /\ Z.testbit (DescriptorSlot.stages s) k = true.
Proof.
  unfold PipelineLayout.getStorageDescriptorStages.
  rewrite fold_storage_stages, Z.bits_0. split.
  - intros [H|(s & Hs & Hw & Hk)]; [discriminate|].
    exists s. split; [exact Hs|]. split; [|exact Hk].
    change VK_ACCESS_SHADER_WRITE_BIT with (2 ^ 6) in Hw.
    rewrite has_flag_testbit in Hw by lia. exact Hw.
  - intros (s & Hs & Hw & Hk). right. exists s. split; [exact Hs|]. split; [|exact Hk].
    change VK_ACCESS_SHADER_WRITE_BIT with (2 ^ 6).
    rewrite has_flag_testbit by lia. exact Hw.
Qed.

(** ** [DxvkPipelineManager]: the caches over a history *)

Lemma ComputeShaders_eq_true (a b : DxvkComputePipelineShaders) :
  ComputeShaders_eq a b = true <-> a = b.
Proof.
  unfold ComputeShaders_eq, ShaderRef_eq. rewrite bool_decide_eq_true.
  destruct a, b; simpl. split; [intros ->; reflexivity | intros H; injection H; auto].
Qed.

Lemma map_find_None {K V} (same : K -> K -> bool) (k : K) (m : list (K * V)) :
  map_find same k m = None ->
  forall k', k' ∈ map fst m -> same k' k = false.
Proof.
  unfold map_find. intros H k' Hin.
  apply fmap_None in H. apply list_find_None in H.
  apply list_elem_of_fmap in Hin as ([k'' v] & -> & Hin).
  rewrite Forall_forall in H. specialize (H _ Hin). simpl in *.
  destruct (same k'' k); [exfalso; apply H; exact I | reflexivity].
Qed.

Lemma emplace_keys_NoDup {K V} (same : K -> K -> bool) (k : K) (v : V) (m : list (K * V)) :
  (forall a, same a a = true) ->
  map_find same k m = None ->
  NoDup (map fst m) -> NoDup (map fst (map_emplace k v m)).
Proof.
  intros Hrefl Hnone Hnd. unfold map_emplace. rewrite map_app. simpl.
  apply NoDup_app. split; [exact Hnd|]. split; [|apply NoDup_singleton].
  intros x Hx Hx'. apply list_elem_of_singleton in Hx'. subst x.
  pose proof (map_find_None same k m Hnone k Hx) as Hf.
  rewrite Hrefl in Hf. discriminate Hf.
Qed.

Section ManagerHistory.

Variable MaxNumActiveBindings : Z.
Variable getBindings : nat -> DxvkBindingLayout.

Lemma createPipelineLayout_keys (layout : DxvkBindingLayout) (mgr : DxvkPipelineManager) :
  NoDup (map fst (m_pipelineLayouts mgr)) ->
  NoDup (map fst (m_pipelineLayouts
                    (snd (PipelineManager.createPipelineLayout MaxNumActiveBindings
                            layout mgr)))).
Proof.
  intros Hnd. unfold PipelineManager.createPipelineLayout.
  destruct (map_find BindingLayout.eq layout (m_pipelineLayouts mgr)) as [i|] eqn:Hfind;
    [exact Hnd|].
  unfold eff_bind, PipelineManager.onDevice.
  destruct (BindingLayoutObjects.new MaxNumActiveBindings layout (m_device mgr))
    as [[o|what|] d']; simpl;
    [|exact Hnd..].
  apply (emplace_keys_NoDup BindingLayout.eq); [apply BindingLayout_eq_refl | exact Hfind | exact Hnd].
Qed.

Lemma answer_keysUnique (r : PipelineManager.request) (mgr : DxvkPipelineManager) :
  keysUnique mgr -> keysUnique (snd (answer MaxNumActiveBindings getBindings r mgr)).
Proof.
  intros (Hl & Hc & Hg). destruct r as [s|s]; simpl.
  - unfold PipelineManager.createComputePipeline.
    destruct (cs s) as [a|]; [|repeat split; assumption].
    destruct (map_find ComputeShaders_eq s (m_computePipelines mgr)) as [i|] eqn:Hfind;
      [repeat split; assumption|].
    unfold eff_bind.
    pose proof (createPipelineLayout_effect MaxNumActiveBindings (getBindings a) mgr)
      as (Eg & Ec & _).
    pose proof (createPipelineLayout_keys (getBindings a) mgr Hl) as Hl'.
    destruct (PipelineManager.createPipelineLayout MaxNumActiveBindings (getBindings a) mgr)
      as [[i|what|] mgr']; simpl in *.
    + split; [exact Hl'|]. split; [|rewrite Eg; exact Hg].
      apply (emplace_keys_NoDup ComputeShaders_eq);
        [apply ComputeShaders_eq_refl | rewrite Ec; exact Hfind | rewrite Ec; exact Hc].
    + split; [exact Hl'|]. split; [rewrite Ec; exact Hc | rewrite Eg; exact Hg].
    + split; [exact Hl'|]. split; [rewrite Ec; exact Hc | rewrite Eg; exact Hg].
  - unfold PipelineManager.createGraphicsPipeline.
    destruct (vs s) as [a|]; [|repeat split; assumption].
    destruct (map_find GraphicsShaders_eq s (m_graphicsPipelines mgr)) as [i|] eqn:Hfind;
      [repeat split; assumption|].
    unfold eff_bind.
    pose proof (createPipelineLayout_effect MaxNumActiveBindings
                  (PipelineManager.mergedLayout getBindings s) mgr) as (Eg & Ec & _).
    pose proof (createPipelineLayout_keys
                  (PipelineManager.mergedLayout getBindings s) mgr Hl) as Hl'.
    destruct (PipelineManager.createPipelineLayout MaxNumActiveBindings
                (PipelineManager.mergedLayout getBindings s) mgr)
      as [[i|what|] mgr']; simpl in *.
    + split; [exact Hl'|]. split; [rewrite Ec; exact Hc|].
      apply (emplace_keys_NoDup GraphicsShaders_eq);
        [intros x; apply GraphicsShaders_eq_true; reflexivity
        | rewrite Eg; exact Hfind | rewrite Eg; exact Hg].
    + split; [exact Hl'|]. split; [rewrite Ec; exact Hc | rewrite Eg; exact Hg].
    + split; [exact Hl'|]. split; [rewrite Ec; exact Hc | rewrite Eg; exact Hg].
Qed.

Lemma serve_is_answer (mgr : DxvkPipelineManager) (r : PipelineManager.request) :
  PipelineManager.serve MaxNumActiveBindings getBindings mgr r
  = snd (answer MaxNumActiveBindings getBindings r mgr).
Proof. destruct r; reflexivity. Qed.

Lemma serveAll_keysUnique (rs : list PipelineManager.request) (mgr : DxvkPipelineManager) :
  keysUnique mgr ->
  keysUnique (PipelineManager.serveAll MaxNumActiveBindings getBindings rs mgr).
Proof.
  revert mgr. induction rs as [|r rs IH]; intros mgr H; simpl; [exact H|].
  apply IH. rewrite serve_is_answer. apply answer_keysUnique, H.
Qed.

End ManagerHistory.

(** X25. Every cache entry is created at most once: after any history of
    requests, no two entries of the layout cache have equal binding
    layouts as keys, and no two entries of the compute, resp. graphics,
    pipeline cache are stored under the same shader set. *)
Theorem caches_keys_unique (MaxNumActiveBindings : Z)
    (getBindings : nat -> DxvkBindingLayout)
    (device : VkDevice) (history : list PipelineManager.request) :
  keysUnique (managerAfter MaxNumActiveBindings getBindings device history).
Proof.
  apply serveAll_keysUnique. repeat split; apply NoDup_nil_2.
Qed.

Section ManagerAnswers.

Variable MaxNumActiveBindings : Z.
Variable getBindings : nat -> DxvkBindingLayout.

Lemma createPipelineLayout_thrown (layout : DxvkBindingLayout)
    (mgr : DxvkPipelineManager) (what : string) :
  fst (PipelineManager.createPipelineLayout MaxNumActiveBindings layout mgr) = Thrown what ->
  m_pipelineLayouts (snd (PipelineManager.createPipelineLayout MaxNumActiveBindings layout mgr))
  = m_pipelineLayouts mgr.
Proof.
  unfold PipelineManager.createPipelineLayout.
  destruct (map_find BindingLayout.eq layout (m_pipelineLayouts mgr)); [discriminate|].
  unfold eff_bind, PipelineManager.onDevice.
  destruct (BindingLayoutObjects.new MaxNumActiveBindings layout (m_device mgr))
    as [[o|w|] d']; simpl;
    [discriminate | reflexivity | discriminate].
Qed.

Lemma answer_extend (r : PipelineManager.request) (mgr : DxvkPipelineManager) :
  allCachesExtend mgr (snd (answer MaxNumActiveBindings getBindings r mgr)).
Proof.
  assert (Hrefl : allCachesExtend mgr mgr).
  { repeat split; exists []; rewrite app_nil_r; reflexivity. }
  destruct r as [s|s]; simpl.
  - unfold PipelineManager.createComputePipeline.
    destruct (cs s) as [a|]; [|exact Hrefl].
    destruct (map_find ComputeShaders_eq s (m_computePipelines mgr)); [exact Hrefl|].
    unfold eff_bind.
    pose proof (createPipelineLayout_effect MaxNumActiveBindings (getBindings a) mgr)
      as (Eg & Ec & El & _).
    destruct (PipelineManager.createPipelineLayout MaxNumActiveBindings (getBindings a) mgr)
      as [[i|what|] mgr']; simpl in *.
    + split; [exact El|]. split; [eexists; unfold map_emplace; rewrite Ec; reflexivity|].
      exists []. rewrite app_nil_r. exact Eg.
    + split; [exact El|]. split; exists []; rewrite app_nil_r; assumption.
    + split; [exact El|]. split; exists []; rewrite app_nil_r; assumption.
  - unfold PipelineManager.createGraphicsPipeline.
    destruct (vs s) as [a|]; [|exact Hrefl].
    destruct (map_find GraphicsShaders_eq s (m_graphicsPipelines mgr)); [exact Hrefl|].
    unfold eff_bind.
    pose proof (createPipelineLayout_effect MaxNumActiveBindings
                  (PipelineManager.mergedLayout getBindings s) mgr) as (Eg & Ec & El & _).
    destruct (PipelineManager.createPipelineLayout MaxNumActiveBindings
                (PipelineManager.mergedLayout getBindings s) mgr)
      as [[i|what|] mgr']; simpl in *.
    + split; [exact El|]. split; [exists []; rewrite app_nil_r; exact Ec|].
      eexists. unfold map_emplace. rewrite Eg. reflexivity.
    + split; [exact El|]. split; exists []; rewrite app_nil_r; assumption.
    + split; [exact El|]. split; exists []; rewrite app_nil_r; assumption.
Qed.

Lemma allCachesExtend_trans (m1 m2 m3 : DxvkPipelineManager) :
  allCachesExtend m1 m2 -> allCachesExtend m2 m3 -> allCachesExtend m1 m3.
Proof.
  intros ([l1 Hl1] & [c1 Hc1] & [g1 Hg1]) ([l2 Hl2] & [c2 Hc2] & [g2 Hg2]).
  split; [|split].
  - exists (l1 ++ l2). rewrite Hl2, Hl1, app_assoc. reflexivity.
  - exists (c1 ++ c2). rewrite Hc2, Hc1, app_assoc. reflexivity.
  - exists (g1 ++ g2). rewrite Hg2, Hg1, app_assoc. reflexivity.
Qed.

Lemma serveAll_extend (rs : list PipelineManager.request) (mgr : DxvkPipelineManager) :
  allCachesExtend mgr (PipelineManager.serveAll MaxNumActiveBindings getBindings rs mgr).
Proof.
  revert mgr. induction rs as [|r rs IH]; intros mgr; simpl.
  - repeat split; exists []; rewrite app_nil_r; reflexivity.
  - eapply allCachesExtend_trans; [|apply IH].
    rewrite serve_is_answer. apply answer_extend.
Qed.

Lemma cachedAt_extend (r : PipelineManager.request) (mgr mgr' : DxvkPipelineManager)
    (p : nat) :
  allCachesExtend mgr mgr' -> cachedAt r mgr = Some p -> cachedAt r mgr' = Some p.
Proof.
  intros (_ & [c Hc] & [g Hg]) H. destruct r as [s|s]; simpl in *.
  - rewrite Hc. apply map_find_app_l, H.
  - rewrite Hg. apply map_find_app_l, H.
Qed.

Lemma answer_cached (r : PipelineManager.request) (mgr : DxvkPipelineManager) (p : nat) :
  fst (answer MaxNumActiveBindings getBindings r mgr) = Returned (Some p) ->
  cachedAt r (snd (answer MaxNumActiveBindings getBindings r mgr)) = Some p.
Proof.
  destruct r as [s|s]; simpl.
  - unfold PipelineManager.createComputePipeline.
    destruct (cs s) as [a|]; [|discriminate].
    destruct (map_find ComputeShaders_eq s (m_computePipelines mgr)) as [i|] eqn:Hfind.
    + simpl. intros H. injection H as <-. exact Hfind.
    + unfold eff_bind.
      pose proof (createPipelineLayout_effect MaxNumActiveBindings (getBindings a) mgr)
        as (_ & Ec & _).
      destruct (PipelineManager.createPipelineLayout MaxNumActiveBindings (getBindings a) mgr)
        as [[i|what|] mgr']; simpl in *; [|discriminate..].
      intros H. injection H as <-. rewrite Ec.
      apply map_find_emplace; [exact Hfind | apply ComputeShaders_eq_refl].
  - unfold PipelineManager.createGraphicsPipeline.
    destruct (vs s) as [a|]; [|discriminate].
    destruct (map_find GraphicsShaders_eq s (m_graphicsPipelines mgr)) as [i|] eqn:Hfind.
    + simpl. intros H. injection H as <-. exact Hfind.
    + unfold eff_bind.
      pose proof (createPipelineLayout_effect MaxNumActiveBindings
                    (PipelineManager.mergedLayout getBindings s) mgr) as (Eg & _).
      destruct (PipelineManager.createPipelineLayout MaxNumActiveBindings
                  (PipelineManager.mergedLayout getBindings s) mgr)
        as [[i|what|] mgr']; simpl in *; [|discriminate..].
      intros H. injection H as <-. rewrite Eg.
      apply map_find_emplace; [exact Hfind|].
      apply GraphicsShaders_eq_true. reflexivity.
Qed.

(** A request that names its mandatory shader and is cached is answered
    from the cache. *)
Lemma answer_hit (r : PipelineManager.request) (mgr mgr0 : DxvkPipelineManager)
    (p p0 : nat) :
  fst (answer MaxNumActiveBindings getBindings r mgr0) = Returned (Some p0) ->
  cachedAt r mgr = Some p ->
  answer MaxNumActiveBindings getBindings r mgr = (Returned (Some p), mgr).
Proof.
  destruct r as [s|s]; simpl.
  - unfold PipelineManager.createComputePipeline.
    destruct (cs s) as [a|]; [|discriminate].
    intros _ ->. reflexivity.
  - unfold PipelineManager.createGraphicsPipeline.
    destruct (vs s) as [a|]; [|discriminate].
    intros _ ->. reflexivity.
Qed.

End ManagerAnswers.

(** X26. A failed creation leaves no trace in the caches: when
    [createComputePipeline] or [createGraphicsPipeline] throws, the
    layout cache and both pipeline caches hold exactly the entries they
    held before the call. *)
Theorem answer_thrown_caches (MaxNumActiveBindings : Z)
    (getBindings : nat -> DxvkBindingLayout)
    (r : PipelineManager.request) (mgr : DxvkPipelineManager) (what : string) :
  fst (answer MaxNumActiveBindings getBindings r mgr) = Thrown what ->
  m_pipelineLayouts (snd (answer MaxNumActiveBindings getBindings r mgr))
    = m_pipelineLayouts mgr
  /\ m_computePipelines (snd (answer MaxNumActiveBindings getBindings r mgr))
     = m_computePipelines mgr
  /\ m_graphicsPipelines (snd (answer MaxNumActiveBindings getBindings r mgr))
     = m_graphicsPipelines mgr.
Proof.
  destruct r as [s|s]; simpl.
  - unfold PipelineManager.createComputePipeline.
    destruct (cs s) as [a|]; [|discriminate].
    destruct (map_find ComputeShaders_eq s (m_computePipelines mgr)); [discriminate|].
    unfold eff_bind.
    pose proof (createPipelineLayout_effect MaxNumActiveBindings (getBindings a) mgr)
      as (Eg & Ec & _).
    pose proof (createPipelineLayout_thrown MaxNumActiveBindings (getBindings a) mgr)
      as Hthrown.
    destruct (PipelineManager.createPipelineLayout MaxNumActiveBindings (getBindings a) mgr)
      as [[i|w|] mgr']; simpl in *; [discriminate| |discriminate].
    intros _. split; [apply (Hthrown w); reflexivity|]. split; assumption.
  - unfold PipelineManager.createGraphicsPipeline.
    destruct (vs s) as [a|]; [|discriminate].
    destruct (map_find GraphicsShaders_eq s (m_graphicsPipelines mgr)); [discriminate|].
    unfold eff_bind.
    pose proof (createPipelineLayout_effect MaxNumActiveBindings
                  (PipelineManager.mergedLayout getBindings s) mgr) as (Eg & Ec & _).
    pose proof (createPipelineLayout_thrown MaxNumActiveBindings
                  (PipelineManager.mergedLayout getBindings s) mgr) as Hthrown.
    destruct (PipelineManager.createPipelineLayout MaxNumActiveBindings
                (PipelineManager.mergedLayout getBindings s) mgr)
      as [[i|w|] mgr']; simpl in *; [discriminate| |discriminate].
    intros _. split; [apply (Hthrown w); reflexivity|]. split; assumption.
Qed.

Lemma answer_thrown_caches_witness :
  fst (answer exampleLimit exampleBindings (PipelineManager.ReqGraphics exampleShaders1)
         (PipelineManager.new (vkDeviceInit [false])))
  = Thrown "DxvkBindingLayoutObjects: Failed to create descriptor set layout"
  /\ m_pipelineLayouts
       (snd (answer exampleLimit exampleBindings (PipelineManager.ReqGraphics exampleShaders1)
               (PipelineManager.new (vkDeviceInit [false])))) = []
  /\ m_graphicsPipelines
       (snd (answer exampleLimit exampleBindings (PipelineManager.ReqGraphics exampleShaders1)
               (PipelineManager.new (vkDeviceInit [false])))) = [].
Proof.
  assert (H : fst (answer exampleLimit exampleBindings (PipelineManager.ReqGraphics exampleShaders1)
                     (PipelineManager.new (vkDeviceInit [false])))
              = Thrown "DxvkBindingLayoutObjects: Failed to create descriptor set layout")
    by (vm_compute; reflexivity).
  split; [exact H|].
  destruct (answer_thrown_caches exampleLimit exampleBindings _ _ _ H) as (Hl & _ & Hg).
  split; [exact Hl | exact Hg].
Defined.

(** X27. Returned pipeline nodes are stable: once a request has been
    answered with a pipeline, the same request, repeated after any
    further history of requests, is answered with the same node and
    leaves the manager as it finds it. *)
Theorem answer_stable (MaxNumActiveBindings : Z)
    (getBindings : nat -> DxvkBindingLayout)
    (r : PipelineManager.request) (mgr : DxvkPipelineManager) (p : nat)
    (history : list PipelineManager.request) :
  fst (answer MaxNumActiveBindings getBindings r mgr) = Returned (Some p) ->
  answer MaxNumActiveBindings getBindings r
    (PipelineManager.serveAll MaxNumActiveBindings getBindings history
       (snd (answer MaxNumActiveBindings getBindings r mgr)))
  = (Returned (Some p),
     PipelineManager.serveAll MaxNumActiveBindings getBindings history
       (snd (answer MaxNumActiveBindings getBindings r mgr))).
Proof.
  intros H. eapply answer_hit; [exact H|].
  eapply cachedAt_extend; [apply serveAll_extend | apply answer_cached, H].
Qed.

Lemma answer_stable_witness :
  fst (answer exampleLimit exampleBindings (PipelineManager.ReqCompute exampleCompute)
         (PipelineManager.new (vkDeviceInit [])))
  = Returned (Some 0%nat)
  /\ fst (answer exampleLimit exampleBindings (PipelineManager.ReqCompute exampleCompute)
            (PipelineManager.serveAll exampleLimit exampleBindings exampleHistory
               (snd (answer exampleLimit exampleBindings (PipelineManager.ReqCompute exampleCompute)
                       (PipelineManager.new (vkDeviceInit []))))))
     = Returned (Some 0%nat).
Proof.
  assert (H : fst (answer exampleLimit exampleBindings (PipelineManager.ReqCompute exampleCompute)
                     (PipelineManager.new (vkDeviceInit [])))
              = Returned (Some 0%nat)) by (vm_compute; reflexivity).
  split; [exact H|].
  rewrite (answer_stable exampleLimit exampleBindings _ _ _ exampleHistory H). reflexivity.
Defined.

Section ManagerSoundness.

Variable MaxNumActiveBindings : Z.
Variable getBindings : nat -> DxvkBindingLayout.

Lemma createPipelineLayout_stores (layout : DxvkBindingLayout) (mgr : DxvkPipelineManager) :
  (forall i k o, m_pipelineLayouts mgr !! i = Some (k, o) -> m_layout o = k) ->
  forall i k o,
    m_pipelineLayouts
      (snd (PipelineManager.createPipelineLayout MaxNumActiveBindings layout mgr)) !! i
      = Some (k, o) ->
    m_layout o = k.
Proof.
  intros Hold. unfold PipelineManager.createPipelineLayout.
  destruct (map_find BindingLayout.eq layout (m_pipelineLayouts mgr)); [exact Hold|].
  unfold eff_bind, PipelineManager.onDevice.
  destruct (BindingLayoutObjects.new MaxNumActiveBindings layout (m_device mgr))
    as [[o'|w|] d'] eqn:Hnew;
    simpl; [|exact Hold..].
  intros i k o Hi. unfold map_emplace in Hi.
  apply lookup_app_Some in Hi as [Hi | [_ Hi]]; [eapply Hold, Hi|].
  apply list_lookup_singleton_Some in Hi as [_ Hi]. injection Hi as <- <-.
  apply new_native in Hnew as (Hl & _). exact Hl.
Qed.

Lemma answer_sound (r : PipelineManager.request) (mgr : DxvkPipelineManager) :
  managerSound getBindings mgr ->
  managerSound getBindings (snd (answer MaxNumActiveBindings getBindings r mgr)).
Proof.
  intros (Hst & Hg & Hc). destruct r as [s|s]; simpl.
  - unfold PipelineManager.createComputePipeline.
    destruct (cs s) as [a|] eqn:Hcs; [|repeat split; assumption].
    destruct (map_find ComputeShaders_eq s (m_computePipelines mgr));
      [repeat split; assumption|].
    unfold eff_bind.
    pose proof (createPipelineLayout_effect MaxNumActiveBindings (getBindings a) mgr)
      as (Eg & Ec & [ext El] & Hret).
    pose proof (createPipelineLayout_stores (getBindings a) mgr Hst) as Hst'.
    destruct (PipelineManager.createPipelineLayout MaxNumActiveBindings (getBindings a) mgr)
      as [[i|what|] mgr']; simpl in *.
    + split; [exact Hst'|]. split.
      * intros p s0 e Hp. rewrite Eg in Hp. rewrite El.
        apply map_find_app_l. eapply Hg, Hp.
      * intros p s0 e Hp. unfold map_emplace in Hp. rewrite Ec in Hp.
        apply lookup_app_Some in Hp as [Hp | [_ Hp]].
        -- destruct (Hc _ _ _ Hp) as (a0 & Ha0 & Hfind). exists a0.
           split; [exact Ha0|]. rewrite El. apply map_find_app_l, Hfind.
        -- apply list_lookup_singleton_Some in Hp as [_ Hp]. injection Hp as <- <-.
           exists a. split; [exact Hcs|]. simpl. apply Hret. reflexivity.
    + split; [exact Hst'|]. split.
      * intros p s0 e Hp. rewrite Eg in Hp. rewrite El.
        apply map_find_app_l. eapply Hg, Hp.
      * intros p s0 e Hp. rewrite Ec in Hp.
        destruct (Hc _ _ _ Hp) as (a0 & Ha0 & Hfind). exists a0.
        split; [exact Ha0|]. rewrite El. apply map_find_app_l, Hfind.
    + split; [exact Hst'|]. split.
      * intros p s0 e Hp. rewrite Eg in Hp. rewrite El.
        apply map_find_app_l. eapply Hg, Hp.
      * intros p s0 e Hp. rewrite Ec in Hp.
        destruct (Hc _ _ _ Hp) as (a0 & Ha0 & Hfind). exists a0.
        split; [exact Ha0|]. rewrite El. apply map_find_app_l, Hfind.
  - unfold PipelineManager.createGraphicsPipeline.
    destruct (vs s) as [a|]; [|repeat split; assumption].
    destruct (map_find GraphicsShaders_eq s (m_graphicsPipelines mgr));
      [repeat split; assumption|].
    unfold eff_bind.
    pose proof (createPipelineLayout_effect MaxNumActiveBindings
                  (PipelineManager.mergedLayout getBindings s) mgr)
      as (Eg & Ec & [ext El] & Hret).
    pose proof (createPipelineLayout_stores
                  (PipelineManager.mergedLayout getBindings s) mgr Hst) as Hst'.
    destruct (PipelineManager.createPipelineLayout MaxNumActiveBindings
                (PipelineManager.mergedLayout getBindings s) mgr)
      as [[i|what|] mgr']; simpl in *.
    + split; [exact Hst'|]. split.
      * intros p s0 e Hp. unfold map_emplace in Hp. rewrite Eg in Hp.
        apply lookup_app_Some in Hp as [Hp | [_ Hp]].
        -- rewrite El. apply map_find_app_l. eapply Hg, Hp.
        -- apply list_lookup_singleton_Some in Hp as [_ Hp]. injection Hp as <- <-.
           simpl. apply Hret. reflexivity.
      * intros p s0 e Hp. rewrite Ec in Hp.
        destruct (Hc _ _ _ Hp) as (a0 & Ha0 & Hfind). exists a0.
        split; [exact Ha0|]. rewrite El. apply map_find_app_l, Hfind.
    + split; [exact Hst'|]. split.
      * intros p s0 e Hp. rewrite Eg in Hp. rewrite El.
        apply map_find_app_l. eapply Hg, Hp.
      * intros p s0 e Hp. rewrite Ec in Hp.
        destruct (Hc _ _ _ Hp) as (a0 & Ha0 & Hfind). exists a0.
        split; [exact Ha0|]. rewrite El. apply map_find_app_l, Hfind.
    + split; [exact Hst'|]. split.
      * intros p s0 e Hp. rewrite Eg in Hp. rewrite El.
        apply map_find_app_l. eapply Hg, Hp.
      * intros p s0 e Hp. rewrite Ec in Hp.
        destruct (Hc _ _ _ Hp) as (a0 & Ha0 & Hfind). exists a0.
        split; [exact Ha0|]. rewrite El. apply map_find_app_l, Hfind.
Qed.

Lemma managerAfter_sound (device : VkDevice) (history : list PipelineManager.request) :
  managerSound getBindings (managerAfter MaxNumActiveBindings getBindings device history).
Proof.
  unfold managerAfter.
  assert (H0 : managerSound getBindings (PipelineManager.new device)).
  { repeat split; intros ? ? ? H; simpl in H; rewrite lookup_nil in H; discriminate H. }
  revert H0. generalize (PipelineManager.new device).
  induction history as [|r rs IH]; intros mgr H; simpl; [exact H|].
  apply IH. rewrite serve_is_answer. apply answer_sound, H.
Qed.

End ManagerSoundness.

(** X28. No cached pipeline holds a dangling or a wrong layout pointer:
    after any history of requests, the layout pointer of every graphics
    pipeline designates the node of the layout cache that is keyed by the
    merged binding layout of its shaders, the one of every compute
    pipeline the node keyed by the binding layout of its compute shader,
    and the objects in that node were constructed from that layout. *)
Theorem pipelines_point_at_their_layout (MaxNumActiveBindings : Z)
    (getBindings : nat -> DxvkBindingLayout)
    (device : VkDevice) (history : list PipelineManager.request) :
  (forall p s e,
     m_graphicsPipelines (managerAfter MaxNumActiveBindings getBindings device history)
       !! p = Some (s, e) ->
     exists o,
       m_pipelineLayouts (managerAfter MaxNumActiveBindings getBindings device history)
         !! gp_layout e
         = Some (PipelineManager.mergedLayout getBindings s, o)
       /\ m_layout o = PipelineManager.mergedLayout getBindings s)
  /\ (forall p s e,
        m_computePipelines (managerAfter MaxNumActiveBindings getBindings device history)
          !! p = Some (s, e) ->
        exists a o,
          cs s = Some a
          /\ m_pipelineLayouts (managerAfter MaxNumActiveBindings getBindings device history)
               !! cp_layout e
             = Some (getBindings a, o)
          /\ m_layout o = getBindings a).
Proof.
  destruct (managerAfter_sound MaxNumActiveBindings getBindings device history)
    as (Hst & Hg & Hc).
  split.
  - intros p s e Hp.
    destruct (map_find_Some _ _ _ _ (Hg _ _ _ Hp)) as (k & o & Hlook & Hk).
    apply BindingLayout_eq_true in Hk as ->.
    exists o. split; [exact Hlook | eapply Hst, Hlook].
  - intros p s e Hp. destruct (Hc _ _ _ Hp) as (a & Ha & Hfind).
    destruct (map_find_Some _ _ _ _ Hfind) as (k & o & Hlook & Hk).
    apply BindingLayout_eq_true in Hk as ->.
    exists a, o. split; [exact Ha|]. split; [exact Hlook | eapply Hst, Hlook].
Qed.

(** ** [DxvkBindingLayout]: binding numbers are stable *)

Lemma continues_refl (x : DxvkBindingInfo) : continues x x.
Proof. split; [reflexivity|]. split; apply Z.lor_diag. Qed.

Lemma lor_contains_trans (a b c : Z) :
  Z.lor b a = b -> Z.lor c b = c -> Z.lor c a = c.
Proof.
  intros Hab Hbc. rewrite <- Hbc at 1. rewrite <- Z.lor_assoc, Hab. exact Hbc.
Qed.

Lemma continues_trans (x y z : DxvkBindingInfo) :
  continues x y -> continues y z -> continues x z.
Proof.
  intros (K1 & S1 & A1) (K2 & S2 & A2). split; [congruence|].
  split; eapply lor_contains_trans; eassumption.
Qed.

Lemma addToSet_index (bs : list DxvkBindingInfo) (b : DxvkBindingInfo)
    (i : nat) (x : DxvkBindingInfo) :
  bs !! i = Some x ->
  exists x', BindingLayout.addToSet bs b !! i = Some x' /\ continues x x'.
Proof.
  revert i. induction bs as [|y rest IH]; intros i Hi.
  - rewrite lookup_nil in Hi. discriminate Hi.
  - simpl. destruct (BindingInfo.canMerge y b) eqn:E.
    + destruct i as [|i]; simpl in *.
      * injection Hi as <-. exists (BindingInfo.merge y b). split; [reflexivity|].
        split; [apply merge_key, E|].
        change (stages (BindingInfo.merge y b)) with (Z.lor (stages y) (stages b)).
        change (access (BindingInfo.merge y b)) with (Z.lor (access y) (access b)).
        split; rewrite (Z.lor_comm _ (stages y)) || rewrite (Z.lor_comm _ (access y));
          rewrite Z.lor_assoc, Z.lor_diag; reflexivity.
      * exists x. split; [exact Hi | apply continues_refl].
    + destruct i as [|i]; simpl in *.
      * injection Hi as <-. exists y. split; [reflexivity | apply continues_refl].
      * apply IH, Hi.
Qed.

Lemma addBinding_index (l : DxvkBindingLayout) (b : DxvkBindingInfo)
    (s : Z) (i : nat) (x : DxvkBindingInfo) :
  s ∈ set_indices ->
  sa_get (m_bindings l) s !! i = Some x ->
  exists x', sa_get (m_bindings (BindingLayout.addBinding l b)) s !! i = Some x'
    /\ continues x x'.
Proof.
  intros Hs Hi. unfold BindingLayout.addBinding. simpl.
  destruct (decide (BindingInfo.computeSetIndex b = s)) as [Heq|Hne].
  - rewrite Heq, sa_get_set_same. apply addToSet_index, Hi.
  - rewrite sa_get_set_other; [|apply computeSetIndex_range | exact Hs | exact Hne].
    exists x. split; [exact Hi | apply continues_refl].
Qed.

Lemma addBindings_index (bs : list DxvkBindingInfo) (l : DxvkBindingLayout)
    (s : Z) (i : nat) (x : DxvkBindingInfo) :
  s ∈ set_indices ->
  sa_get (m_bindings l) s !! i = Some x ->
  exists x', sa_get (m_bindings (fold_left BindingLayout.addBinding bs l)) s !! i = Some x'
    /\ continues x x'.
Proof.
  intros Hs. revert l x. induction bs as [|b bs IH]; intros l x Hi; simpl.
  - exists x. split; [exact Hi | apply continues_refl].
  - destruct (addBinding_index l b s i x Hs Hi) as (x1 & H1 & C1).
    destruct (IH _ _ H1) as (x2 & H2 & C2).
    exists x2. split; [exact H2 | eapply continues_trans; eassumption].
Qed.

Lemma applyOp_index (l : DxvkBindingLayout) (op : layoutOp)
    (s : Z) (i : nat) (x : DxvkBindingInfo) :
  s ∈ set_indices ->
  sa_get (m_bindings l) s !! i = Some x ->
  exists x', sa_get (m_bindings (applyOp l op)) s !! i = Some x' /\ continues x x'.
Proof.
  intros Hs Hi. destruct op as [b|r|other]; simpl.
  - apply addBinding_index; assumption.
  - exists x. split; [exact Hi | apply continues_refl].
  - unfold BindingLayout.merge, BindingLayout.addPushConstantRange. simpl.
    apply addBindings_index; assumption.
Qed.

(** X29. The binding numbers of a layout are stable: an entry at
    position [i] of a set stays at position [i] of that set through every
    later [addBinding], [addPushConstantRange] and [merge]; it keeps its
    descriptor type, slot, view type and fragment-stage presence, and its
    stage and access masks can only gain bits. *)
Theorem binding_index_stable (l : DxvkBindingLayout) (ops : list layoutOp)
    (s : Z) (i : nat) (x : DxvkBindingInfo) :
  s ∈ set_indices ->
  sa_get (m_bindings l) s !! i = Some x ->
  exists x',
    sa_get (m_bindings (fold_left applyOp ops l)) s !! i = Some x'
    /\ sameMergeClass x' x
    /\ Z.lor (stages x') (stages x) = stages x'
    /\ Z.lor (access x') (access x) = access x'.
Proof.
  intros Hs Hi.
  assert (H : exists x', sa_get (m_bindings (fold_left applyOp ops l)) s !! i = Some x'
                /\ continues x x').
  { revert l x Hi. induction ops as [|op ops IH]; intros l x Hi; simpl.
    - exists x. split; [exact Hi | apply continues_refl].
    - destruct (applyOp_index l op s i x Hs Hi) as (x1 & H1 & C1).
      destruct (IH _ _ H1) as (x2 & H2 & C2).
      exists x2. split; [exact H2 | eapply continues_trans; eassumption]. }
  destruct H as (x' & Hx' & Hkey & Hst & Hac).
  exists x'. split; [exact Hx'|]. split; [|split; assumption].
  apply canMerge_key in Hkey. apply canMerge_iff in Hkey as (H1 & H2 & H3 & H4).
  repeat split; assumption.
Qed.

Lemma binding_index_stable_witness :
  2 ∈ set_indices
  /\ sa_get (m_bindings exampleLayout) 2 !! 1%nat
     = Some (mkBindingInfo VK_DESCRIPTOR_TYPE_UNIFORM_BUFFER 5 0 VK_SHADER_STAGE_VERTEX_BIT 0)
  /\ exists x',
       sa_get (m_bindings (fold_left applyOp exampleOps exampleLayout)) 2 !! 1%nat = Some x'
       /\ resourceBinding x' = 5.
Proof.
  assert (Hs : 2 ∈ set_indices) by apply set_indices_elem.
  assert (Hi : sa_get (m_bindings exampleLayout) 2 !! 1%nat
               = Some (mkBindingInfo VK_DESCRIPTOR_TYPE_UNIFORM_BUFFER 5 0
                         VK_SHADER_STAGE_VERTEX_BIT 0)) by reflexivity.
  split; [exact Hs|]. split; [exact Hi|].
  destruct (binding_index_stable exampleLayout exampleOps 2 1 _ Hs Hi)
    as (x' & Hx' & (_ & Hslot & _) & _).
  exists x'. split; [exact Hx' | exact Hslot].
Defined.
